(** * Cybersecurity Club backend: request validation and data-integrity pipeline

    A shallow embedding of the FastAPI backend under [backend/app]:
    the string sanitizer ([utils/validation.py]), the credential verifier
    ([security.py]), the PDF upload validator ([services/file_service.py]),
    the structured errors ([utils/errors.py], [main.py]) and the write paths
    of the event, registration, hackathon-team and resource routers
    ([api/*.py]) over the tables declared in [models.py].

    Conventions of the model.
    - A Python [str] is a Rocq [string]; the builtins [strip], [lower] and
      [upper] are Python's on ASCII text.  A [bytes] value is a list of bytes.
    - A Python [int] is a [Z]; [Optional[t]] is [option t].
    - A UUID is represented by its canonical text, so [str(uuid)] is the
      identity; freshly drawn values ([uuid.uuid4()]) are inputs of the
      handlers, as are the clock ([date.today()]).
    - A table is the list of its rows in insertion order.  The constraints
      declared in [models.py] (primary keys, [UniqueConstraint]) are checked
      by the insert operations, which fail with [IntegrityError] as the
      storage layer does.  Audit timestamps ([created_at], [updated_at],
      [timestamp]) are not part of the rows of the model.
    - A handler is a function from the committed state to an outcome and the
      state that is committed afterwards: changes that are flushed but not
      committed when an exception leaves the handler are dropped.
    - Third-party libraries (bleach, argon2, python-magic, the e-mail
      validator) are Section variables. *)

From stdpp Require Import gmap strings list pretty.
From Stdlib Require Import ZArith Lia Ascii String List.
Import ListNotations.

Local Open Scope string_scope.
Local Open Scope Z_scope.

(** ** Python builtins on strings and bytes *)

Module Py.

(** [str.isspace] on one ASCII character: TAB..CR, FS..US and the space. *)
Definition is_space (c : ascii) : bool :=
  let n := nat_of_ascii c in
  ((9 <=? n)%nat && (n <=? 13)%nat) || ((28 <=? n)%nat && (n <=? 32)%nat).

Fixpoint lstrip (s : string) : string :=
  match s with
  | EmptyString => EmptyString
  | String c s' => if is_space c then lstrip s' else s
  end.

Fixpoint rstrip (s : string) : string :=
  match s with
  | EmptyString => EmptyString
  | String c s' =>
      match rstrip s' with
      | EmptyString => if is_space c then EmptyString else String c EmptyString
      | r => String c r
      end
  end.

(** [s.strip()] *)
Definition strip (s : string) : string := rstrip (lstrip s).

(** [len(s)] *)
Definition len (s : string) : Z := Z.of_nat (String.length s).

Fixpoint take (n : nat) (s : string) : string :=
  match n, s with
  | S n', String c s' => String c (take n' s')
  | _, _ => EmptyString
  end.

(** [s[:n]]: a negative bound counts from the end. *)
Definition slice_to (s : string) (n : Z) : string :=
  if n <? 0 then take (Z.to_nat (Z.max 0 (len s + n))) s
  else take (Z.to_nat n) s.

Definition lower_char (c : ascii) : ascii :=
  let n := nat_of_ascii c in
  if ((65 <=? n)%nat && (n <=? 90)%nat) then ascii_of_nat (n + 32) else c.

Definition upper_char (c : ascii) : ascii :=
  let n := nat_of_ascii c in
  if ((97 <=? n)%nat && (n <=? 122)%nat) then ascii_of_nat (n - 32) else c.

Fixpoint map_chars (f : ascii -> ascii) (s : string) : string :=
  match s with
  | EmptyString => EmptyString
  | String c s' => String (f c) (map_chars f s')
  end.

(** [s.lower()] and [s.upper()] *)
Definition lower : string -> string := map_chars lower_char.
Definition upper : string -> string := map_chars upper_char.

(** [s.endswith(suffix)]: some tail of [s] is [suffix]. *)
Fixpoint endswith (s suffix : string) : bool :=
  String.eqb s suffix ||
  match s with
  | EmptyString => false
  | String _ s' => endswith s' suffix
  end.

(** Truthiness of an optional string ([if not s]) and of an optional
    integer ([if n]). *)
Definition truthy_str (s : option string) : bool :=
  match s with
  | Some (String _ _) => true
  | _ => false
  end.

Definition truthy_int (n : option Z) : bool :=
  match n with
  | Some k => negb (k =? 0)
  | None => false
  end.

End Py.

(** ** utils/validation.py *)

Section Validation.

(** [bleach.clean(text, tags=tags, attributes={}, strip=True)] *)
Variable bleach_clean : list string -> string -> string.

(** [sanitize_string(input_str, max_length)].  The argument is a [str]
    by its type here, so the [isinstance] guard always passes. *)
Definition sanitize_string (input_str : string) (max_length : option Z) : string :=
  let cleaned := bleach_clean [] input_str in
  let cleaned := Py.strip cleaned in
  match max_length with
  | Some n =>
      if Py.truthy_int max_length && (Py.len cleaned >? n)
      then Py.slice_to cleaned n
      else cleaned
  | None => cleaned
  end.

Definition allowed_tags : list string :=
  ["p"; "br"; "strong"; "em"; "u"; "ul"; "ol"; "li"].

(** [sanitize_text(input_str)] *)
Definition sanitize_text (input_str : string) : string :=
  Py.strip (bleach_clean allowed_tags input_str).

End Validation.

(** A cleaner for text that carries no markup: bleach leaves a text without
    [<], [>] and [&] as it is.  It stands for bleach where a statement is
    evaluated on such a text. *)
Definition plain_clean (tags : list string) (text : string) : string := text.

(** ** Outcomes and structured errors (utils/errors.py, main.py) *)

(** Exceptions that leave a handler.  [AppException] carries the fields
    set by its constructor; [HTTPException] is FastAPI's own;
    [RequestValidationError] is raised by the framework when the request
    body fails its schema; [Unhandled] is any other exception class,
    named, that no [except] clause caught. *)
Inductive exn : Type :=
| AppException (status_code : Z) (error_code : string) (detail : string)
| HTTPException (status_code : Z) (detail : string)
| RequestValidationError (errors : list (string * string))
| Unhandled (class_name : string).

(** The outcome of a route: the value returned, with the status code of the
    route decorator, or the exception raised. *)
Inductive result (A : Type) : Type :=
| Returned (status_code : Z) (body : A)
| Raised (e : exn).
Arguments Returned {A} status_code body.
Arguments Raised {A} e.

Definition UnauthorizedError (message : string) : exn :=
  AppException 401 "UNAUTHORIZED" message.

Definition ForbiddenError (message : string) : exn :=
  AppException 403 "FORBIDDEN" message.

Definition NotFoundError (resource : string) (resource_id : option string) : exn :=
  let message := resource +:+ " not found" in
  let message :=
    match resource_id with
    | Some (String _ _ as i) => message +:+ " (ID: " +:+ i +:+ ")"
    | _ => message
    end in
  AppException 404 "NOT_FOUND" message.

Definition ValidationError (message : string) : exn :=
  AppException 422 "VALIDATION_ERROR" message.

Definition ConflictError (message : string) : exn :=
  AppException 409 "CONFLICT" message.

Definition RateLimitError (message : string) : exn :=
  AppException 429 "TOO_MANY_REQUESTS" message.

(** [ErrorDetail] of schemas.py and the JSON response around it.  The
    [details] dictionary is the list of its field entries. *)
Record ErrorDetail : Type := {
  code : string;
  message : string;
  details : list (string * string)
}.

Record JSONResponse : Type := {
  status_code : Z;
  content : ErrorDetail
}.

Definition create_error_response (error_code message : string)
    (details : list (string * string)) : ErrorDetail :=
  {| code := error_code; message := message; details := details |}.

(** [error_code_map.get(status, "HTTP_ERROR")] of [http_exception_handler] *)
Definition error_code_map (status : Z) : string :=
  if status =? 401 then "UNAUTHORIZED"
  else if status =? 403 then "FORBIDDEN"
  else if status =? 404 then "NOT_FOUND"
  else if status =? 409 then "CONFLICT"
  else if status =? 413 then "PAYLOAD_TOO_LARGE"
  else if status =? 429 then "TOO_MANY_REQUESTS"
  else if status =? 500 then "INTERNAL_SERVER_ERROR"
  else "HTTP_ERROR".

(** The three exception handlers registered in main.py; an exception of
    another class reaches none of them. *)
Definition exception_handler (e : exn) : option JSONResponse :=
  match e with
  | AppException status error_code detail =>
      Some {| status_code := status;
              content := create_error_response error_code detail [] |}
  | HTTPException status detail =>
      Some {| status_code := status;
              content := create_error_response (error_code_map status)
                           (match detail with
                            | EmptyString => "An error occurred"
                            | _ => detail
                            end) [] |}
  | RequestValidationError errors =>
      Some {| status_code := 422;
              content := create_error_response "VALIDATION_ERROR"
                           "Validation error" errors |}
  | Unhandled _ => None
  end.

(** What a client observes of an outcome: the HTTP status and, for an
    error envelope, its machine code. *)
Definition http_status {A} (r : result A) : option Z :=
  match r with
  | Returned status _ => Some status
  | Raised e => status_code <$> exception_handler e
  end.

Definition machine_code {A} (r : result A) : option string :=
  match r with
  | Returned _ _ => None
  | Raised e => (fun j => code (content j)) <$> exception_handler e
  end.

(** ** models.py *)

Definition UUID : Type := string.

(** A [date] is its proleptic ordinal ([date.toordinal()]): comparison of
    dates is comparison of ordinals. *)
Definition date : Type := Z.

Inductive EventType : Type := WORKSHOP | HACKATHON | SEMINAR | BOOTCAMP | LECTURE.

Inductive ResourceLevel : Type := BEGINNER | INTERMEDIATE | ADVANCED.

Definition EventType_eqb (a b : EventType) : bool :=
  match a, b with
  | WORKSHOP, WORKSHOP | HACKATHON, HACKATHON | SEMINAR, SEMINAR
  | BOOTCAMP, BOOTCAMP | LECTURE, LECTURE => true
  | _, _ => false
  end.

Module Event.
Record t : Type := {
  id : UUID;
  title : string;
  type : EventType;
  date : Z;
  description : option string;
  is_active : bool
}.
End Event.

Module Registration.
Record t : Type := {
  id : UUID;
  event_id : UUID;
  operative_name : string;
  moodle_id : string
}.
End Registration.

Module Resource.
Record t : Type := {
  id : UUID;
  title : string;
  level : ResourceLevel;
  file_url : string;
  file_size : option Z
}.
End Resource.

Module HackathonTeam.
Record t : Type := {
  id : UUID;
  event_name : string;
  team_name : string
}.
End HackathonTeam.

Module TeamMember.
Record t : Type := {
  id : UUID;
  team_id : UUID;
  name : string;
  email : string;
  moodle_id : string;
  roll_no : string;
  division : string;
  department : string;
  year : string;
  mobile : string;
  is_leader : bool
}.
End TeamMember.

(** The committed state of the store. *)
Record Database : Type := {
  events : list Event.t;
  registrations : list Registration.t;
  resources : list Resource.t;
  hackathon_teams : list HackathonTeam.t;
  team_members : list TeamMember.t
}.

Definition empty_db : Database :=
  {| events := []; registrations := []; resources := [];
     hackathon_teams := []; team_members := [] |}.

(** *** Inserts, with the declared constraints.  [None] is [IntegrityError]. *)

(** events: primary key. *)
Definition insert_event (e : Event.t) (db : Database) : option Database :=
  if existsb (fun e' => String.eqb (Event.id e') (Event.id e)) (events db)
  then None
  else Some {| events := events db ++ [e];
               registrations := registrations db;
               resources := resources db;
               hackathon_teams := hackathon_teams db;
               team_members := team_members db |}.

(** registrations: primary key, foreign key to events, and
    [UniqueConstraint('event_id', 'moodle_id')]. *)
Definition unique_event_moodle (event_id : UUID) (moodle_id : string)
    (r : Registration.t) : bool :=
  String.eqb (Registration.event_id r) event_id
  && String.eqb (Registration.moodle_id r) moodle_id.

Definition insert_registration (r : Registration.t) (db : Database) : option Database :=
  if existsb (fun r' => String.eqb (Registration.id r') (Registration.id r))
       (registrations db)
     || negb (existsb (fun e => String.eqb (Event.id e) (Registration.event_id r))
                (events db))
     || existsb (unique_event_moodle (Registration.event_id r) (Registration.moodle_id r))
          (registrations db)
  then None
  else Some {| events := events db;
               registrations := registrations db ++ [r];
               resources := resources db;
               hackathon_teams := hackathon_teams db;
               team_members := team_members db |}.

(** [UPDATE events SET ... WHERE id = pk], the statement a commit issues
    for a modified [Event] object. *)
Definition update_event_row (pk : UUID) (f : Event.t -> Event.t) (db : Database) : Database :=
  {| events := map (fun e => if String.eqb (Event.id e) pk then f e else e) (events db);
     registrations := registrations db;
     resources := resources db;
     hackathon_teams := hackathon_teams db;
     team_members := team_members db |}.

(** [ORDER BY date DESC]: a stable insertion sort. *)
Fixpoint insert_date_desc (e : Event.t) (l : list Event.t) : list Event.t :=
  match l with
  | [] => [e]
  | x :: l' =>
      if Event.date x <=? Event.date e then e :: l
      else x :: insert_date_desc e l'
  end.

Fixpoint order_by_date_desc (l : list Event.t) : list Event.t :=
  match l with
  | [] => []
  | e :: l' => insert_date_desc e (order_by_date_desc l')
  end.

(** ** schemas.py: the validated request bodies the handlers receive *)

Module EventCreate.
Record t : Type := {
  title : string;
  type : EventType;
  date : Z;
  description : option string
}.
End EventCreate.

Module EventUpdate.
Record t : Type := {
  title : option string;
  type : option EventType;
  date : option Z;
  description : option string;
  is_active : option bool
}.
End EventUpdate.

Module RegistrationCreate.
Record t : Type := {
  event_id : UUID;
  operative_name : string;
  moodle_id : string
}.
End RegistrationCreate.

(** Attribute assignments on an [Event] object. *)
Definition set_title (v : string) (e : Event.t) : Event.t :=
  {| Event.id := Event.id e; Event.title := v; Event.type := Event.type e;
     Event.date := Event.date e; Event.description := Event.description e;
     Event.is_active := Event.is_active e |}.

Definition set_type (v : EventType) (e : Event.t) : Event.t :=
  {| Event.id := Event.id e; Event.title := Event.title e; Event.type := v;
     Event.date := Event.date e; Event.description := Event.description e;
     Event.is_active := Event.is_active e |}.

Definition set_date (v : Z) (e : Event.t) : Event.t :=
  {| Event.id := Event.id e; Event.title := Event.title e; Event.type := Event.type e;
     Event.date := v; Event.description := Event.description e;
     Event.is_active := Event.is_active e |}.

Definition set_description (v : option string) (e : Event.t) : Event.t :=
  {| Event.id := Event.id e; Event.title := Event.title e; Event.type := Event.type e;
     Event.date := Event.date e; Event.description := v;
     Event.is_active := Event.is_active e |}.

Definition set_is_active (v : bool) (e : Event.t) : Event.t :=
  {| Event.id := Event.id e; Event.title := Event.title e; Event.type := Event.type e;
     Event.date := Event.date e; Event.description := Event.description e;
     Event.is_active := v |}.

(** [db.query(Event).filter(Event.id == event_id).first()] *)
Definition query_event (event_id : UUID) (db : Database) : option Event.t :=
  find (fun e => String.eqb (Event.id e) event_id) (events db).

(** ** api/events.py *)

Section Events.

Variable bleach_clean : list string -> string -> string.

(** [get_events(type, is_active)] *)
Definition get_events (type : option EventType) (is_active : option bool)
    (db : Database) : list Event.t :=
  let query := events db in
  let query :=
    match type with
    | Some t => List.filter (fun e => EventType_eqb (Event.type e) t) query
    | None => query
    end in
  let query :=
    match is_active with
    | Some b => List.filter (fun e => Bool.eqb (Event.is_active e) b) query
    | None => query
    end in
  order_by_date_desc query.

(** [get_event(event_id)] *)
Definition get_event (event_id : UUID) (db : Database) : result Event.t :=
  match query_event event_id db with
  | None => Raised (NotFoundError "Event" (Some event_id))
  | Some event => Returned 200 event
  end.

(** [create_event(event_data)], with the identifier drawn for the new row
    and the current day. *)
Definition create_event (uuid4 : UUID) (today : date)
    (event_data : EventCreate.t) (db : Database) : result Event.t * Database :=
  let title := sanitize_string bleach_clean (EventCreate.title event_data) (Some 200) in
  let description :=
    match EventCreate.description event_data with
    | Some (String _ _ as d) => Some (sanitize_text bleach_clean d)
    | _ => None
    end in
  if EventCreate.date event_data <? today
  then (Raised (ValidationError "Event date cannot be in the past"), db)
  else
    let event :=
      {| Event.id := uuid4; Event.title := title;
         Event.type := EventCreate.type event_data;
         Event.date := EventCreate.date event_data;
         Event.description := description;
         Event.is_active := true |} in
    match insert_event event db with
    | None => (Raised (Unhandled "IntegrityError"), db)
    | Some db' => (Returned 201 event, db')
    end.

(** The assignments of [update_event] that precede the date check, and
    those that follow it. *)
Definition update_before_date (event_data : EventUpdate.t) (e : Event.t) : Event.t :=
  let e :=
    match EventUpdate.title event_data with
    | Some t => set_title (sanitize_string bleach_clean t (Some 200)) e
    | None => e
    end in
  match EventUpdate.type event_data with
  | Some t => set_type t e
  | None => e
  end.

Definition update_after_date (event_data : EventUpdate.t) (e : Event.t) : Event.t :=
  let e :=
    match EventUpdate.description event_data with
    | Some d => set_description (Some (sanitize_text bleach_clean d)) e
    | None => e
    end in
  match EventUpdate.is_active event_data with
  | Some b => set_is_active b e
  | None => e
  end.

(** [update_event(event_id, event_data)].  The object is modified in the
    session; only [db.commit()] writes it to the store. *)
Definition update_event (today : date) (event_id : UUID)
    (event_data : EventUpdate.t) (db : Database) : result Event.t * Database :=
  match query_event event_id db with
  | None => (Raised (NotFoundError "Event" (Some event_id)), db)
  | Some event =>
      let f1 := update_before_date event_data in
      match EventUpdate.date event_data with
      | Some d =>
          if d <? today
          then (Raised (ValidationError "Event date cannot be in the past"), db)
          else
            let f := fun e => update_after_date event_data (set_date d (f1 e)) in
            (Returned 200 (f event), update_event_row (Event.id event) f db)
      | None =>
          let f := fun e => update_after_date event_data (f1 e) in
          (Returned 200 (f event), update_event_row (Event.id event) f db)
      end
  end.

(** [delete_event(event_id)]: a soft delete. *)
Definition delete_event (event_id : UUID) (db : Database) : result unit * Database :=
  match query_event event_id db with
  | None => (Raised (NotFoundError "Event" (Some event_id)), db)
  | Some event =>
      (Returned 204 tt, update_event_row (Event.id event) (set_is_active false) db)
  end.

End Events.

(** ** api/registrations.py *)

Section Registrations.

Variable bleach_clean : list string -> string -> string.

(** [create_registration(registration_data)], with the identifier drawn
    for the new row. *)
Definition create_registration (uuid4 : UUID)
    (registration_data : RegistrationCreate.t) (db : Database)
    : result Registration.t * Database :=
  let operative_name :=
    sanitize_string bleach_clean
      (RegistrationCreate.operative_name registration_data) (Some 100) in
  let moodle_id := RegistrationCreate.moodle_id registration_data in
  match find (fun e =>
                String.eqb (Event.id e) (RegistrationCreate.event_id registration_data)
                && Bool.eqb (Event.is_active e) true) (events db) with
  | None =>
      (Raised (NotFoundError "Event"
                 (Some (RegistrationCreate.event_id registration_data))), db)
  | Some event =>
      let registration :=
        {| Registration.id := uuid4;
           Registration.event_id := RegistrationCreate.event_id registration_data;
           Registration.operative_name := operative_name;
           Registration.moodle_id := moodle_id |} in
      match insert_registration registration db with
      | None =>
          (Raised (ConflictError
                     ("Registration already exists for Moodle ID " +:+ moodle_id
                      +:+ " and event " +:+ Event.title event)), db)
      | Some db' => (Returned 201 registration, db')
      end
  end.

(** The registration rows of one [(event_id, moodle_id)] pair. *)
Definition rows_of_pair (event_id : UUID) (moodle_id : string) (db : Database)
    : list Registration.t :=
  List.filter (unique_event_moodle event_id moodle_id) (registrations db).

End Registrations.

(** ** security.py *)

(** The outcome of a plain function call: a value or an exception. *)
Inductive call (A : Type) : Type :=
| Return (v : A)
| Raise (e : exn).
Arguments Return {A} v.
Arguments Raise {A} e.

(** What [PasswordHasher.verify] of argon2 does: it returns [True], or it
    raises [VerifyMismatchError] (the password does not match),
    [VerificationError] (verification failed for another reason) or
    [InvalidHashError] (the hash cannot be passed to Argon2 at all). *)
Inductive argon2_outcome : Type :=
| Verified
| VerifyMismatchError
| VerificationError
| InvalidHashError.

(** [PasswordHasher.verify(hash, password)] dispatches on the nine leading
    characters of the hash and raises [InvalidHashError] when they are none
    of the three Argon2 headers; [verify_secret] is the comparison itself. *)
Definition argon2_header (hash : string) : bool :=
  let h := Py.take 9 hash in
  String.eqb h "$argon2i$" || String.eqb h "$argon2d$" || String.eqb h "$argon2id".

Definition PasswordHasher_verify
    (verify_secret : string -> string -> argon2_outcome)
    (hash password : string) : argon2_outcome :=
  if argon2_header hash then verify_secret hash password else InvalidHashError.

Section Security.

(** [ph.verify] *)
Variable ph_verify : string -> string -> argon2_outcome.

(** [verify_password(plain_password, hashed_password)]: only
    [VerifyMismatchError] is caught. *)
Definition verify_password (plain_password hashed_password : string) : call bool :=
  match ph_verify hashed_password plain_password with
  | Verified => Return true
  | VerifyMismatchError => Return false
  | VerificationError => Raise (Unhandled "VerificationError")
  | InvalidHashError => Raise (Unhandled "InvalidHashError")
  end.

End Security.

(** ** config.py *)

Record Settings : Type := {
  upload_dir : string;
  max_file_size_mb : Z
}.

(** The defaults of [Settings]; the directory is written as [pathlib]
    normalises ["./uploads"]. *)
Definition default_settings : Settings :=
  {| upload_dir := "uploads"; max_file_size_mb := 10 |}.

Definition max_file_size_bytes (settings : Settings) : Z :=
  max_file_size_mb settings * 1024 * 1024.

(** ** The file store and the order of effects *)

Definition bytes : Type := list Byte.byte.

Inductive node : Type :=
| File (file_content : bytes)
| Dir.

(** An effect on the durable stores, as it happens. *)
Inductive effect : Type :=
| Unlink (path : string)
| Write (path : string)
| Commit.

Definition effect_eqb (a b : effect) : bool :=
  match a, b with
  | Unlink p, Unlink q => String.eqb p q
  | Write p, Write q => String.eqb p q
  | Commit, Commit => true
  | _, _ => false
  end.

(** The state a resource handler runs in: the committed store, the file
    system and the effects performed so far, oldest first. *)
Record World : Type := {
  store : Database;
  fs : gmap string node;
  log : list effect
}.

Definition path_exists (path : string) (w : World) : bool :=
  match fs w !! path with
  | Some _ => true
  | None => false
  end.

Definition path_is_file (path : string) (w : World) : bool :=
  match fs w !! path with
  | Some (File _) => true
  | _ => false
  end.

Definition unlink (path : string) (w : World) : World :=
  {| store := store w; fs := delete path (fs w); log := log w ++ [Unlink path] |}.

Definition mkdir_exist_ok (path : string) (w : World) : World :=
  match fs w !! path with
  | Some _ => w
  | None => {| store := store w; fs := <[path := Dir]> (fs w); log := log w |}
  end.

Definition write_file (path : string) (data : bytes) (w : World) : World :=
  {| store := store w; fs := <[path := File data]> (fs w);
     log := log w ++ [Write path] |}.

Definition commit (db : Database) (w : World) : World :=
  {| store := db; fs := fs w; log := log w ++ [Commit] |}.

(** [a] has happened in [tr] before the first occurrence of [b]. *)
Fixpoint happens_before (a b : effect) (tr : list effect) : bool :=
  match tr with
  | [] => false
  | x :: tr' =>
      if effect_eqb x b then false
      else if effect_eqb x a then existsb (effect_eqb b) tr'
      else happens_before a b tr'
  end.

(** The ordering the specification asks for: if the file at [old] is
    deleted at all, then [a] has happened before that. *)
Definition deleted_only_after (a : effect) (old : string) (tr : list effect) : Prop :=
  In (Unlink old) tr -> happens_before a (Unlink old) tr = true.

(** ** services/file_service.py *)

Record UploadFile : Type := {
  filename : option string;
  content_type : option string;
  file : bytes
}.

Fixpoint bytes_eqb (a b : bytes) : bool :=
  match a, b with
  | [], [] => true
  | x :: a', y :: b' => Byte.eqb x y && bytes_eqb a' b'
  | _, _ => false
  end.

(** [b'%PDF'] *)
Definition pdf_signature : bytes := [Byte.x25; Byte.x50; Byte.x44; Byte.x46].

(** [validate_pdf_file(file)] *)
Definition validate_pdf_file (f : UploadFile) : bool * option string :=
  (* Check file extension *)
  if negb (Py.truthy_str (filename f))
     || negb (Py.endswith (Py.lower (default "" (filename f))) ".pdf")
  then (false, Some "File must be a PDF (.pdf extension required)")
  (* Check content type *)
  else if negb (match content_type f with
                | Some t => String.eqb t "application/pdf"
                | None => false
                end)
  then (false, Some "File must be of type application/pdf")
  else (true, None).

(** The four conditions on an upload, in the words of the specification. *)
Definition has_pdf_suffix (f : UploadFile) : Prop :=
  exists name, filename f = Some name /\ Py.endswith (Py.lower name) ".pdf" = true.

Definition declares_pdf (f : UploadFile) : Prop :=
  content_type f = Some "application/pdf".

Definition within_size_limit (settings : Settings) (f : UploadFile) : Prop :=
  Z.of_nat (length (file f)) <= max_file_size_bytes settings.

Definition starts_with_pdf_signature (f : UploadFile) : Prop :=
  firstn 4 (file f) = pdf_signature.

Section FileService.

(** [magic.Magic(mime=True).from_buffer]; [None] when python-magic cannot
    be imported or raises. *)
Variable magic_from_buffer : bytes -> option string.

Variable settings : Settings.

(** [validate_pdf_magic_bytes(file_content)] *)
Definition validate_pdf_magic_bytes (file_content : bytes) : bool :=
  if (length file_content <? 4)%nat then false
  else if negb (bytes_eqb (firstn 4 file_content) pdf_signature) then false
  else
    match magic_from_buffer file_content with
    | Some detected_type => String.eqb detected_type "application/pdf"
    | None => true
    end.

(** [save_pdf_file(file)], with the identifier drawn for the file name. *)
Definition save_pdf_file (uuid4 : UUID) (f : UploadFile) (w : World)
    : call (string * Z) * World :=
  let file_content := file f in
  let file_size := Z.of_nat (length file_content) in
  if file_size >? max_file_size_bytes settings
  then (Raise (HTTPException 413
                 ("File size exceeds maximum allowed size of "
                  +:+ pretty (max_file_size_mb settings) +:+ "MB")), w)
  else if negb (validate_pdf_magic_bytes file_content)
  then (Raise (HTTPException 400 "File is not a valid PDF"), w)
  else
    let filename := uuid4 +:+ ".pdf" in
    let w := mkdir_exist_ok (upload_dir settings) w in
    let file_path := upload_dir settings +:+ "/" +:+ filename in
    let w := write_file file_path file_content w in
    (Return ("uploads/" +:+ filename, file_size), w).

(** [delete_file(file_url)] *)
Definition delete_file (file_url : string) (w : World) : bool * World :=
  if path_exists file_url w && path_is_file file_url w
  then (true, unlink file_url w)
  else (false, w).

(** [file_exists(file_url)] *)
Definition file_exists (file_url : string) (w : World) : bool :=
  path_exists file_url w && path_is_file file_url w.

End FileService.

(** ** api/resources.py *)

(** resources: primary key and the unique [file_url]. *)
Definition insert_resource (r : Resource.t) (db : Database) : option Database :=
  if existsb (fun r' => String.eqb (Resource.id r') (Resource.id r)) (resources db)
     || existsb (fun r' => String.eqb (Resource.file_url r') (Resource.file_url r))
          (resources db)
  then None
  else Some {| events := events db;
               registrations := registrations db;
               resources := resources db ++ [r];
               hackathon_teams := hackathon_teams db;
               team_members := team_members db |}.

(** [UPDATE resources SET ... WHERE id = pk]; [None] when [file_url] is
    among the columns written and its new value is that of another row. *)
Definition update_resource_row (pk : UUID) (url_written : bool) (r : Resource.t)
    (db : Database) : option Database :=
  if url_written
     && existsb (fun r' => negb (String.eqb (Resource.id r') pk)
                           && String.eqb (Resource.file_url r') (Resource.file_url r))
          (resources db)
  then None
  else Some {| events := events db;
               registrations := registrations db;
               resources := map (fun r' => if String.eqb (Resource.id r') pk
                                           then r else r') (resources db);
               hackathon_teams := hackathon_teams db;
               team_members := team_members db |}.

(** [DELETE FROM resources WHERE id = pk] *)
Definition delete_resource_row (pk : UUID) (db : Database) : Database :=
  {| events := events db;
     registrations := registrations db;
     resources := List.filter (fun r' => negb (String.eqb (Resource.id r') pk))
                    (resources db);
     hackathon_teams := hackathon_teams db;
     team_members := team_members db |}.

(** [db.query(Resource).filter(Resource.id == resource_id).first()] *)
Definition query_resource (resource_id : UUID) (db : Database) : option Resource.t :=
  find (fun r => String.eqb (Resource.id r) resource_id) (resources db).

Definition set_resource_title (v : string) (r : Resource.t) : Resource.t :=
  {| Resource.id := Resource.id r; Resource.title := v;
     Resource.level := Resource.level r; Resource.file_url := Resource.file_url r;
     Resource.file_size := Resource.file_size r |}.

Definition set_resource_level (v : ResourceLevel) (r : Resource.t) : Resource.t :=
  {| Resource.id := Resource.id r; Resource.title := Resource.title r;
     Resource.level := v; Resource.file_url := Resource.file_url r;
     Resource.file_size := Resource.file_size r |}.

Definition set_resource_file (url : string) (size : Z) (r : Resource.t) : Resource.t :=
  {| Resource.id := Resource.id r; Resource.title := Resource.title r;
     Resource.level := Resource.level r; Resource.file_url := url;
     Resource.file_size := Some size |}.

Section Resources.

Variable bleach_clean : list string -> string -> string.
Variable magic_from_buffer : bytes -> option string.
Variable settings : Settings.

(** [create_resource(title, level, file)], with the identifiers drawn for
    the file name and for the row. *)
Definition create_resource (file_uuid row_uuid : UUID) (title : string)
    (level : ResourceLevel) (f : UploadFile) (w : World)
    : result Resource.t * World :=
  let '(is_valid, error_msg) := validate_pdf_file f in
  if negb is_valid
  then (Raised (HTTPException 400 (default "" error_msg)), w)
  else
    let sanitized_title := sanitize_string bleach_clean title (Some 200) in
    match save_pdf_file magic_from_buffer settings file_uuid f w with
    | (Raise e, w) => (Raised e, w)
    | (Return (file_url, file_size), w) =>
        let resource :=
          {| Resource.id := row_uuid; Resource.title := sanitized_title;
             Resource.level := level; Resource.file_url := file_url;
             Resource.file_size := Some file_size |} in
        match insert_resource resource (store w) with
        | None => (Raised (Unhandled "IntegrityError"), w)
        | Some db' => (Returned 201 resource, commit db' w)
        end
    end.

(** The assignments of [update_resource] that precede the file
    replacement. *)
Definition update_title_level (title : option string) (level : option ResourceLevel)
    (r : Resource.t) : Resource.t :=
  let r :=
    match title with
    | Some t => set_resource_title (sanitize_string bleach_clean t (Some 200)) r
    | None => r
    end in
  match level with
  | Some l => set_resource_level l r
  | None => r
  end.

(** [db.commit()] at the end of [update_resource]. *)
Definition commit_resource (url_written : bool) (resource : Resource.t) (w : World)
    : result Resource.t * World :=
  match update_resource_row (Resource.id resource) url_written resource (store w) with
  | None => (Raised (Unhandled "IntegrityError"), w)
  | Some db' => (Returned 200 resource, commit db' w)
  end.

(** [update_resource(resource_id, title, level, file)], with the identifier
    drawn for the name of a replacement file. *)
Definition update_resource (file_uuid : UUID) (resource_id : UUID)
    (title : option string) (level : option ResourceLevel)
    (f : option UploadFile) (w : World) : result Resource.t * World :=
  match query_resource resource_id (store w) with
  | None => (Raised (NotFoundError "Resource" (Some resource_id)), w)
  | Some resource =>
      let resource := update_title_level title level resource in
      match f with
      | Some f =>
          let '(is_valid, error_msg) := validate_pdf_file f in
          if negb is_valid
          then (Raised (HTTPException 400 (default "" error_msg)), w)
          else
            (* Delete old file *)
            let old_file_path := Resource.file_url resource in
            let w :=
              if path_exists old_file_path w
              then snd (delete_file old_file_path w)
              else w in
            (* Save new file *)
            match save_pdf_file magic_from_buffer settings file_uuid f w with
            | (Raise e, w) => (Raised e, w)
            | (Return (file_url, file_size), w) =>
                commit_resource true (set_resource_file file_url file_size resource) w
            end
      | None => commit_resource false resource w
      end
  end.

(** [delete_resource(resource_id)] *)
Definition delete_resource (resource_id : UUID) (w : World) : result unit * World :=
  match query_resource resource_id (store w) with
  | None => (Raised (NotFoundError "Resource" (Some resource_id)), w)
  | Some resource =>
      (* Delete file *)
      let file_path := Resource.file_url resource in
      let w :=
        if path_exists file_path w
        then snd (delete_file file_path w)
        else w in
      (* Delete database record *)
      (Returned 204 tt, commit (delete_resource_row (Resource.id resource) (store w)) w)
  end.

End Resources.

(** ** schemas.py: the hackathon team request *)

Module TeamMemberBase.
Record t : Type := {
  name : string;
  email : string;
  moodle_id : string;
  roll_no : string;
  division : string;
  department : string;
  year : string;
  mobile : string;
  is_leader : bool
}.
End TeamMemberBase.

Module HackathonTeamCreate.
Record t : Type := {
  event_name : string;
  team_name : string;
  team_members : list TeamMemberBase.t
}.
End HackathonTeamCreate.

(** A validation error: the location of the field and its message.  The
    message of a built-in constraint is the name of its error type. *)
Definition field_error : Type := (string * string)%type.

(** [Field(min_length=lo, max_length=hi)] on a string. *)
Definition check_length (loc : string) (lo hi : Z) (s : string) : list field_error :=
  if Py.len s <? lo then [(loc, "string_too_short")]
  else if Py.len s >? hi then [(loc, "string_too_long")]
  else [].

Definition is_digit (c : ascii) : bool :=
  let n := nat_of_ascii c in ((48 <=? n)%nat && (n <=? 57)%nat).

Fixpoint all_chars (p : ascii -> bool) (s : string) : bool :=
  match s with
  | EmptyString => true
  | String c s' => p c && all_chars p s'
  end.

(** [mobile]: the pattern [^[0-9]{10}$], then [validate_mobile]. *)
Definition check_mobile (loc : string) (v : string) : list field_error :=
  if negb (all_chars is_digit v && (Py.len v =? 10))
  then [(loc, "string_pattern_mismatch")]
  else if negb (all_chars is_digit v && negb (Py.len v =? 0)) || negb (Py.len v =? 10)
  then [(loc, "Value error, Mobile number must be exactly 10 digits")]
  else [].

(** [validate_team_members(cls, v)] *)
Definition validate_team_members (v : list TeamMemberBase.t)
    : list TeamMemberBase.t + string :=
  if negb (length v =? 4)%nat
  then inr "Team must have exactly 4 members"
  else
    let leaders := List.filter TeamMemberBase.is_leader v in
    if negb (length leaders =? 1)%nat
    then inr "Team must have exactly 1 leader"
    else inl v.

Section Schemas.

(** The check behind [EmailStr]: the normalised address, or [None]. *)
Variable validate_email : string -> option string.

(** Validation of one [TeamMemberBase] at location [loc]. *)
Definition validate_member (loc : string) (m : TeamMemberBase.t)
    : TeamMemberBase.t + list field_error :=
  let errors :=
    (check_length (loc +:+ ".name") 1 100 (TeamMemberBase.name m)
    ++ match validate_email (TeamMemberBase.email m) with
       | Some _ => []
       | None => [(loc +:+ ".email", "value_error")]
       end
    ++ check_length (loc +:+ ".moodle_id") 1 20 (TeamMemberBase.moodle_id m)
    ++ check_length (loc +:+ ".roll_no") 1 20 (TeamMemberBase.roll_no m)
    ++ check_length (loc +:+ ".division") 1 5 (TeamMemberBase.division m)
    ++ check_length (loc +:+ ".department") 1 100 (TeamMemberBase.department m)
    ++ check_length (loc +:+ ".year") 1 10 (TeamMemberBase.year m)
    ++ check_mobile (loc +:+ ".mobile") (TeamMemberBase.mobile m))%list in
  match errors, validate_email (TeamMemberBase.email m) with
  | [], Some email =>
      inl {| TeamMemberBase.name := TeamMemberBase.name m;
             TeamMemberBase.email := email;
             TeamMemberBase.moodle_id := TeamMemberBase.moodle_id m;
             TeamMemberBase.roll_no := TeamMemberBase.roll_no m;
             TeamMemberBase.division := TeamMemberBase.division m;
             TeamMemberBase.department := TeamMemberBase.department m;
             TeamMemberBase.year := TeamMemberBase.year m;
             TeamMemberBase.mobile := TeamMemberBase.mobile m;
             TeamMemberBase.is_leader := TeamMemberBase.is_leader m |}
  | _, _ => inr errors
  end.

(** The items of [team_members], from index [i]: the validated items or
    all their errors. *)
Fixpoint validate_items (i : nat) (l : list TeamMemberBase.t)
    : list TeamMemberBase.t + list field_error :=
  match l with
  | [] => inl []
  | m :: l' =>
      match validate_member ("team_members." +:+ pretty i) m,
            validate_items (S i) l' with
      | inl m', inl ms => inl (m' :: ms)
      | inl _, inr es => inr es
      | inr e, inl _ => inr e
      | inr e, inr es => inr (e ++ es)%list
      end
  end.

(** The field [team_members]: its items, then
    [Field(min_items=4, max_items=4)], then [validate_team_members]. *)
Definition validate_team_members_field (l : list TeamMemberBase.t)
    : list TeamMemberBase.t + list field_error :=
  match validate_items 0 l with
  | inr es => inr es
  | inl ms =>
      if (length ms <? 4)%nat then inr [("team_members", "too_short")]
      else if (4 <? length ms)%nat then inr [("team_members", "too_long")]
      else
        match validate_team_members ms with
        | inr msg => inr [("team_members", "Value error, " +:+ msg)]
        | inl v => inl v
        end
  end.

(** Validation of a request body against [HackathonTeamCreate]. *)
Definition validate_HackathonTeamCreate (body : HackathonTeamCreate.t)
    : HackathonTeamCreate.t + list field_error :=
  let e1 := check_length "event_name" 1 200 (HackathonTeamCreate.event_name body) in
  let e2 := check_length "team_name" 1 100 (HackathonTeamCreate.team_name body) in
  match validate_team_members_field (HackathonTeamCreate.team_members body) with
  | inr e3 => inr (e1 ++ e2 ++ e3)%list
  | inl ms =>
      match (e1 ++ e2)%list with
      | [] => inl {| HackathonTeamCreate.event_name := HackathonTeamCreate.event_name body;
                     HackathonTeamCreate.team_name := HackathonTeamCreate.team_name body;
                     HackathonTeamCreate.team_members := ms |}
      | es => inr es
      end
  end.

End Schemas.

(** ** api/hackathon_teams.py *)

(** hackathon_teams: primary key and
    [UniqueConstraint('event_name', 'team_name')]. *)
Definition insert_team (t : HackathonTeam.t) (db : Database) : option Database :=
  if existsb (fun t' => String.eqb (HackathonTeam.id t') (HackathonTeam.id t))
       (hackathon_teams db)
     || existsb (fun t' =>
                   String.eqb (HackathonTeam.event_name t') (HackathonTeam.event_name t)
                   && String.eqb (HackathonTeam.team_name t') (HackathonTeam.team_name t))
          (hackathon_teams db)
  then None
  else Some {| events := events db;
               registrations := registrations db;
               resources := resources db;
               hackathon_teams := hackathon_teams db ++ [t];
               team_members := team_members db |}.

(** team_members: primary key and foreign key to hackathon_teams. *)
Definition insert_member (m : TeamMember.t) (db : Database) : option Database :=
  if existsb (fun m' => String.eqb (TeamMember.id m') (TeamMember.id m)) (team_members db)
     || negb (existsb (fun t => String.eqb (HackathonTeam.id t) (TeamMember.team_id m))
                (hackathon_teams db))
  then None
  else Some {| events := events db;
               registrations := registrations db;
               resources := resources db;
               hackathon_teams := hackathon_teams db;
               team_members := team_members db ++ [m] |}.

Section HackathonTeams.

Variable bleach_clean : list string -> string -> string.
Variable validate_email : string -> option string.

(** The [TeamMember] built in the loop of [create_hackathon_team]. *)
Definition new_member (id team_id : UUID) (member_data : TeamMemberBase.t) : TeamMember.t :=
  {| TeamMember.id := id;
     TeamMember.team_id := team_id;
     TeamMember.name :=
       sanitize_string bleach_clean (TeamMemberBase.name member_data) (Some 100);
     TeamMember.email := Py.lower (TeamMemberBase.email member_data);
     TeamMember.moodle_id := TeamMemberBase.moodle_id member_data;
     TeamMember.roll_no := TeamMemberBase.roll_no member_data;
     TeamMember.division := Py.upper (TeamMemberBase.division member_data);
     TeamMember.department := TeamMemberBase.department member_data;
     TeamMember.year := TeamMemberBase.year member_data;
     TeamMember.mobile := TeamMemberBase.mobile member_data;
     TeamMember.is_leader := TeamMemberBase.is_leader member_data |}.

(** The loop over [team_data.team_members] and the rows it adds; the
    [i]-th identifier drawn is [uuid4 i]. *)
Fixpoint add_members (uuid4 : nat -> UUID) (i : nat) (team_id : UUID)
    (l : list TeamMemberBase.t) (db : Database) : option Database :=
  match l with
  | [] => Some db
  | member_data :: l' =>
      match insert_member (new_member (uuid4 i) team_id member_data) db with
      | None => None
      | Some db' => add_members uuid4 (S i) team_id l' db'
      end
  end.

(** [create_hackathon_team(team_data)].  The inserts of the model fail
    with [IntegrityError] only, which the first [except] clause turns into
    [ConflictError]; the second clause, [except Exception], which rolls
    back in the same way and raises [HTTPException] 500 for any other
    exception of the storage layer, has no case here. *)
Definition create_hackathon_team (uuid4 : nat -> UUID)
    (team_data : HackathonTeamCreate.t) (db : Database)
    : result HackathonTeam.t * Database :=
  let team_name :=
    sanitize_string bleach_clean (HackathonTeamCreate.team_name team_data) (Some 100) in
  let team :=
    {| HackathonTeam.id := uuid4 0%nat;
       HackathonTeam.event_name := HackathonTeamCreate.event_name team_data;
       HackathonTeam.team_name := team_name |} in
  let conflict :=
    ConflictError ("Team name '" +:+ team_name +:+ "' already exists for "
                   +:+ HackathonTeamCreate.event_name team_data) in
  match insert_team team db with
  | None => (Raised conflict, db)
  | Some db1 =>
      match add_members uuid4 1 (HackathonTeam.id team)
              (HackathonTeamCreate.team_members team_data) db1 with
      | None => (Raised conflict, db)
      | Some db2 => (Returned 201 team, db2)
      end
  end.

(** The route [POST /api/hackathon-teams]: the body is validated against
    [HackathonTeamCreate] before the handler is called. *)
Definition post_hackathon_team (uuid4 : nat -> UUID)
    (body : HackathonTeamCreate.t) (db : Database)
    : result HackathonTeam.t * Database :=
  match validate_HackathonTeamCreate validate_email body with
  | inr errors => (Raised (RequestValidationError errors), db)
  | inl team_data => create_hackathon_team uuid4 team_data db
  end.

End HackathonTeams.

(** ** Instances used to evaluate the model on concrete requests *)

(** An e-mail check that accepts an address with an [@] and returns it as
    it is. *)
Fixpoint has_at (s : string) : bool :=
  match s with
  | EmptyString => false
  | String c s' => Ascii.eqb c "@"%char || has_at s'
  end.

Definition simple_email (s : string) : option string :=
  if has_at s then Some s else None.

(** python-magic not installed. *)
Definition no_magic (_ : bytes) : option string := None.

(** A comparison that accepts no password. *)
Definition reject_all (_ _ : string) : argon2_outcome := VerifyMismatchError.

(** Identifiers drawn in sequence: ["id-0"], ["id-1"], ... *)
Definition uuid_seq (i : nat) : UUID := "id-" +:+ pretty i.

(** ** Sample data *)

Definition sample_event : Event.t :=
  {| Event.id := "e1"; Event.title := "CTF night"; Event.type := WORKSHOP;
     Event.date := 739000; Event.description := None; Event.is_active := true |}.

Definition sample_db : Database :=
  {| events := [sample_event]; registrations := []; resources := [];
     hackathon_teams := []; team_members := [] |}.

Definition sample_registration : RegistrationCreate.t :=
  {| RegistrationCreate.event_id := "e1";
     RegistrationCreate.operative_name := "Neo";
     RegistrationCreate.moodle_id := "m1234567" |}.

Definition sample_inactive_db : Database :=
  {| events := [set_is_active false sample_event]; registrations := [];
     resources := []; hackathon_teams := []; team_members := [] |}.

Definition sample_event_create : EventCreate.t :=
  {| EventCreate.title := "Reverse engineering 101"; EventCreate.type := SEMINAR;
     EventCreate.date := 739010; EventCreate.description := None |}.

Definition sample_event_update : EventUpdate.t :=
  {| EventUpdate.title := Some "CTF night, second round"; EventUpdate.type := None;
     EventUpdate.date := Some 739020; EventUpdate.description := None;
     EventUpdate.is_active := None |}.

Definition pdf_bytes : bytes := (pdf_signature ++ [Byte.x2d; Byte.x31; Byte.x2e; Byte.x34])%list.

Definition sample_pdf : UploadFile :=
  {| filename := Some "Intro.PDF"; content_type := Some "application/pdf";
     file := pdf_bytes |}.

(** Named [evil.pdf], declared as a PDF, but an HTML page. *)
Definition evil_pdf : UploadFile :=
  {| filename := Some "evil.pdf"; content_type := Some "application/pdf";
     file := [Byte.x3c; Byte.x68; Byte.x74; Byte.x6d; Byte.x6c; Byte.x3e] |}.

Definition sample_exe : UploadFile :=
  {| filename := Some "tool.exe"; content_type := Some "application/pdf";
     file := pdf_bytes |}.

Definition mistyped_pdf : UploadFile :=
  {| filename := Some "notes.pdf"; content_type := Some "text/plain";
     file := pdf_bytes |}.

(** Settings that accept no file larger than zero megabytes. *)
Definition tight_settings : Settings :=
  {| upload_dir := "uploads"; max_file_size_mb := 0 |}.

Definition sample_resource : Resource.t :=
  {| Resource.id := "r1"; Resource.title := "Intro"; Resource.level := BEGINNER;
     Resource.file_url := "uploads/old.pdf"; Resource.file_size := Some 8 |}.

Definition sample_world : World :=
  {| store := {| events := []; registrations := []; resources := [sample_resource];
                 hackathon_teams := []; team_members := [] |};
     fs := {[ "uploads" := Dir; "uploads/old.pdf" := File pdf_bytes ]};
     log := [] |}.

Definition sample_member (name : string) (leader : bool) : TeamMemberBase.t :=
  {| TeamMemberBase.name := name;
     TeamMemberBase.email := name +:+ "@APSIT.edu.in";
     TeamMemberBase.moodle_id := "21104001";
     TeamMemberBase.roll_no := "42";
     TeamMemberBase.division := "b";
     TeamMemberBase.department := "IT";
     TeamMemberBase.year := "TE";
     TeamMemberBase.mobile := "9876543210";
     TeamMemberBase.is_leader := leader |}.

Definition sample_team : HackathonTeamCreate.t :=
  {| HackathonTeamCreate.event_name := "Hack the Box";
     HackathonTeamCreate.team_name := "Null Pointers";
     HackathonTeamCreate.team_members :=
       [sample_member "Asha" true; sample_member "Ravi" false;
        sample_member "Meera" false; sample_member "Kabir" false] |}.

(** Three members only. *)
Definition short_team : HackathonTeamCreate.t :=
  {| HackathonTeamCreate.event_name := "Hack the Box";
     HackathonTeamCreate.team_name := "Null Pointers";
     HackathonTeamCreate.team_members :=
       [sample_member "Asha" true; sample_member "Ravi" false;
        sample_member "Meera" false] |}.

(** Four members, two of them leaders. *)
Definition two_leader_team : HackathonTeamCreate.t :=
  {| HackathonTeamCreate.event_name := "Hack the Box";
     HackathonTeamCreate.team_name := "Null Pointers";
     HackathonTeamCreate.team_members :=
       [sample_member "Asha" true; sample_member "Ravi" true;
        sample_member "Meera" false; sample_member "Kabir" false] |}.

(** ** Integrity of the store *)

(** The constraints [models.py] declares on events and registrations:
    primary keys, the unique pair [(event_id, moodle_id)] and the foreign key
    from a registration to its event. *)
Definition registration_key (r : Registration.t) : UUID * string :=
  (Registration.event_id r, Registration.moodle_id r).

Definition events_integrity (db : Database) : Prop :=
  NoDup (map Event.id (events db))
  /\ NoDup (map Registration.id (registrations db))
  /\ NoDup (map registration_key (registrations db))
  /\ (forall r, In r (registrations db) ->
        exists e, In e (events db) /\ Event.id e = Registration.event_id r).

(** ** api/registrations.py: reading one registration *)

(** [get_registration(registration_id)] *)
Definition get_registration (registration_id : UUID) (db : Database)
    : result Registration.t :=
  match find (fun r => String.eqb (Registration.id r) registration_id)
          (registrations db) with
  | None => Raised (NotFoundError "Registration" (Some registration_id))
  | Some registration => Returned 200 registration
  end.

(** The events of a list are in the order [ORDER BY date DESC] gives. *)
Fixpoint sorted_date_desc (l : list Event.t) : Prop :=
  match l with
  | [] => True
  | x :: l' => (forall y, In y l' -> Event.date y <= Event.date x) /\ sorted_date_desc l'
  end.

(** A store with one registration for the sample event. *)
Definition sample_registered_db : Database :=
  {| events := [sample_event];
     registrations :=
       [{| Registration.id := "r1"; Registration.event_id := "e1";
           Registration.operative_name := "Neo";
           Registration.moodle_id := "m1234567" |}];
     resources := []; hackathon_teams := []; team_members := [] |}.

(** An update request that only reactivates the event. *)
Definition reactivate : EventUpdate.t :=
  {| EventUpdate.title := None; EventUpdate.type := None; EventUpdate.date := None;
     EventUpdate.description := None; EventUpdate.is_active := Some true |}.

(** ** api/resources.py: reading and downloading *)

(** [get_resource(resource_id)] *)
Definition get_resource (resource_id : UUID) (db : Database) : result Resource.t :=
  match query_resource resource_id db with
  | None => Raised (NotFoundError "Resource" (Some resource_id))
  | Some resource => Returned 200 resource
  end.

Module FileResponse.
Record t : Type := {
  path : string;
  filename : string;
  media_type : string
}.
End FileResponse.

(** [title.replace(' ', '_')] *)
Definition replace_spaces (s : string) : string :=
  Py.map_chars (fun c => if Ascii.eqb c " "%char then "_"%char else c) s.

(** [download_resource(resource_id)] *)
Definition download_resource (resource_id : UUID) (w : World) : result FileResponse.t :=
  match query_resource resource_id (store w) with
  | None => Raised (NotFoundError "Resource" (Some resource_id))
  | Some resource =>
      let file_path := Resource.file_url resource in
      if negb (file_exists file_path w)
      then Raised (NotFoundError "Resource file" (Some resource_id))
      else Returned 200
             {| FileResponse.path := file_path;
                FileResponse.filename := replace_spaces (Resource.title resource) +:+ ".pdf";
                FileResponse.media_type := "application/pdf" |}
  end.

(** The constraints [models.py] declares on resources: the primary key
    and the unique [file_url]. *)
Definition resources_integrity (db : Database) : Prop :=
  NoDup (map Resource.id (resources db))
  /\ NoDup (map Resource.file_url (resources db)).

(** ** api/hackathon_teams.py: reading one team *)

(** [get_hackathon_team(team_id)] *)
Definition get_hackathon_team (team_id : UUID) (db : Database) : result HackathonTeam.t :=
  match find (fun t => String.eqb (HackathonTeam.id t) team_id) (hackathon_teams db) with
  | None => Raised (HTTPException 404 ("Team with ID " +:+ team_id +:+ " not found"))
  | Some team => Returned 200 team
  end.

(** The rows the loop of [create_hackathon_team] builds for the members
    [l], the first of them with the [i]-th identifier drawn. *)
Fixpoint member_rows (clean : list string -> string -> string) (uuid4 : nat -> UUID)
    (i : nat) (team_id : UUID) (l : list TeamMemberBase.t) : list TeamMember.t :=
  match l with
  | [] => []
  | member_data :: l' =>
      new_member clean (uuid4 i) team_id member_data
      :: member_rows clean uuid4 (S i) team_id l'
  end.

(** The constraints [models.py] declares on teams and members: primary
    keys, the unique pair [(event_name, team_name)] and the foreign key from
    a member to its team. *)
Definition team_key (t : HackathonTeam.t) : string * string :=
  (HackathonTeam.event_name t, HackathonTeam.team_name t).

Definition teams_integrity (db : Database) : Prop :=
  NoDup (map HackathonTeam.id (hackathon_teams db))
  /\ NoDup (map team_key (hackathon_teams db))
  /\ NoDup (map TeamMember.id (team_members db))
  /\ (forall m, In m (team_members db) ->
        exists t, In t (hackathon_teams db) /\ HackathonTeam.id t = TeamMember.team_id m).

(** The sample team again, with blanks around its name. *)
Definition sample_team_again : HackathonTeamCreate.t :=
  {| HackathonTeamCreate.event_name := "Hack the Box";
     HackathonTeamCreate.team_name := "  Null Pointers ";
     HackathonTeamCreate.team_members :=
       [sample_member "Zoya" true; sample_member "Ira" false;
        sample_member "Dev" false; sample_member "Om" false] |}.

(** ** security.py: access tokens *)

(** The settings of [config.py] that the token functions and the login
    read. *)
Record SecuritySettings : Type := {
  jwt_secret_key : string;
  jwt_algorithm : string;
  jwt_expiration_seconds : Z
}.

(** A value in the claims dictionary of a token: a text, or a point in
    time in seconds. *)
Inductive claim : Type :=
| ClaimText (s : string)
| ClaimTime (t : Z).

Section Tokens.

(** [jwt.encode(claims, key, algorithm=...)] of python-jose *)
Variable jwt_encode : gmap string claim -> string -> string -> string.

Variable security : SecuritySettings.

(** The dictionary [create_access_token(data, expires_delta)] hands to
    [jwt.encode].  [expires_delta] is in seconds; [now_exp] and [now_iat]
    are the two readings of [datetime.utcnow()], for [exp] and for [iat]. *)
Definition access_token_claims (data : gmap string claim) (expires_delta : option Z)
    (now_exp now_iat : Z) : gmap string claim :=
  let to_encode := data in
  let expire :=
    match expires_delta with
    | Some d => if negb (d =? 0) then now_exp + d
                else now_exp + jwt_expiration_seconds security
    | None => now_exp + jwt_expiration_seconds security
    end in
  <["iat" := ClaimTime now_iat]> (<["exp" := ClaimTime expire]> to_encode).

(** [create_access_token(data, expires_delta)] *)
Definition create_access_token (data : gmap string claim) (expires_delta : option Z)
    (now_exp now_iat : Z) : string :=
  jwt_encode (access_token_claims data expires_delta now_exp now_iat)
    (jwt_secret_key security) (jwt_algorithm security).

End Tokens.

(** ** api/auth.py *)

Module User.
Record t : Type := {
  id : UUID;
  username : string;
  password_hash : string;
  last_login : option Z;
  is_active : bool
}.
End User.

Module LoginRequest.
Record t : Type := {
  username : string;
  password : string
}.
End LoginRequest.

Module Token.
Record t : Type := {
  access_token : string;
  token_type : string;
  expires_in : Z
}.
End Token.

Definition set_last_login (v : Z) (u : User.t) : User.t :=
  {| User.id := User.id u; User.username := User.username u;
     User.password_hash := User.password_hash u; User.last_login := Some v;
     User.is_active := User.is_active u |}.

Section Auth.

Variable ph_verify : string -> string -> argon2_outcome.
Variable jwt_encode : gmap string claim -> string -> string -> string.
Variable security : SecuritySettings.

(** The body of [login(request, login_data)], behind the rate limiter, on
    the table of users.  [utcnow] is the clock reading stored as
    [last_login]; [now_exp] and [now_iat] are the readings taken by
    [create_access_token]. *)
Definition login (utcnow now_exp now_iat : Z) (login_data : LoginRequest.t)
    (users : list User.t) : result Token.t * list User.t :=
  match find (fun u => String.eqb (User.username u) (LoginRequest.username login_data))
          users with
  | None => (Raised (HTTPException 401 "Invalid username or password"), users)
  | Some user =>
      match verify_password ph_verify (LoginRequest.password login_data)
              (User.password_hash user) with
      | Raise e => (Raised e, users)
      | Return false => (Raised (HTTPException 401 "Invalid username or password"), users)
      | Return true =>
          if negb (User.is_active user)
          then (Raised (HTTPException 403 "User account is inactive"), users)
          else
            let users' :=
              map (fun u => if String.eqb (User.id u) (User.id user)
                            then set_last_login utcnow u else u) users in
            let access_token :=
              create_access_token jwt_encode security
                {[ "sub" := ClaimText (User.username user) ]} None now_exp now_iat in
            (Returned 200 {| Token.access_token := access_token;
                             Token.token_type := "bearer";
                             Token.expires_in := jwt_expiration_seconds security |},
             users')
      end
  end.

End Auth.

(** ** config.py: the list of allowed origins *)

(** [s.split(",")] *)
Fixpoint split_comma (s : string) : list string :=
  match s with
  | EmptyString => [EmptyString]
  | String c s' =>
      if Ascii.eqb c ","%char then EmptyString :: split_comma s'
      else
        match split_comma s' with
        | h :: t => String c h :: t
        | [] => [String c EmptyString]
        end
  end.

(** [Settings.allowed_origins_list], as a function of [allowed_origins] *)
Definition allowed_origins_list (allowed_origins : string) : list string :=
  map Py.strip (split_comma allowed_origins).

(** [",".join(l)] *)
Fixpoint join_comma (l : list string) : string :=
  match l with
  | [] => EmptyString
  | [x] => x
  | x :: l' => x +:+ "," +:+ join_comma l'
  end.

Fixpoint count_commas (s : string) : nat :=
  match s with
  | EmptyString => 0%nat
  | String c s' => ((if Ascii.eqb c ","%char then 1 else 0) + count_commas s')%nat
  end.

(** Sample data for the login. *)
Definition sample_security : SecuritySettings :=
  {| jwt_secret_key := "change-me"; jwt_algorithm := "HS256";
     jwt_expiration_seconds := 3600 |}.

Definition sample_admin : User.t :=
  {| User.id := "u1"; User.username := "admin";
     User.password_hash := "$argon2id$v=19$m=65536,t=2,p=4$c2FsdA$aGFzaA";
     User.last_login := None; User.is_active := true |}.

(** A comparison that accepts the password ["admin123"] for every hash. *)
Definition accept_admin123 (_ password : string) : argon2_outcome :=
  if String.eqb password "admin123" then Verified else VerifyMismatchError.

(** An encoder that only names the subject; it stands for [jwt.encode]. *)
Definition sample_encode (claims : gmap string claim) (_ _ : string) : string :=
  match claims !! "sub" with
  | Some (ClaimText s) => "token-for-" +:+ s
  | _ => "token"
  end.

(** ** scripts/seed_db.py *)

(** The keyword arguments of one sample event; [is_active] is the column
    default, true, where the dictionary does not give it. *)
Record EventFields : Type := {
  seed_title : string;
  seed_type : EventType;
  seed_date : Z;
  seed_description : string;
  seed_is_active : bool
}.

(** [sample_events], with the current day. *)
Definition sample_events (today : date) : list EventFields :=
  [ {| seed_title := "Web Security Workshop"; seed_type := WORKSHOP;
       seed_date := today + 30;
       seed_description :=
         "Introduction to OWASP Top 10 vulnerabilities and secure coding practices.";
       seed_is_active := true |};
    {| seed_title := "Malware Analysis Bootcamp"; seed_type := BOOTCAMP;
       seed_date := today + 45;
       seed_description :=
         "Hands-on training on analyzing malicious binaries safely in a controlled environment.";
       seed_is_active := true |};
    {| seed_title := "Introduction to Cryptography"; seed_type := LECTURE;
       seed_date := today - 10;
       seed_description :=
         "Understanding Public Key Infrastructure (PKI) and encryption fundamentals.";
       seed_is_active := false |};
    {| seed_title := "CyberDefense CTF 2026"; seed_type := HACKATHON;
       seed_date := today + 60;
       seed_description :=
         "Join 50+ teams in a 48-hour endurance test of your hacking skills. Challenges include Web Exploitation, Cryptography, Reverse Engineering, and Forensics.";
       seed_is_active := true |} ].

Record ResourceFields : Type := {
  seed_resource_title : string;
  seed_level : ResourceLevel;
  seed_file_url : string;
  seed_file_size : Z
}.

(** [sample_resources] *)
Definition sample_resources : list ResourceFields :=
  [ {| seed_resource_title := "Linux Command Cheatsheet"; seed_level := BEGINNER;
       seed_file_url := "uploads/sample_linux_cheatsheet.pdf";
       seed_file_size := 102400 |};
    {| seed_resource_title := "Network Security Fundamentals"; seed_level := BEGINNER;
       seed_file_url := "uploads/sample_network_security.pdf";
       seed_file_size := 204800 |};
    {| seed_resource_title := "Advanced Buffer Overflow Exploitation";
       seed_level := ADVANCED;
       seed_file_url := "uploads/sample_buffer_overflow.pdf";
       seed_file_size := 512000 |} ].

(** The [Event] and the [Resource] built from the keyword arguments of a
    sample, with the identifier drawn for the row. *)
Definition event_of_fields (id : UUID) (d : EventFields) : Event.t :=
  {| Event.id := id; Event.title := seed_title d; Event.type := seed_type d;
     Event.date := seed_date d; Event.description := Some (seed_description d);
     Event.is_active := seed_is_active d |}.

Definition resource_of_fields (id : UUID) (d : ResourceFields) : Resource.t :=
  {| Resource.id := id; Resource.title := seed_resource_title d;
     Resource.level := seed_level d; Resource.file_url := seed_file_url d;
     Resource.file_size := Some (seed_file_size d) |}.

(** users: primary key and the unique [username]. *)
Definition insert_user (u : User.t) (users : list User.t) : option (list User.t) :=
  if existsb (fun u' => String.eqb (User.id u') (User.id u)) users
     || existsb (fun u' => String.eqb (User.username u') (User.username u)) users
  then None
  else Some (users ++ [u])%list.

(** The loop over [sample_events]: an event is added when no stored event
    has its title.  The [i]-th sample draws the identifier [uuid4 i];
    [None] is an [IntegrityError]. *)
Fixpoint seed_events (uuid4 : nat -> UUID) (i : nat) (l : list EventFields)
    (db : Database) : option Database :=
  match l with
  | [] => Some db
  | event_data :: l' =>
      match find (fun e => String.eqb (Event.title e) (seed_title event_data))
              (events db) with
      | Some _ => seed_events uuid4 (S i) l' db
      | None =>
          match insert_event (event_of_fields (uuid4 i) event_data) db with
          | None => None
          | Some db' => seed_events uuid4 (S i) l' db'
          end
      end
  end.

(** The loop over [sample_resources]. *)
Fixpoint seed_resources (uuid4 : nat -> UUID) (i : nat) (l : list ResourceFields)
    (db : Database) : option Database :=
  match l with
  | [] => Some db
  | resource_data :: l' =>
      match find (fun r => String.eqb (Resource.title r)
                             (seed_resource_title resource_data)) (resources db) with
      | Some _ => seed_resources uuid4 (S i) l' db
      | None =>
          match insert_resource (resource_of_fields (uuid4 i) resource_data) db with
          | None => None
          | Some db' => seed_resources uuid4 (S i) l' db'
          end
      end
  end.

Section Seeding.

(** [hash_password] of security.py, that is [ph.hash] of argon2 *)
Variable hash_password : string -> string.

(** [seed_database()], on the table of users and the store.  The
    environment gives [ADMIN_USERNAME] and [ADMIN_PASSWORD], or nothing;
    [admin_uuid] is the identifier drawn for the admin row, [event_uuid] and
    [resource_uuid] those drawn for events and resources.  The three steps
    are committed one after the other; an exception rolls back the step it
    occurs in and is raised again. *)
Definition seed_database (ADMIN_USERNAME ADMIN_PASSWORD : option string)
    (admin_uuid : UUID) (event_uuid resource_uuid : nat -> UUID) (today : date)
    (users : list User.t) (db : Database)
    : call unit * (list User.t * Database) :=
  let admin_username := default "admin" ADMIN_USERNAME in
  let admin_password := default "admin123" ADMIN_PASSWORD in
  let users1 :=
    match find (fun u => String.eqb (User.username u) admin_username) users with
    | Some _ => Some users
    | None =>
        insert_user {| User.id := admin_uuid; User.username := admin_username;
                       User.password_hash := hash_password admin_password;
                       User.last_login := None; User.is_active := true |} users
    end in
  match users1 with
  | None => (Raise (Unhandled "IntegrityError"), (users, db))
  | Some users1 =>
      match seed_events event_uuid 0 (sample_events today) db with
      | None => (Raise (Unhandled "IntegrityError"), (users1, db))
      | Some db1 =>
          match seed_resources resource_uuid 0 sample_resources db1 with
          | None => (Raise (Unhandled "IntegrityError"), (users1, db1))
          | Some db2 => (Return tt, (users1, db2))
          end
      end
  end.

End Seeding.

(** A hash function for the samples; it stands for [ph.hash]. *)
Definition sample_hash (password : string) : string := "$argon2id$" +:+ password.

(** * Properties *)

(** ** Strings *)

Lemma take_length (n : nat) (s : string) :
  (String.length (Py.take n s) <= n)%nat.
Proof.
  revert s; induction n as [|n IH]; intros [|c s]; simpl; try lia.
  specialize (IH s); lia.
Qed.

Lemma take_all (n : nat) (s : string) :
  (String.length s <= n)%nat -> Py.take n s = s.
Proof.
  revert s; induction n as [|n IH]; intros [|c s]; simpl; intros H;
    try reflexivity; try lia.
  f_equal; apply IH; lia.
Qed.

Lemma slice_to_len (s : string) (n : Z) :
  0 <= n -> Py.len (Py.slice_to s n) <= n.
Proof.
  intros Hn. unfold Py.slice_to, Py.len.
  destruct (Z.ltb_spec n 0) as [?|_]; [lia|].
  pose proof (take_length (Z.to_nat n) s). lia.
Qed.

(** The result of the strict sanitizer fits a positive bound. *)
Lemma sanitize_string_len clean (x : string) (n : Z) :
  0 < n -> Py.len (sanitize_string clean x (Some n)) <= n.
Proof.
  intros Hn. unfold sanitize_string.
  destruct (Py.truthy_int (Some n) && (Py.len (Py.strip (clean [] x)) >? n)) eqn:E.
  - apply slice_to_len; lia.
  - apply andb_false_iff in E as [E|E].
    + simpl in E. apply negb_false_iff, Z.eqb_eq in E. lia.
    + destruct (Z.gtb_spec (Py.len (Py.strip (clean [] x))) n); [discriminate|lia].
Qed.

(** Whatever the cleaner does elsewhere, if it leaves the two texts alone
    the second pass trims the blank the truncation left at the end. *)
Lemma sanitize_string_trailing_blank clean :
  clean [] "ab cd" = "ab cd" -> clean [] "ab " = "ab " ->
  sanitize_string clean "ab cd" (Some 3) = "ab " /\
  sanitize_string clean (sanitize_string clean "ab cd" (Some 3)) (Some 3) = "ab".
Proof.
  intros H1 H2.
  assert (E : sanitize_string clean "ab cd" (Some 3) = "ab ").
  { unfold sanitize_string. rewrite H1. reflexivity. }
  split; [exact E|].
  rewrite E. unfold sanitize_string. rewrite H2. reflexivity.
Qed.

(** C8, as stated, fails: truncation can leave a trailing blank, which a
    second pass strips.  [sanitize_string("ab cd", 3)] is ["ab "], and
    sanitizing that again gives ["ab"]. *)
Lemma sanitize_string_not_idempotent :
  sanitize_string plain_clean (sanitize_string plain_clean "ab cd" (Some 3)) (Some 3)
  <> sanitize_string plain_clean "ab cd" (Some 3).
Proof. vm_compute. discriminate. Qed.

(** C8 (amended): for every string [x] and every bound that is absent or
    not negative, a second pass of the strict sanitizer returns the result
    [y] of the first pass whenever [y] is left unchanged by the markup
    cleaner and by [strip]. *)
Theorem sanitize_string_idempotent_on_stable_result
    clean (x : string) (max_length : option Z) :
  (forall n, max_length = Some n -> 0 <= n) ->
  let y := sanitize_string clean x max_length in
  clean [] y = y ->
  Py.strip y = y ->
  sanitize_string clean y max_length = y.
Proof.
  intros Hn y Hclean Hstrip.
  unfold sanitize_string at 1. rewrite Hclean, Hstrip.
  destruct max_length as [n|]; [|reflexivity].
  specialize (Hn n eq_refl).
  destruct (Z.eq_dec n 0) as [->|Hz]; [reflexivity|].
  assert (Hlen : Py.len y <= n) by (apply sanitize_string_len; lia).
  destruct (Z.gtb_spec (Py.len y) n); [lia|].
  rewrite andb_false_r. reflexivity.
Qed.

Lemma sanitize_string_idempotent_on_stable_result_witness :
  sanitize_string plain_clean
    (sanitize_string plain_clean "  hello world  " (Some 5)) (Some 9)
  = sanitize_string plain_clean "  hello world  " (Some 5).
Proof.
  apply (sanitize_string_idempotent_on_stable_result plain_clean
           "  hello world  " (Some 5)).
  - intros n H. injection H as <-. lia.
  - reflexivity.
  - vm_compute. reflexivity.
Defined.

(** ** Lists and queries *)

Lemma find_first_exists {A} (p : A -> bool) (l : list A) (x : A) :
  In x l -> p x = true -> exists y, find p l = Some y /\ In y l /\ p y = true.
Proof.
  intros Hin Hp. destruct (find p l) as [y|] eqn:E.
  - exists y. apply find_some in E. tauto.
  - apply (find_none p l E) in Hin. congruence.
Qed.

Lemma filter_nil_existsb {A} (p : A -> bool) (l : list A) :
  List.filter p l = [] -> existsb p l = false.
Proof.
  induction l as [|a l IH]; simpl; [reflexivity|].
  destruct (p a); [discriminate|]. exact IH.
Qed.

Lemma existsb_false_forall {A} (p : A -> bool) (l : list A) :
  (forall x, In x l -> p x = false) -> existsb p l = false.
Proof.
  induction l as [|a l IH]; simpl; intros H; [reflexivity|].
  rewrite (H a) by auto. apply IH. intros x Hx. apply H. auto.
Qed.

(** ** Registrations *)

(** C1: for a pair [(event_id, moodle_id)] that is not registered yet and
    an existing active event, the first [create_registration] returns with
    status 201 and appends one registration row; the second one, for the
    same pair, fails with HTTP 409 and machine code [CONFLICT] and leaves
    the store as it was, so exactly one row of the pair exists afterwards. *)
Theorem create_registration_twice
    clean (id1 id2 : UUID) (first second : RegistrationCreate.t)
    (db : Database) (event : Event.t) :
  In event (events db) ->
  Event.id event = RegistrationCreate.event_id first ->
  Event.is_active event = true ->
  rows_of_pair (RegistrationCreate.event_id first)
    (RegistrationCreate.moodle_id first) db = [] ->
  (forall r, In r (registrations db) -> Registration.id r <> id1) ->
  RegistrationCreate.event_id second = RegistrationCreate.event_id first ->
  RegistrationCreate.moodle_id second = RegistrationCreate.moodle_id first ->
  exists (row : Registration.t) (db1 : Database) (msg : string),
    create_registration clean id1 first db = (Returned 201 row, db1)
    /\ registrations db1 = (registrations db ++ [row])%list
    /\ Registration.event_id row = RegistrationCreate.event_id first
    /\ Registration.moodle_id row = RegistrationCreate.moodle_id first
    /\ create_registration clean id2 second db1
       = (Raised (AppException 409 "CONFLICT" msg), db1)
    /\ http_status (fst (create_registration clean id2 second db1)) = Some 409
    /\ machine_code (fst (create_registration clean id2 second db1)) = Some "CONFLICT"
    /\ rows_of_pair (RegistrationCreate.event_id first)
         (RegistrationCreate.moodle_id first) db1 = [row].
Proof.
  intros Hin Hid Hact Hnone Hfresh He Hm.
  set (active := fun e : Event.t =>
         String.eqb (Event.id e) (RegistrationCreate.event_id first)
         && Bool.eqb (Event.is_active e) true).
  destruct (find_first_exists active (events db) event Hin) as (ev & Hfind & HevIn & Hev).
  { unfold active. rewrite Hid, String.eqb_refl, Hact. reflexivity. }
  set (row := {| Registration.id := id1;
                 Registration.event_id := RegistrationCreate.event_id first;
                 Registration.operative_name :=
                   sanitize_string clean (RegistrationCreate.operative_name first) (Some 100);
                 Registration.moodle_id := RegistrationCreate.moodle_id first |}).
  assert (Hins : insert_registration row db
                 = Some {| events := events db;
                           registrations := (registrations db ++ [row])%list;
                           resources := resources db;
                           hackathon_teams := hackathon_teams db;
                           team_members := team_members db |}).
  { unfold insert_registration.
    rewrite (existsb_false_forall _ (registrations db)).
    2:{ intros r Hr. apply String.eqb_neq. exact (Hfresh r Hr). }
    replace (existsb (fun e => String.eqb (Event.id e) (Registration.event_id row)) (events db))
      with true.
    2:{ symmetry. apply existsb_exists. exists event. split; [exact Hin|].
        simpl. rewrite Hid. apply String.eqb_refl. }
    simpl negb. simpl orb.
    unfold rows_of_pair in Hnone. simpl Registration.event_id. simpl Registration.moodle_id.
    rewrite (filter_nil_existsb _ _ Hnone). reflexivity. }
  eexists row, _, _.
  assert (H1 : create_registration clean id1 first db
               = (Returned 201 row,
                  {| events := events db;
                     registrations := (registrations db ++ [row])%list;
                     resources := resources db;
                     hackathon_teams := hackathon_teams db;
                     team_members := team_members db |})).
  { unfold create_registration. fold active. rewrite Hfind. fold row. rewrite Hins.
    reflexivity. }
  assert (H2 : create_registration clean id2 second
                 {| events := events db;
                    registrations := (registrations db ++ [row])%list;
                    resources := resources db;
                    hackathon_teams := hackathon_teams db;
                    team_members := team_members db |}
               = (Raised (AppException 409 "CONFLICT"
                            ("Registration already exists for Moodle ID "
                             +:+ RegistrationCreate.moodle_id first
                             +:+ " and event " +:+ Event.title ev)),
                  {| events := events db;
                     registrations := (registrations db ++ [row])%list;
                     resources := resources db;
                     hackathon_teams := hackathon_teams db;
                     team_members := team_members db |})).
  { unfold create_registration. simpl events. rewrite He, Hm. fold active. rewrite Hfind.
    unfold insert_registration. simpl.
    replace (existsb (unique_event_moodle (RegistrationCreate.event_id first)
                        (RegistrationCreate.moodle_id first)) (registrations db ++ [row]))
      with true.
    2:{ symmetry. apply existsb_exists. exists row. split.
        - apply in_or_app. right. left. reflexivity.
        - unfold unique_event_moodle. simpl. rewrite !String.eqb_refl. reflexivity. }
    rewrite !orb_true_r. reflexivity. }
  split; [exact H1|].
  split; [reflexivity|].
  split; [reflexivity|].
  split; [reflexivity|].
  split; [exact H2|].
  rewrite H2.
  split; [reflexivity|].
  split; [reflexivity|].
  unfold rows_of_pair in *. simpl. rewrite List.filter_app, Hnone. simpl.
  unfold unique_event_moodle. simpl. rewrite !String.eqb_refl. reflexivity.
Qed.

Lemma create_registration_twice_witness :
  exists (row : Registration.t) (db1 : Database) (msg : string),
    create_registration plain_clean "r1" sample_registration sample_db
      = (Returned 201 row, db1)
    /\ registrations db1 = (registrations sample_db ++ [row])%list
    /\ Registration.event_id row = "e1"
    /\ Registration.moodle_id row = "m1234567"
    /\ create_registration plain_clean "r2" sample_registration db1
       = (Raised (AppException 409 "CONFLICT" msg), db1)
    /\ http_status (fst (create_registration plain_clean "r2" sample_registration db1))
       = Some 409
    /\ machine_code (fst (create_registration plain_clean "r2" sample_registration db1))
       = Some "CONFLICT"
    /\ rows_of_pair "e1" "m1234567" db1 = [row].
Proof.
  apply (create_registration_twice plain_clean "r1" "r2"
           sample_registration sample_registration sample_db sample_event).
  - simpl. left. reflexivity.
  - reflexivity.
  - reflexivity.
  - reflexivity.
  - simpl. intros r [].
  - reflexivity.
  - reflexivity.
Defined.

(** C6: when every event row that [event_id] refers to is inactive, and
    so in particular when it refers to no event at all,
    [create_registration] fails with [NotFoundError] (HTTP 404, machine code
    [NOT_FOUND], not a conflict) and the store is unchanged. *)
Theorem create_registration_event_not_found
    clean (uuid4 : UUID) (registration_data : RegistrationCreate.t) (db : Database) :
  (forall e, In e (events db) ->
             Event.id e = RegistrationCreate.event_id registration_data ->
             Event.is_active e = false) ->
  create_registration clean uuid4 registration_data db
  = (Raised (NotFoundError "Event"
               (Some (RegistrationCreate.event_id registration_data))), db)
  /\ http_status (fst (create_registration clean uuid4 registration_data db)) = Some 404
  /\ machine_code (fst (create_registration clean uuid4 registration_data db))
     = Some "NOT_FOUND"
  /\ registrations (snd (create_registration clean uuid4 registration_data db))
     = registrations db.
Proof.
  intros H.
  assert (E : create_registration clean uuid4 registration_data db
              = (Raised (NotFoundError "Event"
                           (Some (RegistrationCreate.event_id registration_data))), db)).
  { unfold create_registration.
    destruct (find _ (events db)) as [e|] eqn:F; [|reflexivity].
    apply find_some in F as [Hin Hp].
    apply andb_true_iff in Hp as [Hid Hact].
    apply String.eqb_eq in Hid. rewrite (H e Hin Hid) in Hact. discriminate. }
  rewrite E. repeat split.
Qed.

Lemma create_registration_event_not_found_witness :
  create_registration plain_clean "r1" sample_registration sample_inactive_db
  = (Raised (NotFoundError "Event" (Some "e1")), sample_inactive_db)
  /\ http_status (fst (create_registration plain_clean "r1" sample_registration
                         sample_inactive_db)) = Some 404
  /\ machine_code (fst (create_registration plain_clean "r1" sample_registration
                          sample_inactive_db)) = Some "NOT_FOUND"
  /\ registrations (snd (create_registration plain_clean "r1" sample_registration
                           sample_inactive_db)) = registrations sample_inactive_db.
Proof.
  apply (create_registration_event_not_found plain_clean "r1"
           sample_registration sample_inactive_db).
  simpl. intros e [<-|[]] _. reflexivity.
Defined.

(** ** Events *)

Lemma insert_date_desc_in (x e : Event.t) (l : list Event.t) :
  In x (insert_date_desc e l) <-> x = e \/ In x l.
Proof.
  induction l as [|a l IH]; simpl.
  - intuition.
  - destruct (Event.date a <=? Event.date e); simpl; [intuition|].
    rewrite IH. intuition.
Qed.

Lemma order_by_date_desc_in (x : Event.t) (l : list Event.t) :
  In x (order_by_date_desc l) <-> In x l.
Proof.
  induction l as [|a l IH]; simpl; [tauto|].
  rewrite insert_date_desc_in, IH. intuition.
Qed.

(** A row update that keeps identifiers does not move the first row of an
    identifier. *)
Lemma find_update_row (pk k : UUID) (f : Event.t -> Event.t) (l : list Event.t) :
  (forall e, Event.id (f e) = Event.id e) ->
  find (fun e => String.eqb (Event.id e) k)
    (map (fun e => if String.eqb (Event.id e) pk then f e else e) l)
  = (fun e => if String.eqb (Event.id e) pk then f e else e)
      <$> find (fun e => String.eqb (Event.id e) k) l.
Proof.
  intros Hf. induction l as [|a l IH]; simpl; [reflexivity|].
  assert (E : Event.id (if String.eqb (Event.id a) pk then f a else a) = Event.id a).
  { destruct (String.eqb (Event.id a) pk); [apply Hf|reflexivity]. }
  rewrite E. destruct (String.eqb (Event.id a) k); [reflexivity|exact IH].
Qed.

Lemma query_event_some (event_id : UUID) (db : Database) (event : Event.t) :
  query_event event_id db = Some event ->
  In event (events db) /\ Event.id event = event_id.
Proof.
  unfold query_event. intros H. apply find_some in H as [Hin Hid].
  apply String.eqb_eq in Hid. auto.
Qed.

(** C7, as stated, fails: [get_events] without filters applies no
    [is_active] filter, so a soft-deleted event is still listed. *)
Lemma soft_deleted_event_still_in_default_listing :
  ~ (forall e, In e (get_events None None (snd (delete_event "e1" sample_db))) ->
               Event.id e <> "e1").
Proof.
  intros H. apply (H (set_is_active false sample_event)); [|reflexivity].
  vm_compute. left. reflexivity.
Qed.

(** C7 (amended): after the soft deletion of an event, a direct fetch by
    its identifier returns it with [is_active] false, the listing without
    filters still contains it (inactive), and no listing with the filter
    [is_active = true], whatever its type filter, contains a row of that
    identifier. *)
Theorem soft_deleted_event_listing
    (event_id : UUID) (type : option EventType) (db : Database) (event : Event.t) :
  query_event event_id db = Some event ->
  exists db',
    delete_event event_id db = (Returned 204 tt, db')
    /\ get_event event_id db' = Returned 200 (set_is_active false event)
    /\ Event.is_active (set_is_active false event) = false
    /\ In (set_is_active false event) (get_events None None db')
    /\ (forall e, In e (get_events type (Some true) db') -> Event.id e <> event_id).
Proof.
  intros Hq. destruct (query_event_some _ _ _ Hq) as [Hin Hid].
  exists (update_event_row (Event.id event) (set_is_active false) db).
  split; [unfold delete_event; rewrite Hq; reflexivity|].
  split.
  { unfold get_event, query_event. simpl.
    rewrite find_update_row by reflexivity.
    unfold query_event in Hq. rewrite Hq. simpl.
    rewrite String.eqb_refl. reflexivity. }
  split; [reflexivity|].
  split.
  { unfold get_events. apply order_by_date_desc_in. simpl.
    apply in_map_iff. exists event. rewrite String.eqb_refl. auto. }
  intros e He. unfold get_events in He.
  apply (proj1 (order_by_date_desc_in _ _)) in He.
  apply filter_In in He as [He Hact].
  assert (He' : In e (events (update_event_row (Event.id event) (set_is_active false) db))).
  { destruct type; [apply filter_In in He as [He _]|]; exact He. }
  simpl in He'. apply in_map_iff in He' as (x & Hx & _).
  rewrite Hid in Hx.
  destruct (String.eqb (Event.id x) event_id) eqn:E.
  - subst e. discriminate.
  - subst e. apply String.eqb_neq. exact E.
Qed.

Lemma soft_deleted_event_listing_witness :
  exists db',
    delete_event "e1" sample_db = (Returned 204 tt, db')
    /\ get_event "e1" db' = Returned 200 (set_is_active false sample_event)
    /\ Event.is_active (set_is_active false sample_event) = false
    /\ In (set_is_active false sample_event) (get_events None None db')
    /\ (forall e, In e (get_events (Some WORKSHOP) (Some true) db') -> Event.id e <> "e1").
Proof.
  apply (soft_deleted_event_listing "e1" (Some WORKSHOP) sample_db sample_event).
  reflexivity.
Defined.

Lemma update_before_date_id clean (u : EventUpdate.t) (e : Event.t) :
  Event.id (update_before_date clean u e) = Event.id e.
Proof.
  unfold update_before_date.
  destruct (EventUpdate.title u), (EventUpdate.type u); reflexivity.
Qed.

Lemma update_after_date_id clean (u : EventUpdate.t) (e : Event.t) :
  Event.id (update_after_date clean u e) = Event.id e.
Proof.
  unfold update_after_date.
  destruct (EventUpdate.description u), (EventUpdate.is_active u); reflexivity.
Qed.

Lemma update_after_date_date clean (u : EventUpdate.t) (e : Event.t) :
  Event.date (update_after_date clean u e) = Event.date e.
Proof.
  unfold update_after_date.
  destruct (EventUpdate.description u), (EventUpdate.is_active u); reflexivity.
Qed.

(** C9, as stated, fails for an update that addresses no stored event:
    [update_event] looks the event up before it looks at the date, so a date
    in the past is answered with [NotFoundError] (HTTP 404), not with
    [ValidationError] (HTTP 422). *)
Lemma update_event_past_date_missing_event :
  EventUpdate.date sample_event_update = Some 739020
  /\ 739020 < 739030
  /\ fst (update_event plain_clean 739030 "e9" sample_event_update sample_db)
     <> Raised (ValidationError "Event date cannot be in the past")
  /\ http_status (fst (update_event plain_clean 739030 "e9" sample_event_update
                         sample_db)) = Some 404.
Proof.
  split; [reflexivity|]. split; [reflexivity|]. split; [|reflexivity].
  vm_compute. discriminate.
Qed.

(** C9 (amended): for every event-creation request, and for every
    event-update request that addresses a stored event and carries a date, a
    date strictly before the current day raises [ValidationError] with the
    message ['Event date cannot be in the past'] (HTTP 422) and leaves the
    store unchanged.  A date equal to or later than the current day is
    accepted: the creation raises no [ValidationError] and, with an unused
    identifier, stores the event with that date; the update returns the event
    with that date, which is then what a fetch by its identifier returns.  An
    update that addresses no stored event raises [NotFoundError] (HTTP 404)
    and leaves the store unchanged, whatever its date. *)
Theorem event_date_not_in_past
    clean (uuid4 : UUID) (today : date) (event_data : EventCreate.t)
    (event_id : UUID) (update : EventUpdate.t) (db : Database) :
  (EventCreate.date event_data < today ->
     create_event clean uuid4 today event_data db
     = (Raised (ValidationError "Event date cannot be in the past"), db))
  /\ (today <= EventCreate.date event_data ->
        fst (create_event clean uuid4 today event_data db)
        <> Raised (ValidationError "Event date cannot be in the past")
        /\ ((forall e, In e (events db) -> Event.id e <> uuid4) ->
            exists e db',
              create_event clean uuid4 today event_data db = (Returned 201 e, db')
              /\ Event.date e = EventCreate.date event_data
              /\ events db' = (events db ++ [e])%list))
  /\ (forall event d,
        query_event event_id db = Some event ->
        EventUpdate.date update = Some d ->
        d < today ->
        update_event clean today event_id update db
        = (Raised (ValidationError "Event date cannot be in the past"), db))
  /\ (forall event d,
        query_event event_id db = Some event ->
        EventUpdate.date update = Some d ->
        today <= d ->
        exists e db',
          update_event clean today event_id update db = (Returned 200 e, db')
          /\ Event.date e = d
          /\ get_event event_id db' = Returned 200 e)
  /\ (query_event event_id db = None ->
        update_event clean today event_id update db
        = (Raised (NotFoundError "Event" (Some event_id)), db))
  /\ http_status (@Raised Event.t (ValidationError "Event date cannot be in the past"))
     = Some 422.
Proof.
  split; [|split; [|split; [|split; [|split]]]].
  - intros Hlt. unfold create_event.
    destruct (Z.ltb_spec (EventCreate.date event_data) today); [reflexivity|lia].
  - intros Hge. unfold create_event.
    destruct (Z.ltb_spec (EventCreate.date event_data) today); [lia|].
    split.
    + destruct (insert_event _ db); simpl; discriminate.
    + intros Hfresh. unfold insert_event. simpl Event.id.
      rewrite (existsb_false_forall _ (events db)).
      2:{ intros e He. apply String.eqb_neq. exact (Hfresh e He). }
      eexists _, _. split; [reflexivity|]. split; reflexivity.
  - intros event d Hq Hd Hlt. unfold update_event. rewrite Hq, Hd.
    destruct (Z.ltb_spec d today); [reflexivity|lia].
  - intros event d Hq Hd Hge.
    destruct (query_event_some _ _ _ Hq) as [Hin Hid].
    unfold update_event. rewrite Hq, Hd.
    destruct (Z.ltb_spec d today); [lia|].
    eexists _, _. split; [reflexivity|]. split.
    + rewrite update_after_date_date. reflexivity.
    + unfold get_event, query_event. simpl events.
      rewrite find_update_row.
      2:{ intros e. rewrite update_after_date_id. simpl.
          apply update_before_date_id. }
      unfold query_event in Hq. rewrite Hid, Hq. simpl.
      rewrite Hid, String.eqb_refl. reflexivity.
  - intros Hq. unfold update_event. rewrite Hq. reflexivity.
  - reflexivity.
Qed.

Lemma event_date_not_in_past_witness :
  create_event plain_clean "e2" 739015 sample_event_create sample_db
  = (Raised (ValidationError "Event date cannot be in the past"), sample_db)
  /\ (exists e db',
        create_event plain_clean "e2" 739015 sample_event_create empty_db
        = (Raised (ValidationError "Event date cannot be in the past"), empty_db)
        /\ create_event plain_clean "e2" 739000 sample_event_create empty_db
           = (Returned 201 e, db')
        /\ Event.date e = 739010)
  /\ (exists e db',
        update_event plain_clean 739015 "e1" sample_event_update sample_db
        = (Returned 200 e, db')
        /\ Event.date e = 739020
        /\ get_event "e1" db' = Returned 200 e)
  /\ update_event plain_clean 739030 "e1" sample_event_update sample_db
     = (Raised (ValidationError "Event date cannot be in the past"), sample_db)
  /\ update_event plain_clean 739030 "e9" sample_event_update sample_db
     = (Raised (NotFoundError "Event" (Some "e9")), sample_db).
Proof.
  destruct (event_date_not_in_past plain_clean "e2" 739015 sample_event_create
              "e1" sample_event_update sample_db) as (H1 & _ & _ & H4 & _).
  destruct (event_date_not_in_past plain_clean "e2" 739015 sample_event_create
              "e1" sample_event_update empty_db) as (E1 & _).
  destruct (event_date_not_in_past plain_clean "e2" 739000 sample_event_create
              "e1" sample_event_update empty_db) as (_ & E2 & _).
  destruct (event_date_not_in_past plain_clean "e2" 739030 sample_event_create
              "e1" sample_event_update sample_db) as (_ & _ & P3 & _).
  destruct (event_date_not_in_past plain_clean "e2" 739030 sample_event_create
              "e9" sample_event_update sample_db) as (_ & _ & _ & _ & M5 & _).
  split; [apply H1; reflexivity|].
  split.
  - destruct E2 as [_ E2]; [discriminate|].
    destruct E2 as (e & db' & Hc & Hd & _); [intros x []|].
    exists e, db'. split; [apply E1; reflexivity|]. split; [exact Hc|exact Hd].
  - split; [apply (H4 sample_event 739020); [reflexivity|reflexivity|discriminate]|].
    split; [apply (P3 sample_event 739020); reflexivity|].
    apply M5. reflexivity.
Defined.

(** ** Credential verifier *)

(** C3, as stated, fails: a stored hash without an Argon2 header makes
    [ph.verify] raise [InvalidHashError], which [verify_password] does not
    catch; no boolean is returned. *)
Lemma verify_password_malformed_hash_raises :
  ~ (exists b, verify_password (PasswordHasher_verify reject_all) "secret" "not-a-hash"
               = Return b).
Proof. intros [b H]. vm_compute in H. discriminate. Qed.

(** A stored hash without an Argon2 header raises, whatever the password
    and the comparison. *)
Lemma verify_password_invalid_header verify_secret (plain hashed : string) :
  argon2_header hashed = false ->
  verify_password (PasswordHasher_verify verify_secret) plain hashed
  = Raise (Unhandled "InvalidHashError").
Proof.
  intros H. unfold verify_password, PasswordHasher_verify. rewrite H. reflexivity.
Qed.

(** C3 (amended): [verify_password] returns true exactly when Argon2
    verifies the password against the hash, returns false exactly when
    Argon2 reports a mismatch, and raises exactly when Argon2 reports an
    invalid hash or another verification failure. *)
Theorem verify_password_outcomes
    (ph_verify : string -> string -> argon2_outcome) (plain hashed : string) :
  (verify_password ph_verify plain hashed = Return true
   <-> ph_verify hashed plain = Verified)
  /\ (verify_password ph_verify plain hashed = Return false
      <-> ph_verify hashed plain = VerifyMismatchError)
  /\ ((exists e, verify_password ph_verify plain hashed = Raise e)
      <-> ph_verify hashed plain = VerificationError
          \/ ph_verify hashed plain = InvalidHashError).
Proof.
  unfold verify_password.
  destruct (ph_verify hashed plain); repeat split;
    try discriminate; try reflexivity;
    try (intros [e H]; discriminate);
    try (intros [H|H]; discriminate);
    try (intros _; eexists; reflexivity);
    try (intros _; left; reflexivity);
    try (intros _; right; reflexivity).
Qed.

(** ** File upload validator *)

Lemma bytes_eqb_eq (a b : bytes) : bytes_eqb a b = true <-> a = b.
Proof.
  revert b; induction a as [|x a IH]; intros [|y b]; simpl;
    try (split; [discriminate|discriminate]); try tauto.
  rewrite andb_true_iff, IH. split.
  - intros [H ->]. apply Byte.byte_dec_bl in H. congruence.
  - intros H. injection H as -> ->. split; [apply Byte.byte_dec_lb|]; reflexivity.
Qed.

Lemma validate_pdf_file_bad_extension (f : UploadFile) :
  ~ has_pdf_suffix f ->
  validate_pdf_file f = (false, Some "File must be a PDF (.pdf extension required)").
Proof.
  intros H. unfold validate_pdf_file.
  destruct (filename f) as [[|c name]|] eqn:E; try reflexivity.
  simpl Py.truthy_str. simpl default.
  destruct (Py.endswith (Py.lower (String c name)) ".pdf") eqn:S; [|reflexivity].
  exfalso. apply H. exists (String c name). auto.
Qed.

Lemma validate_pdf_file_good_extension (f : UploadFile) :
  has_pdf_suffix f ->
  validate_pdf_file f
  = if match content_type f with
       | Some t => String.eqb t "application/pdf"
       | None => false
       end
    then (true, None)
    else (false, Some "File must be of type application/pdf").
Proof.
  intros (name & E & S). unfold validate_pdf_file. rewrite E.
  destruct name as [|c name]; [discriminate S|].
  simpl Py.truthy_str. simpl default. rewrite S. simpl.
  destruct (content_type f) as [t|]; [|reflexivity].
  destruct (String.eqb t "application/pdf"); reflexivity.
Qed.

Lemma validate_pdf_file_bad_content_type (f : UploadFile) :
  has_pdf_suffix f -> ~ declares_pdf f ->
  validate_pdf_file f = (false, Some "File must be of type application/pdf").
Proof.
  intros Hs Hd. rewrite validate_pdf_file_good_extension by exact Hs.
  destruct (content_type f) as [t|] eqn:E; [|reflexivity].
  destruct (String.eqb_spec t "application/pdf") as [->|]; [|reflexivity].
  exfalso. apply Hd. exact E.
Qed.

Lemma validate_pdf_file_ok (f : UploadFile) :
  has_pdf_suffix f -> declares_pdf f -> validate_pdf_file f = (true, None).
Proof.
  intros Hs Hd. rewrite validate_pdf_file_good_extension by exact Hs.
  unfold declares_pdf in Hd. rewrite Hd. reflexivity.
Qed.

Lemma validate_pdf_magic_bytes_bad_signature magic (f : UploadFile) :
  ~ starts_with_pdf_signature f ->
  validate_pdf_magic_bytes magic (file f) = false.
Proof.
  intros H. unfold validate_pdf_magic_bytes.
  destruct (length (file f) <? 4)%nat; [reflexivity|].
  destruct (bytes_eqb (firstn 4 (file f)) pdf_signature) eqn:E; [|reflexivity].
  exfalso. apply H. apply bytes_eqb_eq. exact E.
Qed.

(** C4: an upload is checked in a fixed order, and the first check that
    fails decides the rejection, whatever the later checks would say: the
    [.pdf] suffix of the file name, case-insensitively (HTTP 400); then the
    declared content type [application/pdf] (HTTP 400); then the size
    against the configured maximum, 10 MiB by default (HTTP 413); then the
    signature [%PDF] in the first four bytes (HTTP 400).  A rejected upload
    changes neither the store nor the file system. *)
Theorem upload_checks_in_order
    clean magic (settings : Settings) (file_uuid row_uuid : UUID)
    (title : string) (level : ResourceLevel) (f : UploadFile) (w : World) :
  let outcome :=
    create_resource clean magic settings file_uuid row_uuid title level f w in
  (~ has_pdf_suffix f ->
     outcome = (Raised (HTTPException 400
                          "File must be a PDF (.pdf extension required)"), w))
  /\ (has_pdf_suffix f -> ~ declares_pdf f ->
        outcome = (Raised (HTTPException 400
                             "File must be of type application/pdf"), w))
  /\ (has_pdf_suffix f -> declares_pdf f -> ~ within_size_limit settings f ->
        outcome = (Raised (HTTPException 413
                             ("File size exceeds maximum allowed size of "
                              +:+ pretty (max_file_size_mb settings) +:+ "MB")), w))
  /\ (has_pdf_suffix f -> declares_pdf f -> within_size_limit settings f ->
      ~ starts_with_pdf_signature f ->
        outcome = (Raised (HTTPException 400 "File is not a valid PDF"), w))
  /\ max_file_size_bytes default_settings = 10 * 1024 * 1024.
Proof.
  intros outcome. subst outcome. unfold create_resource.
  split; [|split; [|split; [|split]]].
  - intros H. rewrite validate_pdf_file_bad_extension by exact H. reflexivity.
  - intros H1 H2. rewrite validate_pdf_file_bad_content_type by assumption. reflexivity.
  - intros H1 H2 H3. rewrite validate_pdf_file_ok by assumption. simpl negb. cbv iota.
    unfold save_pdf_file. unfold within_size_limit in H3.
    destruct (Z.gtb_spec (Z.of_nat (length (file f))) (max_file_size_bytes settings));
      [reflexivity|lia].
  - intros H1 H2 H3 H4. rewrite validate_pdf_file_ok by assumption. simpl negb. cbv iota.
    unfold save_pdf_file. unfold within_size_limit in H3.
    destruct (Z.gtb_spec (Z.of_nat (length (file f))) (max_file_size_bytes settings));
      [lia|].
    rewrite validate_pdf_magic_bytes_bad_signature by exact H4. reflexivity.
  - reflexivity.
Qed.

Lemma upload_checks_in_order_witness :
  create_resource plain_clean no_magic default_settings "f1" "r2" "Tool" BEGINNER
    sample_exe sample_world
  = (Raised (HTTPException 400 "File must be a PDF (.pdf extension required)"),
     sample_world)
  /\ create_resource plain_clean no_magic default_settings "f1" "r2" "Notes" BEGINNER
       mistyped_pdf sample_world
     = (Raised (HTTPException 400 "File must be of type application/pdf"), sample_world)
  /\ create_resource plain_clean no_magic tight_settings "f1" "r2" "Intro" BEGINNER
       sample_pdf sample_world
     = (Raised (HTTPException 413 "File size exceeds maximum allowed size of 0MB"),
        sample_world)
  /\ create_resource plain_clean no_magic default_settings "f1" "r2" "Evil" BEGINNER
       evil_pdf sample_world
     = (Raised (HTTPException 400 "File is not a valid PDF"), sample_world).
Proof.
  split; [|split; [|split]].
  - apply (upload_checks_in_order plain_clean no_magic default_settings "f1" "r2"
             "Tool" BEGINNER sample_exe sample_world).
    intros (name & E & S). injection E as <-. vm_compute in S. discriminate.
  - apply (upload_checks_in_order plain_clean no_magic default_settings "f1" "r2"
             "Notes" BEGINNER mistyped_pdf sample_world).
    + eexists. split; reflexivity.
    + unfold declares_pdf. simpl. discriminate.
  - apply (upload_checks_in_order plain_clean no_magic tight_settings "f1" "r2"
             "Intro" BEGINNER sample_pdf sample_world).
    + eexists. split; reflexivity.
    + reflexivity.
    + unfold within_size_limit. vm_compute. intros H. apply H. reflexivity.
  - apply (upload_checks_in_order plain_clean no_magic default_settings "f1" "r2"
             "Evil" BEGINNER evil_pdf sample_world).
    + eexists. split; reflexivity.
    + reflexivity.
    + unfold within_size_limit. vm_compute. discriminate.
    + unfold starts_with_pdf_signature. vm_compute. discriminate.
Defined.

(** ** Resources: the order of file and row operations *)

Lemma update_title_level_file_url clean title level (r : Resource.t) :
  Resource.file_url (update_title_level clean title level r) = Resource.file_url r
  /\ Resource.id (update_title_level clean title level r) = Resource.id r.
Proof. unfold update_title_level. destruct title, level; split; reflexivity. Qed.

Lemma query_resource_some (resource_id : UUID) (db : Database) (r : Resource.t) :
  query_resource resource_id db = Some r ->
  In r (resources db) /\ Resource.id r = resource_id.
Proof.
  unfold query_resource. intros H. apply find_some in H as [Hin Hid].
  apply String.eqb_eq in Hid. auto.
Qed.

(** Deleting the previous file when it exists. *)
Lemma old_file_removed (path : string) (w : World) :
  (if path_exists path w then snd (delete_file path w) else w)
  = if path_is_file path w then unlink path w else w.
Proof.
  unfold delete_file, path_exists, path_is_file.
  destruct (fs w !! path) as [[c|]|]; reflexivity.
Qed.

Lemma log_mkdir_exist_ok (path : string) (w : World) :
  log (mkdir_exist_ok path w) = log w /\ store (mkdir_exist_ok path w) = store w.
Proof. unfold mkdir_exist_ok. destruct (fs w !! path); split; reflexivity. Qed.

(** C2, as stated, fails: [update_resource] unlinks the previous file
    before it writes the new one and before it commits the row, and
    [delete_resource] unlinks the file before it commits the removal of the
    row. *)
Lemma resource_file_deleted_before_commit :
  let replaced :=
    log (snd (update_resource plain_clean no_magic default_settings "new" "r1"
                None None (Some sample_pdf) sample_world)) in
  let deleted := log (snd (delete_resource "r1" sample_world)) in
  replaced = [Unlink "uploads/old.pdf"; Write "uploads/new.pdf"; Commit]
  /\ ~ deleted_only_after (Write "uploads/new.pdf") "uploads/old.pdf" replaced
  /\ ~ deleted_only_after Commit "uploads/old.pdf" replaced
  /\ deleted = [Unlink "uploads/old.pdf"; Commit]
  /\ ~ deleted_only_after Commit "uploads/old.pdf" deleted.
Proof.
  vm_compute. repeat split; try reflexivity;
    intros H; specialize (H (or_introl eq_refl)); discriminate.
Qed.

Lemma delete_resource_row_gone (pk : UUID) (db : Database) :
  query_resource pk (delete_resource_row pk db) = None.
Proof.
  unfold query_resource, delete_resource_row. simpl.
  induction (resources db) as [|a l IH]; simpl; [reflexivity|].
  destruct (String.eqb (Resource.id a) pk) eqn:E; simpl; [exact IH|].
  rewrite E. exact IH.
Qed.

(** C2 (amended): a file replacement that succeeds first deletes the
    previous backing file (when there is one), then writes the new file, then
    commits the row, which now refers to the new file; a resource deletion
    first deletes the backing file (when there is one) and then commits the
    removal of the row. *)
Theorem resource_file_effects_order
    clean magic (settings : Settings) (file_uuid resource_id : UUID)
    (title : option string) (level : option ResourceLevel)
    (f : UploadFile) (w : World) (old : Resource.t) :
  query_resource resource_id (store w) = Some old ->
  has_pdf_suffix f ->
  declares_pdf f ->
  within_size_limit settings f ->
  validate_pdf_magic_bytes magic (file f) = true ->
  (forall r, In r (resources (store w)) -> Resource.id r <> resource_id ->
             Resource.file_url r <> "uploads/" +:+ (file_uuid +:+ ".pdf")) ->
  let gone :=
    if path_is_file (Resource.file_url old) w
    then [Unlink (Resource.file_url old)] else [] in
  (exists r w',
      update_resource clean magic settings file_uuid resource_id title level (Some f) w
      = (Returned 200 r, w')
      /\ Resource.file_url r = "uploads/" +:+ (file_uuid +:+ ".pdf")
      /\ log w'
         = (log w ++ gone
            ++ [Write (upload_dir settings +:+ "/" +:+ (file_uuid +:+ ".pdf")); Commit])%list)
  /\ (exists w',
         delete_resource resource_id w = (Returned 204 tt, w')
         /\ query_resource resource_id (store w') = None
         /\ log w' = (log w ++ gone ++ [Commit])%list).
Proof.
  intros Hq Hs Hd Hfit Hmagic Hurl gone.
  destruct (query_resource_some _ _ _ Hq) as [Hin Hid].
  split.
  - unfold update_resource. rewrite Hq.
    rewrite validate_pdf_file_ok by assumption. simpl negb. cbv iota.
    destruct (update_title_level_file_url clean title level old) as [Eurl Eid].
    rewrite Eurl, old_file_removed.
    set (w1 := if path_is_file (Resource.file_url old) w
               then unlink (Resource.file_url old) w else w).
    assert (Hw1 : store w1 = store w /\ log w1 = (log w ++ gone)%list).
    { subst w1 gone. destruct (path_is_file (Resource.file_url old) w); simpl.
      - auto.
      - rewrite app_nil_r. auto. }
    destruct Hw1 as [Hst Hlog].
    unfold save_pdf_file. unfold within_size_limit in Hfit.
    destruct (Z.gtb_spec (Z.of_nat (length (file f))) (max_file_size_bytes settings));
      [lia|].
    rewrite Hmagic. simpl negb. cbv iota.
    unfold commit_resource, update_resource_row.
    simpl store. simpl Resource.id. simpl Resource.file_url.
    destruct (log_mkdir_exist_ok (upload_dir settings) w1) as [Hlog' Hst'].
    rewrite Hst', Hst, Eid, Hid.
    rewrite (existsb_false_forall _ (resources (store w))).
    2:{ intros r Hr. destruct (String.eqb_spec (Resource.id r) resource_id) as [|Hne];
          [reflexivity|]. simpl. apply String.eqb_neq. exact (Hurl r Hr Hne). }
    simpl. eexists _, _. split; [reflexivity|]. split; [reflexivity|].
    simpl. rewrite Hlog', Hlog, <- !app_assoc. reflexivity.
  - unfold delete_resource. rewrite Hq, old_file_removed.
    eexists. split; [reflexivity|]. split.
    + simpl store. rewrite Hid. apply delete_resource_row_gone.
    + subst gone. simpl.
      destruct (path_is_file (Resource.file_url old) w); simpl.
      * rewrite <- app_assoc. reflexivity.
      * reflexivity.
Qed.

Lemma resource_file_effects_order_witness :
  (exists r w',
      update_resource plain_clean no_magic default_settings "new" "r1"
        (Some "Intro, revised") None (Some sample_pdf) sample_world
      = (Returned 200 r, w')
      /\ Resource.file_url r = "uploads/new.pdf"
      /\ log w' = [Unlink "uploads/old.pdf"; Write "uploads/new.pdf"; Commit])
  /\ (exists w',
         delete_resource "r1" sample_world = (Returned 204 tt, w')
         /\ query_resource "r1" (store w') = None
         /\ log w' = [Unlink "uploads/old.pdf"; Commit]).
Proof.
  apply (resource_file_effects_order plain_clean no_magic default_settings "new" "r1"
           (Some "Intro, revised") None sample_pdf sample_world sample_resource).
  - reflexivity.
  - eexists. split; reflexivity.
  - reflexivity.
  - unfold within_size_limit. vm_compute. discriminate.
  - reflexivity.
  - simpl. intros r [<-|[]] H. exfalso. apply H. reflexivity.
Defined.

(** ** Hackathon teams *)

Lemma validate_member_inl validate_email (loc : string) (m m' : TeamMemberBase.t) :
  validate_member validate_email loc m = inl m' ->
  TeamMemberBase.is_leader m' = TeamMemberBase.is_leader m.
Proof.
  unfold validate_member. intros H.
  destruct (_ ++ _)%list; [|discriminate].
  destruct (validate_email (TeamMemberBase.email m)); [|discriminate].
  injection H as <-. reflexivity.
Qed.

Lemma validate_member_inr validate_email (loc : string) (m : TeamMemberBase.t)
    (es : list field_error) :
  validate_member validate_email loc m = inr es -> es <> [].
Proof.
  unfold validate_member.
  destruct (validate_email (TeamMemberBase.email m)) as [e|].
  - destruct (_ ++ _)%list eqn:E; [discriminate|].
    intros H. injection H as <-. discriminate.
  - intros H.
    match type of H with
    | match ?l with _ => _ end = _ =>
        assert (E : inr l = @inr TeamMemberBase.t _ es) by (destruct l; exact H)
    end.
    injection E as <-.
    destruct (check_length _ 1 100 (TeamMemberBase.name m)); simpl; discriminate.
Qed.

Lemma validate_items_inl validate_email (l : list TeamMemberBase.t) :
  forall (i : nat) (ms : list TeamMemberBase.t),
    validate_items validate_email i l = inl ms ->
    length ms = length l
    /\ length (List.filter TeamMemberBase.is_leader ms)
       = length (List.filter TeamMemberBase.is_leader l).
Proof.
  induction l as [|m l IH]; simpl; intros i ms H.
  - injection H as <-. auto.
  - destruct (validate_member validate_email _ m) as [m'|e] eqn:Em;
      destruct (validate_items validate_email (S i) l) as [ms'|es] eqn:El;
      try discriminate.
    injection H as <-. destruct (IH _ _ El) as [H1 H2].
    apply validate_member_inl in Em. simpl. rewrite Em.
    destruct (TeamMemberBase.is_leader m); simpl; auto.
Qed.

Lemma validate_items_inr validate_email (l : list TeamMemberBase.t) :
  forall (i : nat) (es : list field_error),
    validate_items validate_email i l = inr es -> es <> [].
Proof.
  induction l as [|m l IH]; simpl; intros i es H; [discriminate|].
  destruct (validate_member validate_email _ m) as [m'|e] eqn:Em;
    destruct (validate_items validate_email (S i) l) as [ms'|es'] eqn:El;
    try discriminate; injection H as <-.
  - exact (IH _ _ El).
  - exact (validate_member_inr _ _ _ _ Em).
  - apply validate_member_inr in Em. destruct e; [congruence|discriminate].
Qed.

Lemma validate_team_members_field_rejects validate_email (l : list TeamMemberBase.t) :
  length l <> 4%nat \/ length (List.filter TeamMemberBase.is_leader l) <> 1%nat ->
  exists es, es <> [] /\ validate_team_members_field validate_email l = inr es.
Proof.
  intros H. unfold validate_team_members_field.
  destruct (validate_items validate_email 0 l) as [ms|es] eqn:E.
  - destruct (validate_items_inl _ _ _ _ E) as [Hlen Hlead].
    destruct (Nat.ltb_spec (length ms) 4); [eexists; split; [|reflexivity]; discriminate|].
    destruct (Nat.ltb_spec 4 (length ms)); [eexists; split; [|reflexivity]; discriminate|].
    unfold validate_team_members.
    destruct (Nat.eqb_spec (length ms) 4) as [E4|]; [|lia]. simpl negb. cbv iota.
    destruct (Nat.eqb_spec (length (List.filter TeamMemberBase.is_leader ms)) 1) as [E1|].
    + exfalso. destruct H as [H|H]; [apply H|apply H]; congruence.
    + simpl. eexists; split; [|reflexivity]; discriminate.
  - exists es. split; [exact (validate_items_inr _ _ _ _ E)|reflexivity].
Qed.

(** C5: a team creation request whose member list does not have exactly
    4 members, or does not have exactly one member with [is_leader] true,
    is rejected with a validation error (HTTP 422, machine code
    [VALIDATION_ERROR]) before the handler runs, and the store is left as
    it was: no team row and no member row is written. *)
Theorem invalid_team_rejected_before_write
    clean validate_email (uuid4 : nat -> UUID)
    (body : HackathonTeamCreate.t) (db : Database) :
  length (HackathonTeamCreate.team_members body) <> 4%nat
  \/ length (List.filter TeamMemberBase.is_leader (HackathonTeamCreate.team_members body))
     <> 1%nat ->
  exists errors,
    errors <> []
    /\ post_hackathon_team clean validate_email uuid4 body db
       = (Raised (RequestValidationError errors), db)
    /\ http_status (fst (post_hackathon_team clean validate_email uuid4 body db))
       = Some 422
    /\ machine_code (fst (post_hackathon_team clean validate_email uuid4 body db))
       = Some "VALIDATION_ERROR".
Proof.
  intros H.
  destruct (validate_team_members_field_rejects validate_email _ H) as (es & Hne & E).
  unfold post_hackathon_team, validate_HackathonTeamCreate. rewrite E.
  eexists. split; [|split; [reflexivity|split; reflexivity]].
  intros Happ. apply app_eq_nil in Happ as [_ Happ].
  apply app_eq_nil in Happ as [_ Happ]. contradiction.
Qed.

Lemma invalid_team_rejected_before_write_witness :
  (exists errors,
      errors <> []
      /\ post_hackathon_team plain_clean simple_email uuid_seq short_team empty_db
         = (Raised (RequestValidationError errors), empty_db)
      /\ http_status (fst (post_hackathon_team plain_clean simple_email uuid_seq
                             short_team empty_db)) = Some 422
      /\ machine_code (fst (post_hackathon_team plain_clean simple_email uuid_seq
                              short_team empty_db)) = Some "VALIDATION_ERROR")
  /\ (exists errors,
         errors <> []
         /\ post_hackathon_team plain_clean simple_email uuid_seq two_leader_team empty_db
            = (Raised (RequestValidationError errors), empty_db)
         /\ http_status (fst (post_hackathon_team plain_clean simple_email uuid_seq
                                two_leader_team empty_db)) = Some 422
         /\ machine_code (fst (post_hackathon_team plain_clean simple_email uuid_seq
                                 two_leader_team empty_db)) = Some "VALIDATION_ERROR").
Proof.
  split.
  - apply (invalid_team_rejected_before_write plain_clean simple_email uuid_seq
             short_team empty_db).
    left. simpl. discriminate.
  - apply (invalid_team_rejected_before_write plain_clean simple_email uuid_seq
             two_leader_team empty_db).
    right. simpl. discriminate.
Defined.

Lemma add_members_rows clean (uuid4 : nat -> UUID) (team_id : UUID)
    (l : list TeamMemberBase.t) :
  forall (i : nat) (db db' : Database),
    add_members clean uuid4 i team_id l db = Some db' ->
    exists rows,
      team_members db' = (team_members db ++ rows)%list
      /\ Forall2 (fun (member_data : TeamMemberBase.t) (row : TeamMember.t) =>
                    TeamMember.email row = Py.lower (TeamMemberBase.email member_data)
                    /\ TeamMember.division row
                       = Py.upper (TeamMemberBase.division member_data)
                    /\ TeamMember.team_id row = team_id) l rows.
Proof.
  induction l as [|m l IH]; simpl; intros i db db' H.
  - injection H as <-. exists []. rewrite app_nil_r. split; [reflexivity|constructor].
  - destruct (insert_member (new_member clean (uuid4 i) team_id m) db) as [db1|] eqn:E;
      [|discriminate].
    destruct (IH _ _ _ H) as (rows & Hrows & Hall).
    unfold insert_member in E.
    destruct (_ || _); [discriminate|]. injection E as <-. simpl in Hrows.
    exists (new_member clean (uuid4 i) team_id m :: rows). split.
    + rewrite Hrows, <- app_assoc. reflexivity.
    + constructor; [|exact Hall]. simpl. auto.
Qed.

(** C10: when [create_hackathon_team] succeeds, the member rows it has
    persisted correspond, in order, to the members of the request: the
    e-mail of each row is the lower-cased e-mail of its member, its division
    is the upper-cased division, and the row belongs to the new team. *)
Theorem created_team_members_normalised
    clean (uuid4 : nat -> UUID) (team_data : HackathonTeamCreate.t)
    (db db' : Database) (team : HackathonTeam.t) :
  create_hackathon_team clean uuid4 team_data db = (Returned 201 team, db') ->
  exists rows,
    team_members db' = (team_members db ++ rows)%list
    /\ Forall2 (fun (member_data : TeamMemberBase.t) (row : TeamMember.t) =>
                  TeamMember.email row = Py.lower (TeamMemberBase.email member_data)
                  /\ TeamMember.division row
                     = Py.upper (TeamMemberBase.division member_data)
                  /\ TeamMember.team_id row = HackathonTeam.id team)
         (HackathonTeamCreate.team_members team_data) rows.
Proof.
  unfold create_hackathon_team. intros H.
  destruct (insert_team _ db) as [db1|] eqn:E1; [|discriminate].
  destruct (add_members clean uuid4 1 _ _ db1) as [db2|] eqn:E2; [|discriminate].
  injection H as <- <-.
  destruct (add_members_rows _ _ _ _ _ _ _ E2) as (rows & Hrows & Hall).
  exists rows. split; [|exact Hall].
  rewrite Hrows. unfold insert_team in E1.
  destruct (_ || _); [discriminate|]. injection E1 as <-. reflexivity.
Qed.

Lemma created_team_members_normalised_witness :
  exists rows,
    team_members (snd (create_hackathon_team plain_clean uuid_seq sample_team empty_db))
    = (team_members empty_db ++ rows)%list
    /\ Forall2 (fun (member_data : TeamMemberBase.t) (row : TeamMember.t) =>
                  TeamMember.email row = Py.lower (TeamMemberBase.email member_data)
                  /\ TeamMember.division row
                     = Py.upper (TeamMemberBase.division member_data)
                  /\ TeamMember.team_id row = "id-0")
         (HackathonTeamCreate.team_members sample_team) rows.
Proof.
  apply (created_team_members_normalised plain_clean uuid_seq sample_team empty_db
           (snd (create_hackathon_team plain_clean uuid_seq sample_team empty_db))
           {| HackathonTeam.id := "id-0"; HackathonTeam.event_name := "Hack the Box";
              HackathonTeam.team_name := "Null Pointers" |}).
  vm_compute. reflexivity.
Defined.

(** ** Further facts about the handlers *)

(** An upload that passes the four checks (and the optional content
    sniffing) is stored under the generated name and its row committed. *)
Lemma create_resource_accepts
    clean magic (settings : Settings) (file_uuid row_uuid : UUID)
    (title : string) (level : ResourceLevel) (f : UploadFile) (w : World) :
  has_pdf_suffix f ->
  declares_pdf f ->
  within_size_limit settings f ->
  validate_pdf_magic_bytes magic (file f) = true ->
  (forall r, In r (resources (store w)) ->
             Resource.id r <> row_uuid
             /\ Resource.file_url r <> "uploads/" +:+ (file_uuid +:+ ".pdf")) ->
  exists r w',
    create_resource clean magic settings file_uuid row_uuid title level f w
    = (Returned 201 r, w')
    /\ Resource.file_url r = "uploads/" +:+ (file_uuid +:+ ".pdf")
    /\ fs w' !! (upload_dir settings +:+ "/" +:+ (file_uuid +:+ ".pdf"))
       = Some (File (file f))
    /\ log w'
       = (log w ++ [Write (upload_dir settings +:+ "/" +:+ (file_uuid +:+ ".pdf"));
                    Commit])%list.
Proof.
  intros Hs Hd Hfit Hmagic Hfresh.
  unfold create_resource. rewrite validate_pdf_file_ok by assumption.
  simpl negb. cbv iota.
  unfold save_pdf_file. unfold within_size_limit in Hfit.
  destruct (Z.gtb_spec (Z.of_nat (length (file f))) (max_file_size_bytes settings));
    [lia|].
  rewrite Hmagic. simpl negb. cbv iota.
  destruct (log_mkdir_exist_ok (upload_dir settings) w) as [Hlog Hst].
  unfold insert_resource. simpl store. rewrite Hst. simpl Resource.id.
  simpl Resource.file_url.
  rewrite (existsb_false_forall _ (resources (store w))).
  2:{ intros r Hr. apply String.eqb_neq. exact (proj1 (Hfresh r Hr)). }
  rewrite (existsb_false_forall _ (resources (store w))).
  2:{ intros r Hr. apply String.eqb_neq. exact (proj2 (Hfresh r Hr)). }
  simpl. eexists _, _. split; [reflexivity|]. split; [reflexivity|]. split.
  - simpl. apply lookup_insert_eq.
  - simpl. rewrite Hlog, <- app_assoc. reflexivity.
Qed.

(** [update_event] looks the event up before it looks at the date. *)
Lemma update_event_missing clean (today : date) (event_id : UUID)
    (update : EventUpdate.t) (db : Database) :
  query_event event_id db = None ->
  update_event clean today event_id update db
  = (Raised (NotFoundError "Event" (Some event_id)), db).
Proof. intros H. unfold update_event. rewrite H. reflexivity. Qed.

(** A replacement file that passes [validate_pdf_file] but is rejected by
    [save_pdf_file] is rejected after the previous file has been unlinked:
    the row is unchanged and still names the file that is gone. *)
Lemma update_resource_rejected_after_unlink :
  let outcome :=
    update_resource plain_clean no_magic default_settings "new" "r1"
      None None (Some evil_pdf) sample_world in
  fst outcome = Raised (HTTPException 400 "File is not a valid PDF")
  /\ log (snd outcome) = [Unlink "uploads/old.pdf"]
  /\ fs (snd outcome) !! "uploads/old.pdf" = None
  /\ query_resource "r1" (store (snd outcome)) = Some sample_resource.
Proof. vm_compute. repeat split. Qed.

(** * Further properties of the handlers *)

(** ** Integrity of events and registrations *)

Lemma NoDup_snoc {A} (l : list A) (x : A) :
  NoDup l -> ~ In x l -> NoDup (l ++ [x]).
Proof.
  induction l as [|a l IH]; simpl; intros Hl Hx.
  - constructor; [intros []|constructor].
  - inversion Hl as [|? ? Ha Hl']; subst. constructor.
    + intros Hin. apply in_app_or in Hin as [Hin|[->|[]]]; [exact (Ha Hin)|].
      apply Hx. left. reflexivity.
    + apply IH; [exact Hl'|]. intros Hin. apply Hx. right. exact Hin.
Qed.

Lemma existsb_id_false {A} (key : A -> string) (k : string) (l : list A) :
  existsb (fun x => String.eqb (key x) k) l = false -> ~ In k (map key l).
Proof.
  intros H Hin. apply in_map_iff in Hin as (x & Hk & Hx).
  assert (E : existsb (fun x => String.eqb (key x) k) l = true).
  { apply existsb_exists. exists x. split; [exact Hx|]. rewrite Hk. apply String.eqb_refl. }
  congruence.
Qed.

Lemma map_id_update_row (pk : UUID) (f : Event.t -> Event.t) (l : list Event.t) :
  (forall e, Event.id (f e) = Event.id e) ->
  map Event.id (map (fun e => if String.eqb (Event.id e) pk then f e else e) l)
  = map Event.id l.
Proof.
  intros Hf. rewrite map_map. apply map_ext. intros e.
  destruct (String.eqb (Event.id e) pk); [apply Hf|reflexivity].
Qed.

Lemma events_integrity_update_row (pk : UUID) (f : Event.t -> Event.t) (db : Database) :
  (forall e, Event.id (f e) = Event.id e) ->
  events_integrity db -> events_integrity (update_event_row pk f db).
Proof.
  intros Hf (H1 & H2 & H3 & H4). unfold events_integrity. simpl.
  rewrite map_id_update_row by exact Hf.
  repeat split; try assumption.
  intros r Hr. destruct (H4 r Hr) as (e & He & Hid).
  exists (if String.eqb (Event.id e) pk then f e else e). split.
  - apply in_map_iff. exists e. auto.
  - rewrite <- Hid. destruct (String.eqb (Event.id e) pk); [apply Hf|reflexivity].
Qed.

Lemma events_integrity_insert_event (e : Event.t) (db db' : Database) :
  insert_event e db = Some db' -> events_integrity db -> events_integrity db'.
Proof.
  unfold insert_event. intros H (H1 & H2 & H3 & H4).
  destruct (existsb _ (events db)) eqn:E; [discriminate|]. injection H as <-.
  unfold events_integrity. simpl. rewrite map_app. simpl.
  repeat split; try assumption.
  - apply NoDup_snoc; [exact H1|]. exact (existsb_id_false Event.id _ _ E).
  - intros r Hr. destruct (H4 r Hr) as (x & Hx & Hid).
    exists x. split; [apply in_or_app; left; exact Hx|exact Hid].
Qed.

Lemma events_integrity_insert_registration (r : Registration.t) (db db' : Database) :
  insert_registration r db = Some db' -> events_integrity db -> events_integrity db'.
Proof.
  unfold insert_registration. intros H (H1 & H2 & H3 & H4).
  destruct (existsb _ (registrations db)) eqn:Epk; [discriminate|].
  destruct (existsb _ (events db)) eqn:Efk; [|discriminate].
  destruct (existsb (unique_event_moodle _ _) (registrations db)) eqn:Euq; [discriminate|].
  simpl in H. injection H as <-.
  unfold events_integrity. simpl. rewrite !map_app. simpl.
  repeat split; try assumption.
  - apply NoDup_snoc; [exact H2|]. exact (existsb_id_false Registration.id _ _ Epk).
  - apply NoDup_snoc; [exact H3|]. intros Hin.
    apply in_map_iff in Hin as (x & Hk & Hx).
    assert (E : existsb (unique_event_moodle (Registration.event_id r)
                           (Registration.moodle_id r)) (registrations db) = true).
    { apply existsb_exists. exists x. split; [exact Hx|].
      unfold registration_key in Hk. injection Hk as E1 E2.
      unfold unique_event_moodle. rewrite E1, E2, !String.eqb_refl. reflexivity. }
    congruence.
  - intros x Hx. apply in_app_or in Hx as [Hx|[<-|[]]]; [exact (H4 x Hx)|].
    apply existsb_exists in Efk as (e & He & Hid). apply String.eqb_eq in Hid.
    exists e. auto.
Qed.

(** X1: the handlers that write events and registrations keep the declared
    constraints: from a store whose event identifiers, registration
    identifiers and [(event_id, moodle_id)] pairs are without duplicates and
    whose registrations all refer to an event, [create_event],
    [update_event], [delete_event] and [create_registration] lead, whatever
    their arguments and outcome, to such a store. *)
Theorem events_integrity_preserved
    clean (uuid4 : UUID) (today : date) (event_data : EventCreate.t)
    (event_id : UUID) (update : EventUpdate.t)
    (registration_data : RegistrationCreate.t) (db : Database) :
  events_integrity db ->
  events_integrity (snd (create_event clean uuid4 today event_data db))
  /\ events_integrity (snd (update_event clean today event_id update db))
  /\ events_integrity (snd (delete_event event_id db))
  /\ events_integrity (snd (create_registration clean uuid4 registration_data db)).
Proof.
  intros Hok. split; [|split; [|split]].
  - unfold create_event.
    destruct (EventCreate.date event_data <? today); [exact Hok|].
    destruct (insert_event _ db) as [db'|] eqn:E; [|exact Hok].
    exact (events_integrity_insert_event _ _ _ E Hok).
  - unfold update_event.
    destruct (query_event event_id db); [|exact Hok].
    destruct (EventUpdate.date update) as [d|].
    + destruct (d <? today); [exact Hok|]. simpl.
      apply events_integrity_update_row; [|exact Hok].
      intros e. rewrite update_after_date_id. simpl. apply update_before_date_id.
    + simpl. apply events_integrity_update_row; [|exact Hok].
      intros e. rewrite update_after_date_id. apply update_before_date_id.
  - unfold delete_event.
    destruct (query_event event_id db); [|exact Hok].
    simpl. apply events_integrity_update_row; [reflexivity|exact Hok].
  - unfold create_registration.
    destruct (find _ (events db)); [|exact Hok].
    destruct (insert_registration _ db) as [db'|] eqn:E; [|exact Hok].
    exact (events_integrity_insert_registration _ _ _ E Hok).
Qed.

Lemma sample_registered_db_integrity : events_integrity sample_registered_db.
Proof.
  unfold events_integrity. simpl. repeat split.
  - repeat constructor. intros [].
  - repeat constructor. intros [].
  - repeat constructor. intros [].
  - intros r [<-|[]]. exists sample_event. split; [left|]; reflexivity.
Qed.

Lemma events_integrity_preserved_witness :
  events_integrity
    (snd (create_event plain_clean "r2" 739000 sample_event_create sample_registered_db))
  /\ events_integrity
       (snd (update_event plain_clean 739000 "e1" sample_event_update sample_registered_db))
  /\ events_integrity (snd (delete_event "e1" sample_registered_db))
  /\ events_integrity
       (snd (create_registration plain_clean "r2" sample_registration sample_registered_db)).
Proof.
  apply (events_integrity_preserved plain_clean "r2" 739000 sample_event_create "e1"
           sample_event_update sample_registration sample_registered_db).
  exact sample_registered_db_integrity.
Defined.

(** ** Soft deletion *)

Lemma delete_event_store (event_id : UUID) (db : Database) (event : Event.t) :
  query_event event_id db = Some event ->
  delete_event event_id db
  = (Returned 204 tt, update_event_row event_id (set_is_active false) db).
Proof.
  intros Hq. unfold delete_event. rewrite Hq.
  destruct (query_event_some _ _ _ Hq) as [_ ->]. reflexivity.
Qed.

Lemma no_active_row_after_soft_delete (event_id : UUID) (db : Database) :
  find (fun e => String.eqb (Event.id e) event_id && Bool.eqb (Event.is_active e) true)
    (events (update_event_row event_id (set_is_active false) db)) = None.
Proof.
  destruct (find _ _) as [e|] eqn:F; [|reflexivity].
  apply find_some in F as [Hin Hp]. simpl in Hin.
  apply in_map_iff in Hin as (x & Hx & _).
  apply andb_true_iff in Hp as [Hid Hact].
  destruct (String.eqb (Event.id x) event_id) eqn:E; subst e.
  - discriminate.
  - congruence.
Qed.

(** X2: after the soft deletion of an event the registrations are as
    they were, so every registration can still be read by its identifier,
    and a new registration for that event is refused with [NotFoundError]
    (HTTP 404), whatever else the request says. *)
Theorem soft_delete_keeps_registrations_and_refuses_new
    clean (event_id uuid4 : UUID) (registration_data : RegistrationCreate.t)
    (db : Database) (event : Event.t) :
  query_event event_id db = Some event ->
  RegistrationCreate.event_id registration_data = event_id ->
  let db' := snd (delete_event event_id db) in
  registrations db' = registrations db
  /\ (forall registration_id,
        get_registration registration_id db' = get_registration registration_id db)
  /\ create_registration clean uuid4 registration_data db'
     = (Raised (NotFoundError "Event" (Some event_id)), db')
  /\ http_status (fst (create_registration clean uuid4 registration_data db')) = Some 404.
Proof.
  intros Hq He db'. subst db'. rewrite (delete_event_store _ _ _ Hq). simpl snd.
  assert (E : create_registration clean uuid4 registration_data
                (update_event_row event_id (set_is_active false) db)
              = (Raised (NotFoundError "Event" (Some event_id)),
                 update_event_row event_id (set_is_active false) db)).
  { unfold create_registration. rewrite He, no_active_row_after_soft_delete. reflexivity. }
  split; [reflexivity|]. split; [reflexivity|]. split; [exact E|].
  rewrite E. simpl. unfold NotFoundError. destruct event_id; reflexivity.
Qed.

Lemma soft_delete_keeps_registrations_and_refuses_new_witness :
  let db' := snd (delete_event "e1" sample_registered_db) in
  registrations db' = registrations sample_registered_db
  /\ (forall registration_id,
        get_registration registration_id db'
        = get_registration registration_id sample_registered_db)
  /\ create_registration plain_clean "r2" sample_registration db'
     = (Raised (NotFoundError "Event" (Some "e1")), db')
  /\ http_status (fst (create_registration plain_clean "r2" sample_registration db'))
     = Some 404.
Proof.
  apply (soft_delete_keeps_registrations_and_refuses_new plain_clean "e1" "r2"
           sample_registration sample_registered_db sample_event).
  - reflexivity.
  - reflexivity.
Defined.

Lemma update_event_row_idempotent (pk : UUID) (db : Database) :
  update_event_row pk (set_is_active false)
    (update_event_row pk (set_is_active false) db)
  = update_event_row pk (set_is_active false) db.
Proof.
  unfold update_event_row. simpl. f_equal.
  rewrite map_map. apply map_ext. intros e.
  destruct (String.eqb (Event.id e) pk) eqn:E.
  - simpl. rewrite E. reflexivity.
  - rewrite E. reflexivity.
Qed.

(** X3: soft deletion is idempotent: deleting an event a second time gives
    the same outcome as the first time (204 for an event that exists, even
    though it is inactive by then; [NotFoundError] for one that does not) and
    the same store. *)
Theorem delete_event_idempotent (event_id : UUID) (db : Database) :
  delete_event event_id (snd (delete_event event_id db)) = delete_event event_id db.
Proof.
  destruct (query_event event_id db) as [event|] eqn:Hq.
  - rewrite (delete_event_store _ _ _ Hq). simpl snd.
    assert (Hq' : query_event event_id (update_event_row event_id (set_is_active false) db)
                  = Some (set_is_active false event)).
    { unfold query_event. simpl. rewrite find_update_row by reflexivity.
      unfold query_event in Hq. rewrite Hq. simpl.
      destruct (query_event_some _ _ _ Hq) as [_ ->].
      rewrite String.eqb_refl. reflexivity. }
    rewrite (delete_event_store _ _ _ Hq'), update_event_row_idempotent. reflexivity.
  - unfold delete_event. rewrite Hq. simpl. rewrite Hq. reflexivity.
Qed.

Lemma NoDup_map_id_unique (l : list Event.t) (x y : Event.t) :
  NoDup (map Event.id l) -> In x l -> In y l -> Event.id x = Event.id y -> x = y.
Proof.
  induction l as [|a l IH]; simpl; intros Hnd Hx Hy Hid; [contradiction|].
  inversion Hnd as [|? ? Ha Hl]; subst.
  destruct Hx as [<-|Hx], Hy as [<-|Hy].
  - reflexivity.
  - exfalso. apply Ha. rewrite Hid. apply in_map. exact Hy.
  - exfalso. apply Ha. rewrite <- Hid. apply in_map. exact Hx.
  - exact (IH Hl Hx Hy Hid).
Qed.

(** ** Listing and reading events *)

Lemma EventType_eqb_eq (a b : EventType) : EventType_eqb a b = true <-> a = b.
Proof. destruct a, b; simpl; split; intros H; try reflexivity; discriminate. Qed.

Lemma insert_date_desc_sorted (e : Event.t) (l : list Event.t) :
  sorted_date_desc l -> sorted_date_desc (insert_date_desc e l).
Proof.
  induction l as [|a l IH]; simpl; intros Hs.
  - split; [intros y []|exact I].
  - destruct Hs as [Ha Hs].
    destruct (Z.leb_spec (Event.date a) (Event.date e)) as [Hle|Hgt]; simpl.
    + split; [|split; assumption].
      intros y [<-|Hy]; [exact Hle|]. specialize (Ha y Hy). lia.
    + split; [|exact (IH Hs)].
      intros y Hy. apply insert_date_desc_in in Hy as [->|Hy]; [lia|exact (Ha y Hy)].
Qed.

Lemma order_by_date_desc_sorted (l : list Event.t) :
  sorted_date_desc (order_by_date_desc l).
Proof.
  induction l as [|a l IH]; simpl; [exact I|].
  apply insert_date_desc_sorted. exact IH.
Qed.

Lemma insert_date_desc_perm (e : Event.t) (l : list Event.t) :
  Permutation (insert_date_desc e l) (e :: l).
Proof.
  induction l as [|a l IH]; simpl; [reflexivity|].
  destruct (Event.date a <=? Event.date e); [reflexivity|].
  rewrite IH. apply perm_swap.
Qed.

Lemma order_by_date_desc_perm (l : list Event.t) :
  Permutation (order_by_date_desc l) l.
Proof.
  induction l as [|a l IH]; simpl; [reflexivity|].
  rewrite insert_date_desc_perm, IH. reflexivity.
Qed.

(** X5: [get_events] returns the events that pass the filters supplied,
    latest date first: an event is listed if and only if it is stored, has
    the requested type when a type is requested, and has the requested
    activity when one is requested; with no filter the listing is a
    rearrangement of the whole table. *)
Theorem get_events_sorted_and_exact
    (type : option EventType) (is_active : option bool) (db : Database) :
  sorted_date_desc (get_events type is_active db)
  /\ (forall e,
        In e (get_events type is_active db)
        <-> In e (events db)
            /\ (forall t, type = Some t -> Event.type e = t)
            /\ (forall b, is_active = Some b -> Event.is_active e = b))
  /\ Permutation (get_events None None db) (events db).
Proof.
  split; [apply order_by_date_desc_sorted|]. split.
  - intros e. unfold get_events. rewrite order_by_date_desc_in.
    destruct type as [t|], is_active as [b|]; rewrite ?filter_In.
    + rewrite EventType_eqb_eq, Bool.eqb_true_iff. split.
      * intros [[H1 H2] H3]. split; [exact H1|]. split; intros ? [= <-]; assumption.
      * intros (H1 & H2 & H3). auto.
    + rewrite EventType_eqb_eq. split.
      * intros [H1 H2]. split; [exact H1|]. split; [intros ? [= <-]; assumption|].
        intros ? [=].
      * intros (H1 & H2 & H3). auto.
    + rewrite Bool.eqb_true_iff. split.
      * intros [H1 H2]. split; [exact H1|]. split; [intros ? [=]|].
        intros ? [= <-]; assumption.
      * intros (H1 & H2 & H3). auto.
    + split.
      * intros H1. split; [exact H1|]. split; intros ? [=].
      * intros (H1 & _). exact H1.
  - unfold get_events. apply order_by_date_desc_perm.
Qed.

Lemma find_id_snoc (l : list Event.t) (e : Event.t) (k : UUID) :
  find (fun x => String.eqb (Event.id x) k) (l ++ [e])
  = match find (fun x => String.eqb (Event.id x) k) l with
    | Some x => Some x
    | None => if String.eqb (Event.id e) k then Some e else None
    end.
Proof.
  induction l as [|a l IH]; simpl; [reflexivity|].
  destruct (String.eqb (Event.id a) k); [reflexivity|exact IH].
Qed.

Lemma find_id_fresh (l : list Event.t) (k : UUID) :
  (forall e, In e l -> Event.id e <> k) ->
  find (fun x => String.eqb (Event.id x) k) l = None.
Proof.
  intros H. destruct (find _ l) as [x|] eqn:F; [|reflexivity].
  apply find_some in F as [Hin Hid]. apply String.eqb_eq in Hid.
  exfalso. exact (H x Hin Hid).
Qed.

(** X6: an event created with an unused identifier and a date that is not
    in the past can be read back: [get_event] on the new identifier returns
    the event that [create_event] returned, which is active and carries the
    sanitized title; it is in the listing of active events; and what
    [get_event] returns for any other identifier is unchanged. *)
Theorem create_event_then_get_event
    clean (uuid4 : UUID) (today : date) (event_data : EventCreate.t) (db : Database) :
  today <= EventCreate.date event_data ->
  (forall e, In e (events db) -> Event.id e <> uuid4) ->
  exists event db',
    create_event clean uuid4 today event_data db = (Returned 201 event, db')
    /\ get_event uuid4 db' = Returned 200 event
    /\ Event.is_active event = true
    /\ Event.title event = sanitize_string clean (EventCreate.title event_data) (Some 200)
    /\ In event (get_events None (Some true) db')
    /\ (forall k, k <> uuid4 -> get_event k db' = get_event k db).
Proof.
  intros Hge Hfresh. unfold create_event.
  destruct (Z.ltb_spec (EventCreate.date event_data) today); [lia|].
  unfold insert_event. simpl Event.id.
  rewrite (existsb_false_forall _ (events db)).
  2:{ intros e He. apply String.eqb_neq. exact (Hfresh e He). }
  eexists _, _. split; [reflexivity|].
  split; [|split; [reflexivity|split; [reflexivity|split]]].
  - unfold get_event, query_event. simpl. rewrite find_id_snoc, find_id_fresh by exact Hfresh.
    simpl. rewrite String.eqb_refl. reflexivity.
  - unfold get_events. apply order_by_date_desc_in. apply filter_In. simpl. split.
    + apply in_or_app. right. left. reflexivity.
    + reflexivity.
  - intros k Hk. unfold get_event, query_event. simpl. rewrite find_id_snoc. simpl.
    destruct (find _ (events db)); [reflexivity|].
    destruct (String.eqb_spec uuid4 k) as [->|]; [contradiction|reflexivity].
Qed.

Lemma create_event_then_get_event_witness :
  exists event db',
    create_event plain_clean "e2" 739000 sample_event_create sample_db
    = (Returned 201 event, db')
    /\ get_event "e2" db' = Returned 200 event
    /\ Event.is_active event = true
    /\ Event.title event = "Reverse engineering 101"
    /\ In event (get_events None (Some true) db')
    /\ (forall k, k <> "e2" -> get_event k db' = get_event k sample_db).
Proof.
  apply (create_event_then_get_event plain_clean "e2" 739000 sample_event_create sample_db).
  - discriminate.
  - simpl. intros e [<-|[]]. discriminate.
Defined.

Lemma find_update_row_other (pk k : UUID) (f : Event.t -> Event.t) (l : list Event.t) :
  (forall e, Event.id (f e) = Event.id e) -> k <> pk ->
  find (fun e => String.eqb (Event.id e) k)
    (map (fun e => if String.eqb (Event.id e) pk then f e else e) l)
  = find (fun e => String.eqb (Event.id e) k) l.
Proof.
  intros Hf Hk. rewrite find_update_row by exact Hf.
  destruct (find _ l) as [x|] eqn:F; [|reflexivity]. simpl.
  apply find_some in F as [_ Hid]. apply String.eqb_eq in Hid.
  destruct (String.eqb_spec (Event.id x) pk); [congruence|reflexivity].
Qed.

(** X7: a successful [update_event] changes one event only: the event it
    returns has the identifier addressed and keeps every field for which the
    request carries no value; what [get_event] returns for any other
    identifier is unchanged; the number of events and the registrations are
    unchanged. *)
Theorem update_event_changes_one_event
    clean (today : date) (event_id : UUID) (update : EventUpdate.t)
    (db db' : Database) (event' : Event.t) :
  update_event clean today event_id update db = (Returned 200 event', db') ->
  exists event,
    query_event event_id db = Some event
    /\ Event.id event' = event_id
    /\ (EventUpdate.title update = None -> Event.title event' = Event.title event)
    /\ (EventUpdate.type update = None -> Event.type event' = Event.type event)
    /\ (EventUpdate.date update = None -> Event.date event' = Event.date event)
    /\ (EventUpdate.description update = None ->
          Event.description event' = Event.description event)
    /\ (EventUpdate.is_active update = None ->
          Event.is_active event' = Event.is_active event)
    /\ (forall k, k <> event_id -> get_event k db' = get_event k db)
    /\ length (events db') = length (events db)
    /\ registrations db' = registrations db.
Proof.
  unfold update_event. intros H.
  destruct (query_event event_id db) as [event|] eqn:Hq; [|discriminate].
  destruct (query_event_some _ _ _ Hq) as [Hin Hid].
  exists event. split; [reflexivity|].
  assert (Hfid : forall d e,
             Event.id (update_after_date clean update
                         (match d with Some v => set_date v | None => fun x => x end
                            (update_before_date clean update e))) = Event.id e).
  { intros d e. rewrite update_after_date_id.
    destruct d; simpl; apply update_before_date_id. }
  assert (Hres : exists d,
             (d = None <-> EventUpdate.date update = None)
             /\ event' = update_after_date clean update
                           (match d with Some v => set_date v | None => fun x => x end
                              (update_before_date clean update event))
             /\ db' = update_event_row event_id
                        (fun e => update_after_date clean update
                                    (match d with Some v => set_date v | None => fun x => x end
                                       (update_before_date clean update e))) db).
  { destruct (EventUpdate.date update) as [d|].
    - destruct (d <? today); [discriminate|]. injection H as <- <-.
      exists (Some d). rewrite Hid. split; [|split; reflexivity].
      split; discriminate.
    - injection H as <- <-. exists None. rewrite Hid. split; [|split; reflexivity].
      split; reflexivity. }
  destruct Hres as (d & Hd & -> & ->).
  split; [rewrite Hfid; exact Hid|].
  unfold update_after_date, update_before_date.
  split; [intros ->; destruct d, (EventUpdate.type update),
            (EventUpdate.description update), (EventUpdate.is_active update); reflexivity|].
  split; [intros ->; destruct d, (EventUpdate.title update),
            (EventUpdate.description update), (EventUpdate.is_active update); reflexivity|].
  split; [intros Hn; apply Hd in Hn; subst d;
          destruct (EventUpdate.title update), (EventUpdate.type update),
            (EventUpdate.description update), (EventUpdate.is_active update); reflexivity|].
  split; [intros ->; destruct d, (EventUpdate.title update),
            (EventUpdate.type update), (EventUpdate.is_active update); reflexivity|].
  split; [intros ->; destruct d, (EventUpdate.title update),
            (EventUpdate.type update), (EventUpdate.description update); reflexivity|].
  split; [|split; [simpl; apply length_map|reflexivity]].
  intros k Hk. unfold get_event, query_event. simpl.
  rewrite find_update_row_other; [reflexivity| |exact Hk].
  intros e. apply (Hfid d e).
Qed.

Lemma update_event_changes_one_event_witness :
  exists event,
    query_event "e1" sample_registered_db = Some event
    /\ Event.id (set_is_active false sample_event) = "e1"
    /\ (None = @None string -> Event.title (set_is_active false sample_event)
                               = Event.title event)
    /\ (None = @None EventType -> Event.type (set_is_active false sample_event)
                                  = Event.type event)
    /\ (None = @None Z -> Event.date (set_is_active false sample_event)
                          = Event.date event)
    /\ (None = @None string -> Event.description (set_is_active false sample_event)
                               = Event.description event)
    /\ (Some false = None -> Event.is_active (set_is_active false sample_event)
                             = Event.is_active event)
    /\ (forall k, k <> "e1" ->
          get_event k (update_event_row "e1" (set_is_active false) sample_registered_db)
          = get_event k sample_registered_db)
    /\ length (events (update_event_row "e1" (set_is_active false) sample_registered_db))
       = length (events sample_registered_db)
    /\ registrations (update_event_row "e1" (set_is_active false) sample_registered_db)
       = registrations sample_registered_db.
Proof.
  apply (update_event_changes_one_event plain_clean 739000 "e1"
           {| EventUpdate.title := None; EventUpdate.type := None;
              EventUpdate.date := None; EventUpdate.description := None;
              EventUpdate.is_active := Some false |}
           sample_registered_db
           (update_event_row "e1" (set_is_active false) sample_registered_db)
           (set_is_active false sample_event)).
  reflexivity.
Defined.

(** ** Sanitizer *)

Lemma take_length_min (n : nat) (s : string) :
  String.length (Py.take n s) = Nat.min n (String.length s).
Proof.
  revert s; induction n as [|n IH]; intros [|c s]; simpl; try reflexivity.
  rewrite IH. reflexivity.
Qed.

Lemma take_prefix (n : nat) (s : string) : String.prefix (Py.take n s) s = true.
Proof.
  revert s; induction n as [|n IH]; intros [|c s]; simpl; try reflexivity.
  rewrite IH. destruct (ascii_dec c c); [reflexivity|contradiction].
Qed.

Lemma prefix_refl (s : string) : String.prefix s s = true.
Proof.
  induction s as [|c s IH]; simpl; [reflexivity|].
  destruct (ascii_dec c c); [exact IH|contradiction].
Qed.

(** X8: the length of what [sanitize_string] returns, for every bound.
    With [c] the cleaned and stripped text: a positive [max_length] clamps
    the result to the first [max_length] characters of [c]; [max_length = 0]
    does not clamp at all and returns [c]; a negative [max_length] cuts
    [-max_length] characters off the end of [c].  In every case the result
    is a prefix of [c]. *)
Theorem sanitize_string_length clean (x : string) (n : Z) :
  let c := Py.strip (clean [] x) in
  Py.len (sanitize_string clean x (Some n))
  = (if n =? 0 then Py.len c
     else if 0 <? n then Z.min n (Py.len c)
     else Z.max 0 (Py.len c + n))
  /\ (n = 0 -> sanitize_string clean x (Some n) = c)
  /\ String.prefix (sanitize_string clean x (Some n)) c = true.
Proof.
  intros c. unfold sanitize_string. fold c. simpl Py.truthy_int.
  destruct (Z.eqb_spec n 0) as [->|Hn]; simpl negb; simpl andb.
  - split; [reflexivity|]. split; [reflexivity|apply prefix_refl].
  - split; [|split; [intros; contradiction|]].
    + destruct (Z.gtb_spec (Py.len c) n) as [Hgt|Hle].
      * unfold Py.slice_to. destruct (Z.ltb_spec n 0) as [Hneg|Hpos].
        -- destruct (Z.ltb_spec 0 n); [lia|].
           unfold Py.len in *. rewrite take_length_min. lia.
        -- destruct (Z.ltb_spec 0 n); [|lia].
           unfold Py.len in *. rewrite take_length_min. lia.
      * destruct (Z.ltb_spec 0 n); [lia|]. unfold Py.len in *. lia.
    + destruct (Py.len c >? n); [|apply prefix_refl].
      unfold Py.slice_to. destruct (n <? 0); apply take_prefix.
Qed.

Lemma rstrip_rstrip (s : string) : Py.rstrip (Py.rstrip s) = Py.rstrip s.
Proof.
  induction s as [|c s IH]; simpl; [reflexivity|].
  destruct (Py.rstrip s) as [|d r] eqn:E.
  - destruct (Py.is_space c) eqn:Ec; simpl; [reflexivity|]. rewrite Ec. reflexivity.
  - simpl. simpl in IH. rewrite IH. reflexivity.
Qed.

(** A text that is empty or begins with a character that is not blank. *)
Lemma lstrip_fixed_iff (s : string) :
  Py.lstrip s = s
  <-> match s with EmptyString => True | String c _ => Py.is_space c = false end.
Proof.
  destruct s as [|c s]; simpl; [tauto|].
  destruct (Py.is_space c) eqn:E; split; intros H; try reflexivity; try discriminate.
  exfalso.
  assert (L : forall t, (String.length (Py.lstrip t) <= String.length t)%nat).
  { induction t as [|d t IHt]; simpl; [lia|]. destruct (Py.is_space d); simpl; lia. }
  specialize (L s). rewrite H in L. simpl in L. lia.
Qed.

Lemma lstrip_lstrip (s : string) : Py.lstrip (Py.lstrip s) = Py.lstrip s.
Proof.
  induction s as [|c s IH]; simpl; [reflexivity|].
  destruct (Py.is_space c) eqn:E; [exact IH|]. simpl. rewrite E. reflexivity.
Qed.

Lemma lstrip_rstrip_fixed (s : string) :
  Py.lstrip s = s -> Py.lstrip (Py.rstrip s) = Py.rstrip s.
Proof.
  intros H. apply lstrip_fixed_iff in H. apply lstrip_fixed_iff.
  destruct s as [|c s]; simpl; [exact I|].
  destruct (Py.rstrip s); [rewrite H|]; simpl; auto.
Qed.

Lemma lstrip_take_fixed (n : nat) (s : string) :
  Py.lstrip s = s -> Py.lstrip (Py.take n s) = Py.take n s.
Proof.
  intros H. apply lstrip_fixed_iff in H. apply lstrip_fixed_iff.
  destruct n, s; simpl; auto.
Qed.

Lemma strip_strip (s : string) : Py.strip (Py.strip s) = Py.strip s.
Proof.
  unfold Py.strip.
  rewrite (lstrip_rstrip_fixed (Py.lstrip s)) by apply lstrip_lstrip.
  apply rstrip_rstrip.
Qed.

(** X9: what the sanitizers return is trimmed.  [sanitize_text] and
    [sanitize_string] without truncation (no bound, or a non-negative bound
    the cleaned text fits in) return a text that [strip] leaves unchanged;
    and whatever the bound, also when it truncates, [sanitize_string] returns
    a text without leading whitespace. *)
Theorem sanitized_text_is_trimmed clean (x : string) (max_length : option Z) :
  Py.strip (sanitize_text clean x) = sanitize_text clean x
  /\ Py.strip (sanitize_string clean x None) = sanitize_string clean x None
  /\ (forall n, 0 <= n -> Py.len (Py.strip (clean [] x)) <= n ->
        Py.strip (sanitize_string clean x (Some n)) = sanitize_string clean x (Some n))
  /\ Py.lstrip (sanitize_string clean x max_length) = sanitize_string clean x max_length.
Proof.
  split; [apply strip_strip|]. split; [apply strip_strip|]. split.
  - intros n Hn Hfit. unfold sanitize_string.
    destruct (Z.gtb_spec (Py.len (Py.strip (clean [] x))) n); [lia|].
    rewrite andb_false_r. apply strip_strip.
  - assert (Hl : Py.lstrip (Py.strip (clean [] x)) = Py.strip (clean [] x)).
    { unfold Py.strip. apply lstrip_rstrip_fixed, lstrip_lstrip. }
    unfold sanitize_string. destruct max_length as [n|]; [|exact Hl].
    destruct (_ && _); [|exact Hl].
    unfold Py.slice_to. destruct (n <? 0); apply lstrip_take_fixed, Hl.
Qed.

(** ** Signature check *)

(** X10: [validate_pdf_magic_bytes] accepts a content if and only if its
    first four bytes are [%PDF] and the optional content sniffing, when it is
    available, reports [application/pdf]: the signature check fails closed
    (a content of fewer than four bytes is refused), the optional check fails
    open. *)
Theorem validate_pdf_magic_bytes_iff
    (magic_from_buffer : bytes -> option string) (file_content : bytes) :
  (validate_pdf_magic_bytes magic_from_buffer file_content = true
   <-> firstn 4 file_content = pdf_signature
       /\ (magic_from_buffer file_content = None
           \/ magic_from_buffer file_content = Some "application/pdf"))
  /\ ((length file_content < 4)%nat ->
        validate_pdf_magic_bytes magic_from_buffer file_content = false).
Proof.
  unfold validate_pdf_magic_bytes. split.
  - destruct (Nat.ltb_spec (length file_content) 4) as [Hlt|Hge].
    + split; [discriminate|]. intros [Hsig _]. exfalso.
      assert (L : length (firstn 4 file_content) = 4%nat) by (rewrite Hsig; reflexivity).
      rewrite length_firstn in L. lia.
    + destruct (bytes_eqb (firstn 4 file_content) pdf_signature) eqn:E; simpl.
      * apply bytes_eqb_eq in E.
        destruct (magic_from_buffer file_content) as [t|].
        -- rewrite String.eqb_eq. split.
           ++ intros ->. auto.
           ++ intros [_ [H|H]]; [discriminate|]. injection H as ->. reflexivity.
        -- split; auto.
      * split; [discriminate|]. intros [Hsig _].
        apply bytes_eqb_eq in Hsig. congruence.
  - intros Hlt. destruct (Nat.ltb_spec (length file_content) 4); [reflexivity|lia].
Qed.

(** ** Resources *)





Lemma find_resource_filter_other (pk k : UUID) (l : list Resource.t) :
  k <> pk ->
  find (fun x => String.eqb (Resource.id x) k)
    (List.filter (fun r' => negb (String.eqb (Resource.id r') pk)) l)
  = find (fun x => String.eqb (Resource.id x) k) l.
Proof.
  intros Hk. induction l as [|a l IH]; simpl; [reflexivity|].
  destruct (String.eqb_spec (Resource.id a) pk) as [Ea|Ea]; simpl.
  - destruct (String.eqb_spec (Resource.id a) k); [congruence|exact IH].
  - destruct (String.eqb (Resource.id a) k); [reflexivity|exact IH].
Qed.

(** X12: [delete_resource] on an existing resource removes the row and the
    file: afterwards [get_resource] and [download_resource] on its
    identifier raise [NotFoundError] (HTTP 404), nothing is stored under its
    [file_url] if that was a regular file, and every other resource is read
    as before. *)
Theorem delete_resource_removes_row_and_file
    (resource_id : UUID) (w : World) (resource : Resource.t) :
  query_resource resource_id (store w) = Some resource ->
  exists w',
    delete_resource resource_id w = (Returned 204 tt, w')
    /\ get_resource resource_id (store w')
       = Raised (NotFoundError "Resource" (Some resource_id))
    /\ download_resource resource_id w'
       = Raised (NotFoundError "Resource" (Some resource_id))
    /\ (path_is_file (Resource.file_url resource) w = true ->
          fs w' !! Resource.file_url resource = None)
    /\ (forall k, k <> resource_id ->
          get_resource k (store w') = get_resource k (store w)).
Proof.
  intros Hq. destruct (query_resource_some _ _ _ Hq) as [Hin Hid].
  unfold delete_resource. rewrite Hq, old_file_removed.
  eexists. split; [reflexivity|].
  assert (Hgone : forall w0,
             query_resource resource_id
               (store (commit (delete_resource_row (Resource.id resource) (store w)) w0))
             = None).
  { intros w0. simpl. rewrite Hid. apply delete_resource_row_gone. }
  assert (Hst : store (if path_is_file (Resource.file_url resource) w
                       then unlink (Resource.file_url resource) w else w) = store w).
  { destruct (path_is_file _ w); reflexivity. }
  rewrite Hst.
  split; [unfold get_resource; rewrite Hgone; reflexivity|].
  split; [unfold download_resource; rewrite Hgone; reflexivity|].
  split.
  - intros Hfile. rewrite Hfile. simpl. apply lookup_delete_eq.
  - intros k Hk. unfold get_resource, query_resource. simpl. rewrite Hid.
    rewrite find_resource_filter_other by exact Hk. reflexivity.
Qed.

Lemma delete_resource_removes_row_and_file_witness :
  exists w',
    delete_resource "r1" sample_world = (Returned 204 tt, w')
    /\ get_resource "r1" (store w') = Raised (NotFoundError "Resource" (Some "r1"))
    /\ download_resource "r1" w' = Raised (NotFoundError "Resource" (Some "r1"))
    /\ (path_is_file "uploads/old.pdf" sample_world = true ->
          fs w' !! "uploads/old.pdf" = None)
    /\ (forall k, k <> "r1" ->
          get_resource k (store w') = get_resource k (store sample_world)).
Proof.
  apply (delete_resource_removes_row_and_file "r1" sample_world sample_resource).
  reflexivity.
Defined.

Lemma find_replaced_row (pk : UUID) (r : Resource.t) (l : list Resource.t) :
  Resource.id r = pk ->
  find (fun x => String.eqb (Resource.id x) pk)
    (map (fun r' => if String.eqb (Resource.id r') pk then r else r') l)
  = match find (fun x => String.eqb (Resource.id x) pk) l with
    | Some _ => Some r
    | None => None
    end.
Proof.
  intros Hr. induction l as [|a l IH]; simpl; [reflexivity|].
  destruct (String.eqb (Resource.id a) pk) eqn:E.
  - rewrite Hr, String.eqb_refl. reflexivity.
  - rewrite E. exact IH.
Qed.

(** X13: [update_resource] without a replacement file changes the row
    only: it succeeds for every existing resource, the effect is a single
    commit, the file system is untouched, and the row keeps its [file_url]
    and [file_size]; a title, when given, is stored sanitized. *)
Theorem update_resource_without_file
    clean magic (settings : Settings) (file_uuid resource_id : UUID)
    (title : option string) (level : option ResourceLevel)
    (w : World) (resource : Resource.t) :
  query_resource resource_id (store w) = Some resource ->
  exists r w',
    update_resource clean magic settings file_uuid resource_id title level None w
    = (Returned 200 r, w')
    /\ log w' = (log w ++ [Commit])%list
    /\ fs w' = fs w
    /\ Resource.id r = resource_id
    /\ Resource.file_url r = Resource.file_url resource
    /\ Resource.file_size r = Resource.file_size resource
    /\ (forall t, title = Some t ->
          Resource.title r = sanitize_string clean t (Some 200))
    /\ (title = None -> Resource.title r = Resource.title resource)
    /\ get_resource resource_id (store w') = Returned 200 r.
Proof.
  intros Hq. destruct (query_resource_some _ _ _ Hq) as [Hin Hid].
  unfold update_resource. rewrite Hq.
  unfold commit_resource, update_resource_row. simpl andb. cbv iota.
  eexists _, _. split; [reflexivity|].
  split; [reflexivity|]. split; [reflexivity|].
  destruct (update_title_level_file_url clean title level resource) as [Eurl Eid].
  split; [rewrite Eid; exact Hid|]. split; [exact Eurl|].
  split; [unfold update_title_level; destruct title, level; reflexivity|].
  split; [intros t ->; unfold update_title_level; destruct level; reflexivity|].
  split; [intros ->; unfold update_title_level; destruct level; reflexivity|].
  unfold get_resource, query_resource. simpl store. simpl resources.
  rewrite Eid, Hid, find_replaced_row by (rewrite Eid; exact Hid).
  unfold query_resource in Hq. rewrite Hq. reflexivity.
Qed.

Lemma update_resource_without_file_witness :
  exists r w',
    update_resource plain_clean no_magic default_settings "new" "r1"
      (Some "  Intro, revised ") None None sample_world
    = (Returned 200 r, w')
    /\ log w' = (log sample_world ++ [Commit])%list
    /\ fs w' = fs sample_world
    /\ Resource.id r = "r1"
    /\ Resource.file_url r = "uploads/old.pdf"
    /\ Resource.file_size r = Some 8
    /\ (forall t, Some "  Intro, revised " = Some t ->
          Resource.title r = sanitize_string plain_clean t (Some 200))
    /\ (Some "  Intro, revised " = None -> Resource.title r = "Intro")
    /\ get_resource "r1" (store w') = Returned 200 r.
Proof.
  apply (update_resource_without_file plain_clean no_magic default_settings "new" "r1"
           (Some "  Intro, revised ") None sample_world sample_resource).
  reflexivity.
Defined.

Lemma NoDup_map_unique {A B} (f : A -> B) (l : list A) (x y : A) :
  NoDup (map f l) -> In x l -> In y l -> f x = f y -> x = y.
Proof.
  induction l as [|a l IH]; simpl; intros Hnd Hx Hy Hf; [contradiction|].
  inversion Hnd as [|? ? Ha Hl]; subst.
  destruct Hx as [<-|Hx], Hy as [<-|Hy].
  - reflexivity.
  - exfalso. apply Ha. rewrite Hf. apply in_map. exact Hy.
  - exfalso. apply Ha. rewrite <- Hf. apply in_map. exact Hx.
  - exact (IH Hl Hx Hy Hf).
Qed.

Lemma NoDup_map_filter {A B} (f : A -> B) (p : A -> bool) (l : list A) :
  NoDup (map f l) -> NoDup (map f (List.filter p l)).
Proof.
  induction l as [|a l IH]; simpl; intros Hnd; [constructor|].
  inversion Hnd as [|? ? Ha Hl]; subst.
  destruct (p a); simpl; [|exact (IH Hl)].
  constructor; [|exact (IH Hl)].
  intros Hin. apply Ha. apply in_map_iff in Hin as (x & Hx & Hin).
  apply filter_In in Hin as [Hin _]. apply in_map_iff. exists x. auto.
Qed.

(** Replacing the row of a primary key by a row of the same key whose
    [file_url] no other row has. *)
Lemma NoDup_replaced_row (pk : UUID) (r : Resource.t) (l : list Resource.t) :
  Resource.id r = pk ->
  NoDup (map Resource.id l) ->
  NoDup (map Resource.file_url l) ->
  (forall r', In r' l -> Resource.id r' <> pk ->
              Resource.file_url r' <> Resource.file_url r) ->
  let g := fun r' : Resource.t => if String.eqb (Resource.id r') pk then r else r' in
  NoDup (map Resource.id (map g l)) /\ NoDup (map Resource.file_url (map g l)).
Proof.
  intros Hr Hid Hurl Hother g. split.
  - replace (map Resource.id (map g l)) with (map Resource.id l); [exact Hid|].
    rewrite map_map. apply map_ext. intros a. unfold g.
    destruct (String.eqb_spec (Resource.id a) pk); congruence.
  - induction l as [|a l IH]; simpl; [constructor|].
    inversion Hid as [|? ? Ha Hid']; subst.
    inversion Hurl as [|? ? Hb Hurl']; subst.
    constructor.
    + intros Hin. apply in_map_iff in Hin as (y & Hy & Hin).
      apply in_map_iff in Hin as (x & <- & Hx).
      unfold g in Hy.
      destruct (String.eqb_spec (Resource.id a) (Resource.id r)) as [Ea|Ea],
               (String.eqb_spec (Resource.id x) (Resource.id r)) as [Ex|Ex].
      * apply Ha. rewrite Ea, <- Ex. apply in_map. exact Hx.
      * apply (Hother x); [right; exact Hx|exact Ex|exact Hy].
      * apply (Hother a); [left; reflexivity|exact Ea|]. symmetry. exact Hy.
      * apply Hb. rewrite <- Hy. apply in_map. exact Hx.
    + apply IH; try assumption. intros r' Hr'. apply Hother. right. exact Hr'.
Qed.

Lemma commit_resource_integrity (b : bool) (r old : Resource.t) (w : World) :
  resources_integrity (store w) ->
  In old (resources (store w)) ->
  Resource.id r = Resource.id old ->
  (b = false -> Resource.file_url r = Resource.file_url old) ->
  resources_integrity (store (snd (commit_resource b r w))).
Proof.
  intros [Hid Hurl] Hin Er Eb. unfold commit_resource, update_resource_row.
  destruct (b && existsb _ (resources (store w))) eqn:E; [split; assumption|].
  simpl. unfold resources_integrity. simpl.
  apply NoDup_replaced_row; try assumption; [reflexivity|].
  intros r' Hr' Hne. destruct b.
  - simpl in E. intros Heq.
    assert (T : existsb (fun r'0 => negb (String.eqb (Resource.id r'0) (Resource.id r))
                                    && String.eqb (Resource.file_url r'0) (Resource.file_url r))
                  (resources (store w)) = true).
    { apply existsb_exists. exists r'. split; [exact Hr'|].
      rewrite Heq, String.eqb_refl, andb_true_r. apply negb_true_iff.
      apply String.eqb_neq. exact Hne. }
    congruence.
  - rewrite (Eb eq_refl). intros Heq. apply Hne. rewrite Er.
    f_equal. exact (NoDup_map_unique Resource.file_url _ _ _ Hurl Hr' Hin Heq).
Qed.

Lemma insert_resource_integrity (r : Resource.t) (db db' : Database) :
  insert_resource r db = Some db' -> resources_integrity db -> resources_integrity db'.
Proof.
  unfold insert_resource. intros H [Hid Hurl].
  destruct (existsb _ (resources db)) eqn:E1; [discriminate|].
  destruct (existsb _ (resources db)) eqn:E2 in H; [discriminate|].
  simpl in H. injection H as <-. unfold resources_integrity. simpl.
  rewrite !map_app. simpl. split; apply NoDup_snoc; try assumption.
  - exact (existsb_id_false Resource.id _ _ E1).
  - exact (existsb_id_false Resource.file_url _ _ E2).
Qed.

Lemma save_pdf_file_store magic (settings : Settings) (uuid4 : UUID)
    (f : UploadFile) (w : World) :
  store (snd (save_pdf_file magic settings uuid4 f w)) = store w.
Proof.
  unfold save_pdf_file.
  destruct (_ >? _); [reflexivity|].
  destruct (negb _); [reflexivity|]. simpl.
  apply (proj2 (log_mkdir_exist_ok _ _)).
Qed.

Lemma old_file_removed_store (path : string) (w : World) :
  store (if path_exists path w then snd (delete_file path w) else w) = store w.
Proof.
  rewrite old_file_removed. destruct (path_is_file path w); reflexivity.
Qed.

(** X14: the handlers that write resources keep the declared constraints:
    from a store whose resource identifiers and [file_url]s are without
    duplicates, [create_resource], [update_resource] (with or without a
    replacement file) and [delete_resource] lead, whatever their arguments
    and outcome, to such a store. *)
Theorem resources_integrity_preserved
    clean magic (settings : Settings) (file_uuid row_uuid resource_id : UUID)
    (new_title : string) (new_level : ResourceLevel)
    (title : option string) (level : option ResourceLevel)
    (f : UploadFile) (replacement : option UploadFile) (w : World) :
  resources_integrity (store w) ->
  resources_integrity
    (store (snd (create_resource clean magic settings file_uuid row_uuid
                   new_title new_level f w)))
  /\ resources_integrity
       (store (snd (update_resource clean magic settings file_uuid resource_id
                      title level replacement w)))
  /\ resources_integrity (store (snd (delete_resource resource_id w))).
Proof.
  intros Hok. split; [|split].
  - unfold create_resource. destruct (validate_pdf_file f) as [is_valid msg].
    destruct (negb is_valid); [exact Hok|].
    pose proof (save_pdf_file_store magic settings file_uuid f w) as Hst.
    destruct (save_pdf_file magic settings file_uuid f w) as [[[url size]|e] w1];
      simpl in Hst; [|simpl; rewrite Hst; exact Hok].
    destruct (insert_resource _ (store w1)) as [db'|] eqn:E;
      simpl; [|rewrite Hst; exact Hok].
    apply (insert_resource_integrity _ _ _ E). rewrite Hst. exact Hok.
  - unfold update_resource.
    destruct (query_resource resource_id (store w)) as [old|] eqn:Hq; [|exact Hok].
    destruct (query_resource_some _ _ _ Hq) as [Hin Hid].
    destruct (update_title_level_file_url clean title level old) as [Eurl Eid].
    destruct replacement as [g|].
    + destruct (validate_pdf_file g) as [is_valid msg].
      destruct (negb is_valid); [exact Hok|].
      set (w1 := if path_exists _ w then _ else w).
      assert (Hst1 : store w1 = store w) by apply old_file_removed_store.
      pose proof (save_pdf_file_store magic settings file_uuid g w1) as Hst.
      destruct (save_pdf_file magic settings file_uuid g w1) as [[[url size]|e] w2];
        simpl in Hst; [|simpl; rewrite Hst, Hst1; exact Hok].
      apply (commit_resource_integrity true _ old).
      * rewrite Hst, Hst1. exact Hok.
      * rewrite Hst, Hst1. exact Hin.
      * simpl. exact Eid.
      * discriminate.
    + apply (commit_resource_integrity false _ old); auto.
  - unfold delete_resource.
    destruct (query_resource resource_id (store w)) as [old|]; [|exact Hok].
    simpl. rewrite old_file_removed_store. destruct Hok as [Hid Hurl].
    split; simpl; apply NoDup_map_filter; assumption.
Qed.

Lemma resources_integrity_preserved_witness :
  resources_integrity
    (store (snd (create_resource plain_clean no_magic default_settings "f1" "r2"
                   "Intro" BEGINNER sample_pdf sample_world)))
  /\ resources_integrity
       (store (snd (update_resource plain_clean no_magic default_settings "f1" "r1"
                      None (Some ADVANCED) (Some sample_pdf) sample_world)))
  /\ resources_integrity (store (snd (delete_resource "r1" sample_world))).
Proof.
  apply (resources_integrity_preserved plain_clean no_magic default_settings "f1" "r2"
           "r1" "Intro" BEGINNER None (Some ADVANCED) sample_pdf (Some sample_pdf)
           sample_world).
  split; simpl; repeat constructor; intros [].
Defined.

(** ** Hackathon teams: all or nothing *)

Lemma add_members_exact clean (uuid4 : nat -> UUID) (team_id : UUID)
    (l : list TeamMemberBase.t) :
  forall (i : nat) (db db' : Database),
    add_members clean uuid4 i team_id l db = Some db' ->
    team_members db' = (team_members db ++ member_rows clean uuid4 i team_id l)%list
    /\ events db' = events db /\ registrations db' = registrations db
    /\ resources db' = resources db /\ hackathon_teams db' = hackathon_teams db.
Proof.
  induction l as [|m l IH]; simpl; intros i db db' H.
  - injection H as <-. rewrite app_nil_r. auto.
  - destruct (insert_member (new_member clean (uuid4 i) team_id m) db) as [db1|] eqn:E;
      [|discriminate].
    destruct (IH _ _ _ H) as (H1 & H2 & H3 & H4 & H5).
    unfold insert_member in E.
    destruct (_ || _); [discriminate|]. injection E as <-. simpl in *.
    rewrite H1, <- app_assoc. auto.
Qed.

Lemma member_rows_length clean (uuid4 : nat -> UUID) (team_id : UUID)
    (l : list TeamMemberBase.t) (i : nat) :
  length (member_rows clean uuid4 i team_id l) = length l.
Proof.
  revert i; induction l as [|m l IH]; simpl; intros i; [reflexivity|].
  rewrite IH. reflexivity.
Qed.

Lemma create_hackathon_team_outcome clean (uuid4 : nat -> UUID)
    (team_data : HackathonTeamCreate.t) (db : Database) :
  let team :=
    {| HackathonTeam.id := uuid4 0%nat;
       HackathonTeam.event_name := HackathonTeamCreate.event_name team_data;
       HackathonTeam.team_name :=
         sanitize_string clean (HackathonTeamCreate.team_name team_data) (Some 100) |} in
  (exists db',
      create_hackathon_team clean uuid4 team_data db = (Returned 201 team, db')
      /\ hackathon_teams db' = (hackathon_teams db ++ [team])%list
      /\ team_members db'
         = (team_members db
            ++ member_rows clean uuid4 1 (uuid4 0%nat)
                 (HackathonTeamCreate.team_members team_data))%list
      /\ events db' = events db /\ registrations db' = registrations db
      /\ resources db' = resources db)
  \/ (exists msg,
         create_hackathon_team clean uuid4 team_data db
         = (Raised (ConflictError msg), db)).
Proof.
  intros team. unfold create_hackathon_team. fold team.
  destruct (insert_team team db) as [db1|] eqn:E1; [|right; eexists; reflexivity].
  simpl HackathonTeam.id.
  destruct (add_members clean uuid4 1 _ _ db1) as [db2|] eqn:E2;
    [|right; eexists; reflexivity].
  left. exists db2. split; [reflexivity|].
  destruct (add_members_exact _ _ _ _ _ _ _ E2) as (H1 & H2 & H3 & H4 & H5).
  unfold insert_team in E1. destruct (_ || _); [discriminate|].
  injection E1 as <-. simpl in *. auto.
Qed.

(** X15: [create_hackathon_team] is all or nothing.  Either it returns 201
    and the store has gained exactly one team row and one member row per
    member of the request, all other tables unchanged; or it raises an
    exception and the store is exactly as before: no team row without its
    members, no member row of a team that was refused. *)
Theorem create_hackathon_team_all_or_nothing
    clean (uuid4 : nat -> UUID) (team_data : HackathonTeamCreate.t) (db : Database) :
  let outcome := create_hackathon_team clean uuid4 team_data db in
  (exists team,
      fst outcome = Returned 201 team
      /\ hackathon_teams (snd outcome) = (hackathon_teams db ++ [team])%list
      /\ (exists rows,
             team_members (snd outcome) = (team_members db ++ rows)%list
             /\ length rows = length (HackathonTeamCreate.team_members team_data))
      /\ events (snd outcome) = events db
      /\ registrations (snd outcome) = registrations db
      /\ resources (snd outcome) = resources db)
  \/ (exists e, fst outcome = Raised e /\ snd outcome = db).
Proof.
  intros outcome. subst outcome.
  destruct (create_hackathon_team_outcome clean uuid4 team_data db)
    as [(db' & E & H1 & H2 & H3 & H4 & H5)|(msg & E)]; rewrite E; simpl.
  - left. eexists. split; [reflexivity|]. split; [exact H1|].
    split; [|auto]. eexists. split; [exact H2|]. apply member_rows_length.
  - right. eexists. split; reflexivity.
Qed.

Lemma check_mobile_ok (loc v : string) :
  check_mobile loc v = [] -> all_chars is_digit v = true /\ Py.len v = 10.
Proof.
  unfold check_mobile.
  destruct (all_chars is_digit v); simpl; [|discriminate].
  destruct (Z.eqb_spec (Py.len v) 10); simpl; [|discriminate]. auto.
Qed.

Lemma validate_member_fields validate_email (loc : string) (m m' : TeamMemberBase.t) :
  validate_member validate_email loc m = inl m' ->
  TeamMemberBase.is_leader m' = TeamMemberBase.is_leader m
  /\ TeamMemberBase.mobile m' = TeamMemberBase.mobile m
  /\ all_chars is_digit (TeamMemberBase.mobile m) = true
  /\ Py.len (TeamMemberBase.mobile m) = 10
  /\ validate_email (TeamMemberBase.email m) = Some (TeamMemberBase.email m').
Proof.
  unfold validate_member. intros H.
  destruct (_ ++ _)%list eqn:E; [|discriminate].
  destruct (validate_email (TeamMemberBase.email m)) as [email|]; [|discriminate].
  injection H as <-. simpl.
  repeat (apply app_eq_nil in E as [_ E]).
  apply check_mobile_ok in E. tauto.
Qed.

Lemma validate_items_fields validate_email (l : list TeamMemberBase.t) :
  forall (i : nat) (ms : list TeamMemberBase.t),
    validate_items validate_email i l = inl ms ->
    Forall (fun m => all_chars is_digit (TeamMemberBase.mobile m) = true
                     /\ Py.len (TeamMemberBase.mobile m) = 10) ms.
Proof.
  induction l as [|m l IH]; simpl; intros i ms H.
  - injection H as <-. constructor.
  - destruct (validate_member validate_email _ m) as [m'|e] eqn:Em;
      destruct (validate_items validate_email (S i) l) as [ms'|es] eqn:El;
      try discriminate.
    injection H as <-. constructor; [|exact (IH _ _ El)].
    destruct (validate_member_fields _ _ _ _ Em) as (_ & -> & H1 & H2 & _). auto.
Qed.

Lemma validate_HackathonTeamCreate_accepts validate_email
    (body team_data : HackathonTeamCreate.t) :
  validate_HackathonTeamCreate validate_email body = inl team_data ->
  length (HackathonTeamCreate.team_members team_data) = 4%nat
  /\ length (List.filter TeamMemberBase.is_leader
               (HackathonTeamCreate.team_members team_data)) = 1%nat
  /\ Forall (fun m => all_chars is_digit (TeamMemberBase.mobile m) = true
                      /\ Py.len (TeamMemberBase.mobile m) = 10)
       (HackathonTeamCreate.team_members team_data)
  /\ 1 <= Py.len (HackathonTeamCreate.team_name team_data) <= 100
  /\ 1 <= Py.len (HackathonTeamCreate.event_name team_data) <= 200.
Proof.
  unfold validate_HackathonTeamCreate, validate_team_members_field. intros H.
  destruct (validate_items validate_email 0 _) as [ms|es] eqn:E; [|discriminate].
  destruct (length ms <? 4)%nat; [discriminate|].
  destruct (4 <? length ms)%nat; [discriminate|].
  unfold validate_team_members in H.
  destruct (Nat.eqb_spec (length ms) 4) as [E4|]; [|discriminate]. simpl in H.
  destruct (Nat.eqb_spec (length (List.filter TeamMemberBase.is_leader ms)) 1) as [E1|];
    [|discriminate]. simpl in H.
  destruct (check_length "event_name" 1 200 _ ++ check_length "team_name" 1 100 _)%list
    eqn:Ec; [|discriminate].
  injection H as <-. simpl.
  apply app_eq_nil in Ec as [Ee Et].
  split; [exact E4|]. split; [exact E1|].
  split; [exact (validate_items_fields _ _ _ _ E)|].
  unfold check_length in Ee, Et. split.
  - destruct (Z.ltb_spec (Py.len (HackathonTeamCreate.team_name body)) 1); [discriminate|].
    destruct (Z.gtb_spec (Py.len (HackathonTeamCreate.team_name body)) 100);
      [discriminate|lia].
  - destruct (Z.ltb_spec (Py.len (HackathonTeamCreate.event_name body)) 1); [discriminate|].
    destruct (Z.gtb_spec (Py.len (HackathonTeamCreate.event_name body)) 200);
      [discriminate|lia].
Qed.

Lemma member_rows_fields clean (uuid4 : nat -> UUID) (team_id : UUID)
    (l : list TeamMemberBase.t) (i : nat) :
  length (List.filter TeamMember.is_leader (member_rows clean uuid4 i team_id l))
  = length (List.filter TeamMemberBase.is_leader l)
  /\ (Forall (fun m => all_chars is_digit (TeamMemberBase.mobile m) = true
                       /\ Py.len (TeamMemberBase.mobile m) = 10) l ->
      Forall (fun row => TeamMember.team_id row = team_id
                         /\ all_chars is_digit (TeamMember.mobile row) = true
                         /\ Py.len (TeamMember.mobile row) = 10)
        (member_rows clean uuid4 i team_id l)).
Proof.
  revert i; induction l as [|m l IH]; simpl; intros i.
  - split; [reflexivity|constructor].
  - destruct (IH (S i)) as [H1 H2]. split.
    + destruct (TeamMemberBase.is_leader m); simpl; rewrite H1; reflexivity.
    + intros Hall. inversion Hall as [|? ? Hm Hl]; subst.
      constructor; [simpl; tauto|exact (H2 Hl)].
Qed.

(** X16: what the route persists for an accepted team.  When
    [POST /api/hackathon-teams] returns 201, the store has gained exactly
    one team row and exactly four member rows; exactly one of the four is the
    leader; each of them belongs to the new team and has a mobile number of
    exactly ten digits. *)
Theorem accepted_team_is_persisted_with_four_members
    clean validate_email (uuid4 : nat -> UUID) (body : HackathonTeamCreate.t)
    (db db' : Database) (team : HackathonTeam.t) :
  post_hackathon_team clean validate_email uuid4 body db = (Returned 201 team, db') ->
  hackathon_teams db' = (hackathon_teams db ++ [team])%list
  /\ exists rows,
       team_members db' = (team_members db ++ rows)%list
       /\ length rows = 4%nat
       /\ length (List.filter TeamMember.is_leader rows) = 1%nat
       /\ Forall (fun row => TeamMember.team_id row = HackathonTeam.id team
                             /\ all_chars is_digit (TeamMember.mobile row) = true
                             /\ Py.len (TeamMember.mobile row) = 10) rows.
Proof.
  unfold post_hackathon_team. intros H.
  destruct (validate_HackathonTeamCreate validate_email body) as [team_data|es] eqn:V;
    [|discriminate].
  destruct (validate_HackathonTeamCreate_accepts _ _ _ V) as (H4 & H1 & Hm & _).
  destruct (create_hackathon_team_outcome clean uuid4 team_data db)
    as [(db1 & E & Ht & Hr & _)|(msg & E)]; rewrite E in H; [|discriminate].
  injection H as <- <-. split; [exact Ht|].
  eexists. split; [exact Hr|].
  destruct (member_rows_fields clean uuid4 (uuid4 0%nat)
              (HackathonTeamCreate.team_members team_data) 1) as [Hl Hf].
  rewrite member_rows_length, Hl. auto.
Qed.

Lemma accepted_team_is_persisted_with_four_members_witness :
  let db' := snd (post_hackathon_team plain_clean simple_email uuid_seq sample_team
                    empty_db) in
  hackathon_teams db'
  = (hackathon_teams empty_db
     ++ [{| HackathonTeam.id := "id-0"; HackathonTeam.event_name := "Hack the Box";
            HackathonTeam.team_name := "Null Pointers" |}])%list
  /\ exists rows,
       team_members db' = (team_members empty_db ++ rows)%list
       /\ length rows = 4%nat
       /\ length (List.filter TeamMember.is_leader rows) = 1%nat
       /\ Forall (fun row => TeamMember.team_id row = "id-0"
                             /\ all_chars is_digit (TeamMember.mobile row) = true
                             /\ Py.len (TeamMember.mobile row) = 10) rows.
Proof.
  apply (accepted_team_is_persisted_with_four_members plain_clean simple_email uuid_seq
           sample_team empty_db
           (snd (post_hackathon_team plain_clean simple_email uuid_seq sample_team
                   empty_db))
           {| HackathonTeam.id := "id-0"; HackathonTeam.event_name := "Hack the Box";
              HackathonTeam.team_name := "Null Pointers" |}).
  vm_compute. reflexivity.
Defined.

(** X17: team names are unique per event after sanitization.  Once a team
    has been created, a request for the same event whose team name sanitizes
    to the same text (the same name, or the same name with markup or
    surrounding blanks) raises [ConflictError] (HTTP 409, machine code
    [CONFLICT]) and leaves the store unchanged, whatever its members. *)
Theorem duplicate_team_name_conflicts
    clean (uuid4 uuid4' : nat -> UUID) (first second : HackathonTeamCreate.t)
    (db db1 : Database) (team : HackathonTeam.t) :
  create_hackathon_team clean uuid4 first db = (Returned 201 team, db1) ->
  HackathonTeamCreate.event_name second = HackathonTeamCreate.event_name first ->
  sanitize_string clean (HackathonTeamCreate.team_name second) (Some 100)
  = sanitize_string clean (HackathonTeamCreate.team_name first) (Some 100) ->
  exists msg,
    create_hackathon_team clean uuid4' second db1 = (Raised (ConflictError msg), db1)
    /\ http_status (fst (create_hackathon_team clean uuid4' second db1)) = Some 409
    /\ machine_code (fst (create_hackathon_team clean uuid4' second db1))
       = Some "CONFLICT".
Proof.
  intros H He Hn.
  destruct (create_hackathon_team_outcome clean uuid4 first db)
    as [(db' & E & Ht & _)|(msg & E)]; rewrite E in H; [|discriminate].
  injection H as <- <-.
  assert (E2 : insert_team
                 {| HackathonTeam.id := uuid4' 0%nat;
                    HackathonTeam.event_name := HackathonTeamCreate.event_name second;
                    HackathonTeam.team_name :=
                      sanitize_string clean (HackathonTeamCreate.team_name second)
                        (Some 100) |} db' = None).
  { unfold insert_team.
    cbn [HackathonTeam.id HackathonTeam.event_name HackathonTeam.team_name].
    match goal with
    | |- (if _ || ?b then _ else _) = _ => replace b with true
    end; [rewrite orb_true_r; reflexivity|].
    symmetry. apply existsb_exists. eexists. split.
    - rewrite Ht. apply in_or_app. right. left. reflexivity.
    - cbn [HackathonTeam.event_name HackathonTeam.team_name].
      rewrite He, Hn, !String.eqb_refl. reflexivity. }
  unfold create_hackathon_team. rewrite E2. eexists. repeat split.
Qed.

Lemma duplicate_team_name_conflicts_witness :
  let db1 := snd (create_hackathon_team plain_clean uuid_seq sample_team empty_db) in
  exists msg,
    create_hackathon_team plain_clean (fun i => uuid_seq (i + 10)) sample_team_again db1
    = (Raised (ConflictError msg), db1)
    /\ http_status (fst (create_hackathon_team plain_clean (fun i => uuid_seq (i + 10))
                           sample_team_again db1)) = Some 409
    /\ machine_code (fst (create_hackathon_team plain_clean (fun i => uuid_seq (i + 10))
                            sample_team_again db1)) = Some "CONFLICT".
Proof.
  apply (duplicate_team_name_conflicts plain_clean uuid_seq (fun i => uuid_seq (i + 10))
           sample_team sample_team_again empty_db
           (snd (create_hackathon_team plain_clean uuid_seq sample_team empty_db))
           {| HackathonTeam.id := "id-0"; HackathonTeam.event_name := "Hack the Box";
              HackathonTeam.team_name := "Null Pointers" |}).
  - vm_compute. reflexivity.
  - reflexivity.
  - vm_compute. reflexivity.
Defined.

Lemma insert_team_integrity (t : HackathonTeam.t) (db db' : Database) :
  insert_team t db = Some db' -> teams_integrity db -> teams_integrity db'.
Proof.
  unfold insert_team. intros H (H1 & H2 & H3 & H4).
  destruct (existsb _ (hackathon_teams db)) eqn:E1; [discriminate|].
  destruct (existsb _ (hackathon_teams db)) eqn:E2 in H; [discriminate|].
  simpl in H. injection H as <-. unfold teams_integrity. simpl.
  rewrite !map_app. simpl. repeat split; try assumption.
  - apply NoDup_snoc; [exact H1|]. exact (existsb_id_false HackathonTeam.id _ _ E1).
  - apply NoDup_snoc; [exact H2|]. intros Hin.
    apply in_map_iff in Hin as (x & Hk & Hx).
    assert (T : existsb (fun t' =>
                   String.eqb (HackathonTeam.event_name t') (HackathonTeam.event_name t)
                   && String.eqb (HackathonTeam.team_name t') (HackathonTeam.team_name t))
                  (hackathon_teams db) = true).
    { apply existsb_exists. exists x. split; [exact Hx|].
      unfold team_key in Hk. injection Hk as Ke Kt.
      rewrite Ke, Kt, !String.eqb_refl. reflexivity. }
    congruence.
  - intros m Hm. destruct (H4 m Hm) as (x & Hx & Hid).
    exists x. split; [apply in_or_app; left; exact Hx|exact Hid].
Qed.

Lemma insert_member_integrity (m : TeamMember.t) (db db' : Database) :
  insert_member m db = Some db' -> teams_integrity db -> teams_integrity db'.
Proof.
  unfold insert_member. intros H (H1 & H2 & H3 & H4).
  destruct (existsb _ (team_members db)) eqn:E1; [discriminate|].
  destruct (existsb _ (hackathon_teams db)) eqn:E2; [|discriminate].
  simpl in H. injection H as <-. unfold teams_integrity. simpl.
  rewrite map_app. simpl. repeat split; try assumption.
  - apply NoDup_snoc; [exact H3|]. exact (existsb_id_false TeamMember.id _ _ E1).
  - intros x Hx. apply in_app_or in Hx as [Hx|[<-|[]]]; [exact (H4 x Hx)|].
    apply existsb_exists in E2 as (t & Ht & Hid). apply String.eqb_eq in Hid.
    exists t. auto.
Qed.

Lemma add_members_integrity clean (uuid4 : nat -> UUID) (team_id : UUID)
    (l : list TeamMemberBase.t) :
  forall (i : nat) (db db' : Database),
    add_members clean uuid4 i team_id l db = Some db' ->
    teams_integrity db -> teams_integrity db'.
Proof.
  induction l as [|m l IH]; simpl; intros i db db' H Hok.
  - injection H as <-. exact Hok.
  - destruct (insert_member _ db) as [db1|] eqn:E; [|discriminate].
    apply (IH _ _ _ H). exact (insert_member_integrity _ _ _ E Hok).
Qed.

(** X18: [create_hackathon_team] keeps the declared constraints: from a
    store whose team identifiers, [(event_name, team_name)] pairs and member
    identifiers are without duplicates and whose members all belong to a
    stored team, it leads, whatever its arguments and outcome, to such a
    store. *)
Theorem teams_integrity_preserved
    clean (uuid4 : nat -> UUID) (team_data : HackathonTeamCreate.t) (db : Database) :
  teams_integrity db ->
  teams_integrity (snd (create_hackathon_team clean uuid4 team_data db)).
Proof.
  intros Hok. unfold create_hackathon_team.
  destruct (insert_team _ db) as [db1|] eqn:E1; [|exact Hok].
  destruct (add_members clean uuid4 1 _ _ db1) as [db2|] eqn:E2; [|exact Hok].
  simpl. apply (add_members_integrity _ _ _ _ _ _ _ E2).
  exact (insert_team_integrity _ _ _ E1 Hok).
Qed.

Lemma teams_integrity_preserved_witness :
  teams_integrity
    (snd (create_hackathon_team plain_clean (fun i => uuid_seq (i + 10)) sample_team_again
            (snd (create_hackathon_team plain_clean uuid_seq sample_team empty_db)))).
Proof.
  apply (teams_integrity_preserved plain_clean (fun i => uuid_seq (i + 10))
           sample_team_again
           (snd (create_hackathon_team plain_clean uuid_seq sample_team empty_db))).
  apply (teams_integrity_preserved plain_clean uuid_seq sample_team empty_db).
  unfold teams_integrity. simpl. repeat split; try constructor. intros m [].
Defined.

(** ** Access tokens and login *)

(** X19: the claims of an access token.  The dictionary handed to the
    encoder carries [iat], the second clock reading, and [exp], the first
    clock reading plus [expires_delta]; when [expires_delta] is absent or
    zero, the configured lifetime is used instead, so a zero delta does not
    give a token that is already expired.  Every other key of [data] is kept;
    an [exp] or [iat] that [data] carried is overwritten. *)
Theorem access_token_claims_spec
    (security : SecuritySettings) (data : gmap string claim)
    (expires_delta : option Z) (now_exp now_iat : Z) :
  let claims := access_token_claims security data expires_delta now_exp now_iat in
  claims !! "iat" = Some (ClaimTime now_iat)
  /\ claims !! "exp"
     = Some (ClaimTime (now_exp + match expires_delta with
                                  | Some d => if d =? 0
                                              then jwt_expiration_seconds security else d
                                  | None => jwt_expiration_seconds security
                                  end))
  /\ (forall k, k <> "exp" -> k <> "iat" -> claims !! k = data !! k)
  /\ access_token_claims security data (Some 0) now_exp now_iat
     = access_token_claims security data None now_exp now_iat.
Proof.
  intros claims. subst claims. unfold access_token_claims.
  split; [apply lookup_insert_eq|]. split.
  - rewrite lookup_insert_ne by discriminate. rewrite lookup_insert_eq.
    destruct expires_delta as [d|]; [|reflexivity].
    destruct (d =? 0); reflexivity.
  - split; [|reflexivity].
    intros k H1 H2. rewrite !lookup_insert_ne by congruence. reflexivity.
Qed.

(** X20: a failed login does not tell whether the user name exists.  The
    outcome for an unknown user name and the outcome for a known user name
    with a password that Argon2 reports as a mismatch are the same: HTTP 401
    with machine code [UNAUTHORIZED] and the same message, and the table of
    users is unchanged. *)
Theorem login_failure_does_not_reveal_username
    ph_verify jwt_encode (security : SecuritySettings) (utcnow now_exp now_iat : Z)
    (unknown known : LoginRequest.t) (users : list User.t) (user : User.t) :
  find (fun u => String.eqb (User.username u) (LoginRequest.username unknown)) users
  = None ->
  find (fun u => String.eqb (User.username u) (LoginRequest.username known)) users
  = Some user ->
  ph_verify (User.password_hash user) (LoginRequest.password known)
  = VerifyMismatchError ->
  login ph_verify jwt_encode security utcnow now_exp now_iat unknown users
  = login ph_verify jwt_encode security utcnow now_exp now_iat known users
  /\ login ph_verify jwt_encode security utcnow now_exp now_iat known users
     = (Raised (HTTPException 401 "Invalid username or password"), users)
  /\ http_status (fst (login ph_verify jwt_encode security utcnow now_exp now_iat
                         known users)) = Some 401
  /\ machine_code (fst (login ph_verify jwt_encode security utcnow now_exp now_iat
                          known users)) = Some "UNAUTHORIZED".
Proof.
  intros Hu Hk Hv.
  assert (E1 : login ph_verify jwt_encode security utcnow now_exp now_iat unknown users
               = (Raised (HTTPException 401 "Invalid username or password"), users)).
  { unfold login. rewrite Hu. reflexivity. }
  assert (E2 : login ph_verify jwt_encode security utcnow now_exp now_iat known users
               = (Raised (HTTPException 401 "Invalid username or password"), users)).
  { unfold login, verify_password. rewrite Hk, Hv. reflexivity. }
  rewrite E1, E2. repeat split.
Qed.

Lemma login_failure_does_not_reveal_username_witness :
  login accept_admin123 sample_encode sample_security 100 100 100
    {| LoginRequest.username := "root"; LoginRequest.password := "admin123" |}
    [sample_admin]
  = login accept_admin123 sample_encode sample_security 100 100 100
      {| LoginRequest.username := "admin"; LoginRequest.password := "letmein" |}
      [sample_admin]
  /\ login accept_admin123 sample_encode sample_security 100 100 100
       {| LoginRequest.username := "admin"; LoginRequest.password := "letmein" |}
       [sample_admin]
     = (Raised (HTTPException 401 "Invalid username or password"), [sample_admin])
  /\ http_status (fst (login accept_admin123 sample_encode sample_security 100 100 100
                         {| LoginRequest.username := "admin";
                            LoginRequest.password := "letmein" |} [sample_admin]))
     = Some 401
  /\ machine_code (fst (login accept_admin123 sample_encode sample_security 100 100 100
                          {| LoginRequest.username := "admin";
                             LoginRequest.password := "letmein" |} [sample_admin]))
     = Some "UNAUTHORIZED".
Proof.
  apply (login_failure_does_not_reveal_username accept_admin123 sample_encode
           sample_security 100 100 100
           {| LoginRequest.username := "root"; LoginRequest.password := "admin123" |}
           {| LoginRequest.username := "admin"; LoginRequest.password := "letmein" |}
           [sample_admin] sample_admin).
  - reflexivity.
  - reflexivity.
  - reflexivity.
Defined.

(** X21: an inactive account is reported only to a caller who knows the
    password.  For a stored user with [is_active] false, the login answers
    HTTP 403 when Argon2 verifies the password and HTTP 401, as for any wrong
    password, when Argon2 reports a mismatch; in both cases no token is
    issued and the table of users, [last_login] included, is unchanged. *)
Theorem login_inactive_account
    ph_verify jwt_encode (security : SecuritySettings) (utcnow now_exp now_iat : Z)
    (login_data : LoginRequest.t) (users : list User.t) (user : User.t) :
  find (fun u => String.eqb (User.username u) (LoginRequest.username login_data)) users
  = Some user ->
  User.is_active user = false ->
  let outcome :=
    login ph_verify jwt_encode security utcnow now_exp now_iat login_data users in
  (ph_verify (User.password_hash user) (LoginRequest.password login_data) = Verified ->
     outcome = (Raised (HTTPException 403 "User account is inactive"), users))
  /\ (ph_verify (User.password_hash user) (LoginRequest.password login_data)
      = VerifyMismatchError ->
        outcome = (Raised (HTTPException 401 "Invalid username or password"), users))
  /\ snd outcome = users
  /\ (forall token, fst outcome <> Returned 200 token).
Proof.
  intros Hf Hi outcome. subst outcome. unfold login, verify_password. rewrite Hf, Hi.
  destruct (ph_verify _ _); simpl; repeat split; try discriminate; intros; discriminate.
Qed.

Lemma login_inactive_account_witness :
  let inactive := {| User.id := "u1"; User.username := "admin";
                     User.password_hash := "h"; User.last_login := None;
                     User.is_active := false |} in
  let request := {| LoginRequest.username := "admin";
                    LoginRequest.password := "admin123" |} in
  let outcome :=
    login accept_admin123 sample_encode sample_security 100 100 100 request [inactive] in
  (accept_admin123 "h" "admin123" = Verified ->
     outcome = (Raised (HTTPException 403 "User account is inactive"), [inactive]))
  /\ (accept_admin123 "h" "admin123" = VerifyMismatchError ->
        outcome = (Raised (HTTPException 401 "Invalid username or password"), [inactive]))
  /\ snd outcome = [inactive]
  /\ (forall token, fst outcome <> Returned 200 token).
Proof.
  apply (login_inactive_account accept_admin123 sample_encode sample_security 100 100 100
           {| LoginRequest.username := "admin"; LoginRequest.password := "admin123" |}
           [{| User.id := "u1"; User.username := "admin";
               User.password_hash := "h"; User.last_login := None;
               User.is_active := false |}]
           {| User.id := "u1"; User.username := "admin";
              User.password_hash := "h"; User.last_login := None;
              User.is_active := false |}).
  - reflexivity.
  - reflexivity.
Defined.

(** X22: a successful login.  For a stored, active user whose password
    Argon2 verifies, the login returns 200 with a bearer token whose
    [expires_in] is the configured lifetime and whose claims name the user as
    [sub] and expire after that lifetime; in the table of users only
    [last_login] changes, and only on rows with the identifier of that
    user. *)
Theorem login_success
    ph_verify jwt_encode (security : SecuritySettings) (utcnow now_exp now_iat : Z)
    (login_data : LoginRequest.t) (users : list User.t) (user : User.t) :
  find (fun u => String.eqb (User.username u) (LoginRequest.username login_data)) users
  = Some user ->
  ph_verify (User.password_hash user) (LoginRequest.password login_data) = Verified ->
  User.is_active user = true ->
  exists claims users',
    login ph_verify jwt_encode security utcnow now_exp now_iat login_data users
    = (Returned 200
         {| Token.access_token :=
              jwt_encode claims (jwt_secret_key security) (jwt_algorithm security);
            Token.token_type := "bearer";
            Token.expires_in := jwt_expiration_seconds security |}, users')
    /\ claims !! "sub" = Some (ClaimText (LoginRequest.username login_data))
    /\ claims !! "exp" = Some (ClaimTime (now_exp + jwt_expiration_seconds security))
    /\ claims !! "iat" = Some (ClaimTime now_iat)
    /\ Forall2 (fun u u' =>
                  User.id u' = User.id u /\ User.username u' = User.username u
                  /\ User.password_hash u' = User.password_hash u
                  /\ User.is_active u' = User.is_active u
                  /\ (User.last_login u' = User.last_login u
                      \/ User.id u = User.id user /\ User.last_login u' = Some utcnow))
         users users'
    /\ In (set_last_login utcnow user) users'.
Proof.
  intros Hf Hv Ha. unfold login, verify_password. rewrite Hf, Hv, Ha. simpl negb. cbv iota.
  apply find_some in Hf as [Hin Hname]. apply String.eqb_eq in Hname.
  eexists _, _. split; [unfold create_access_token; reflexivity|].
  unfold access_token_claims.
  split; [rewrite !lookup_insert_ne by discriminate; rewrite lookup_singleton_eq;
          rewrite Hname; reflexivity|].
  split; [rewrite lookup_insert_ne by discriminate; apply lookup_insert_eq|].
  split; [apply lookup_insert_eq|].
  split.
  - clear Hin. induction users as [|u l IH]; simpl; constructor; [|exact IH].
    destruct (String.eqb_spec (User.id u) (User.id user)); simpl; tauto.
  - apply in_map_iff. exists user. rewrite String.eqb_refl. auto.
Qed.

Lemma login_success_witness :
  exists claims users',
    login accept_admin123 sample_encode sample_security 1700000000 1700000001 1700000002
      {| LoginRequest.username := "admin"; LoginRequest.password := "admin123" |}
      [sample_admin]
    = (Returned 200
         {| Token.access_token := sample_encode claims "change-me" "HS256";
            Token.token_type := "bearer";
            Token.expires_in := 3600 |}, users')
    /\ claims !! "sub" = Some (ClaimText "admin")
    /\ claims !! "exp" = Some (ClaimTime (1700000001 + 3600))
    /\ claims !! "iat" = Some (ClaimTime 1700000002)
    /\ Forall2 (fun u u' =>
                  User.id u' = User.id u /\ User.username u' = User.username u
                  /\ User.password_hash u' = User.password_hash u
                  /\ User.is_active u' = User.is_active u
                  /\ (User.last_login u' = User.last_login u
                      \/ User.id u = "u1" /\ User.last_login u' = Some 1700000000))
         [sample_admin] users'
    /\ In (set_last_login 1700000000 sample_admin) users'.
Proof.
  apply (login_success accept_admin123 sample_encode sample_security
           1700000000 1700000001 1700000002
           {| LoginRequest.username := "admin"; LoginRequest.password := "admin123" |}
           [sample_admin] sample_admin).
  - reflexivity.
  - reflexivity.
  - reflexivity.
Defined.

(** ** Error envelope *)

Lemma error_code_map_default (status : Z) :
  error_code_map status = "HTTP_ERROR"
  <-> ~ In status [401; 403; 404; 409; 413; 429; 500].
Proof.
  unfold error_code_map. simpl.
  destruct (Z.eqb_spec status 401); [split; [discriminate|intros H; exfalso; apply H; auto]|].
  destruct (Z.eqb_spec status 403); [split; [discriminate|intros H; exfalso; apply H; auto]|].
  destruct (Z.eqb_spec status 404); [split; [discriminate|intros H; exfalso; apply H; auto]|].
  destruct (Z.eqb_spec status 409);
    [split; [discriminate|intros H; exfalso; apply H; auto 6]|].
  destruct (Z.eqb_spec status 413);
    [split; [discriminate|intros H; exfalso; apply H; auto 7]|].
  destruct (Z.eqb_spec status 429);
    [split; [discriminate|intros H; exfalso; apply H; auto 8]|].
  destruct (Z.eqb_spec status 500);
    [split; [discriminate|intros H; exfalso; apply H; auto 9]|].
  split; [|reflexivity]. intros _ H. intuition congruence.
Qed.

(** X23: the two error paths give one envelope.  For the statuses 401,
    403, 409 and 429 an exception of the application's own class and a plain
    [HTTPException] with the same non-empty message are answered with the
    same response; a [NotFoundError] carries the code the status map gives
    to 404.  A plain [HTTPException] keeps its status, and its machine code
    is [HTTP_ERROR] exactly when the status is none of 401, 403, 404, 409,
    413, 429 and 500, as for the 400 of a rejected upload and for 422. *)
Theorem error_envelope_agreement (msg : string) :
  msg <> "" ->
  exception_handler (UnauthorizedError msg) = exception_handler (HTTPException 401 msg)
  /\ exception_handler (ForbiddenError msg) = exception_handler (HTTPException 403 msg)
  /\ exception_handler (ConflictError msg) = exception_handler (HTTPException 409 msg)
  /\ exception_handler (RateLimitError msg) = exception_handler (HTTPException 429 msg)
  /\ (forall resource resource_id,
        machine_code (@Raised unit (NotFoundError resource resource_id))
        = Some (error_code_map 404))
  /\ (forall status,
        http_status (@Raised unit (HTTPException status msg)) = Some status
        /\ (machine_code (@Raised unit (HTTPException status msg)) = Some "HTTP_ERROR"
            <-> ~ In status [401; 403; 404; 409; 413; 429; 500])).
Proof.
  intros Hmsg.
  assert (Hd : match msg with EmptyString => "An error occurred" | _ => msg end = msg).
  { destruct msg; [contradiction|reflexivity]. }
  unfold UnauthorizedError, ForbiddenError, ConflictError, RateLimitError. simpl.
  rewrite Hd. repeat split.
  - intros H. apply error_code_map_default. congruence.
  - intros H. f_equal. apply error_code_map_default. exact H.
Qed.

Lemma error_envelope_agreement_witness :
  exception_handler (UnauthorizedError "Invalid username or password")
  = exception_handler (HTTPException 401 "Invalid username or password")
  /\ machine_code (@Raised unit (HTTPException 400 "File is not a valid PDF"))
     = Some "HTTP_ERROR".
Proof.
  destruct (error_envelope_agreement "Invalid username or password")
    as (H1 & _); [discriminate|].
  split; [exact H1|].
  destruct (error_envelope_agreement "File is not a valid PDF")
    as (_ & _ & _ & _ & _ & H6); [discriminate|].
  apply (H6 400). simpl. intuition discriminate.
Defined.

(** ** Allowed origins *)

Lemma split_comma_length (s : string) :
  length (split_comma s) = S (count_commas s).
Proof.
  induction s as [|c s IH]; simpl; [reflexivity|].
  destruct (Ascii.eqb c ","); simpl; [rewrite IH; reflexivity|].
  destruct (split_comma s); simpl in *; [discriminate|exact IH].
Qed.

Lemma join_split_comma (s : string) : join_comma (split_comma s) = s.
Proof.
  induction s as [|c s IH]; simpl; [reflexivity|].
  destruct (Ascii.eqb_spec c ",") as [->|_].
  - pose proof (split_comma_length s) as L.
    destruct (split_comma s) as [|h t]; [discriminate|].
    change (join_comma (EmptyString :: h :: t)) with ("," +:+ join_comma (h :: t)).
    rewrite IH. reflexivity.
  - pose proof (split_comma_length s) as L.
    destruct (split_comma s) as [|h t]; [discriminate|].
    destruct t as [|h' t].
    + simpl in *. rewrite IH. reflexivity.
    + change (join_comma (String c h :: h' :: t))
        with (String c (h +:+ "," +:+ join_comma (h' :: t))).
      change (join_comma (h :: h' :: t)) with (h +:+ "," +:+ join_comma (h' :: t)) in IH.
      rewrite IH. reflexivity.
Qed.

(** X24: [allowed_origins_list] has one entry per comma-separated segment
    of the setting, empty segments included, so it is never empty and has one
    entry more than the setting has commas; every entry is trimmed; and the
    segments, before trimming, joined by commas give back the setting. *)
Theorem allowed_origins_list_segments (allowed_origins : string) :
  length (allowed_origins_list allowed_origins) = S (count_commas allowed_origins)
  /\ Forall (fun origin => Py.strip origin = origin) (allowed_origins_list allowed_origins)
  /\ join_comma (split_comma allowed_origins) = allowed_origins
  /\ allowed_origins_list "" = [""]
  /\ allowed_origins_list "http://localhost:5500, http://127.0.0.1:5500,"
     = ["http://localhost:5500"; "http://127.0.0.1:5500"; ""].
Proof.
  unfold allowed_origins_list. split; [rewrite length_map; apply split_comma_length|].
  split; [|split; [apply join_split_comma|split; reflexivity]].
  apply Forall_forall. intros o Ho. apply in_map_iff in Ho as (x & <- & _).
  apply strip_strip.
Qed.

(** ** Seeding *)

Lemma find_title_some (t : string) (l : list Event.t) :
  (exists e, In e l /\ Event.title e = t) ->
  exists e, find (fun e => String.eqb (Event.title e) t) l = Some e.
Proof.
  intros (e & Hin & Ht).
  destruct (find_first_exists (fun e => String.eqb (Event.title e) t) l e Hin)
    as (y & Hy & _); [rewrite Ht; apply String.eqb_refl|]. eauto.
Qed.

Lemma find_resource_title_some (t : string) (l : list Resource.t) :
  (exists r, In r l /\ Resource.title r = t) ->
  exists r, find (fun r => String.eqb (Resource.title r) t) l = Some r.
Proof.
  intros (r & Hin & Ht).
  destruct (find_first_exists (fun r => String.eqb (Resource.title r) t) l r Hin)
    as (y & Hy & _); [rewrite Ht; apply String.eqb_refl|]. eauto.
Qed.

Lemma seed_events_extends (uuid4 : nat -> UUID) (l : list EventFields) :
  forall (i : nat) (db db' : Database),
    seed_events uuid4 i l db = Some db' ->
    (exists new, events db' = (events db ++ new)%list)
    /\ registrations db' = registrations db /\ resources db' = resources db
    /\ hackathon_teams db' = hackathon_teams db /\ team_members db' = team_members db
    /\ Forall (fun t => exists e, In e (events db') /\ Event.title e = t)
         (map seed_title l).
Proof.
  induction l as [|d l IH]; simpl; intros i db db' H.
  - injection H as <-. repeat split; try constructor. exists []. symmetry. apply app_nil_r.
  - destruct (find _ (events db)) as [e|] eqn:F.
    + destruct (IH _ _ _ H) as ((new & Hn) & H1 & H2 & H3 & H4 & H5).
      repeat split; eauto. constructor; [|exact H5].
      apply find_some in F as [Hin Ht]. apply String.eqb_eq in Ht.
      exists e. split; [|exact Ht]. rewrite Hn. apply in_or_app. left. exact Hin.
    + destruct (insert_event _ db) as [db1|] eqn:E; [|discriminate].
      destruct (IH _ _ _ H) as ((new & Hn) & H1 & H2 & H3 & H4 & H5).
      unfold insert_event in E. destruct (existsb _ _); [discriminate|].
      injection E as <-. simpl in *.
      repeat split; try assumption.
      * eexists. rewrite Hn, <- app_assoc. reflexivity.
      * constructor; [|exact H5].
        exists (event_of_fields (uuid4 i) d). split; [|reflexivity].
        rewrite Hn. apply in_or_app. left. apply in_or_app. right. left. reflexivity.
Qed.

Lemma seed_events_nothing_to_do (uuid4 : nat -> UUID) (l : list EventFields) :
  forall (i : nat) (db : Database),
    Forall (fun t => exists e, In e (events db) /\ Event.title e = t) (map seed_title l) ->
    seed_events uuid4 i l db = Some db.
Proof.
  induction l as [|d l IH]; simpl; intros i db H; [reflexivity|].
  inversion H as [|? ? Hd Hl]; subst.
  destruct (find_title_some _ _ Hd) as (e & ->). apply IH. exact Hl.
Qed.

Lemma seed_resources_extends (uuid4 : nat -> UUID) (l : list ResourceFields) :
  forall (i : nat) (db db' : Database),
    seed_resources uuid4 i l db = Some db' ->
    (exists new, resources db' = (resources db ++ new)%list)
    /\ registrations db' = registrations db /\ events db' = events db
    /\ hackathon_teams db' = hackathon_teams db /\ team_members db' = team_members db
    /\ Forall (fun t => exists r, In r (resources db') /\ Resource.title r = t)
         (map seed_resource_title l).
Proof.
  induction l as [|d l IH]; simpl; intros i db db' H.
  - injection H as <-. repeat split; try constructor. exists []. symmetry. apply app_nil_r.
  - destruct (find _ (resources db)) as [r|] eqn:F.
    + destruct (IH _ _ _ H) as ((new & Hn) & H1 & H2 & H3 & H4 & H5).
      repeat split; eauto. constructor; [|exact H5].
      apply find_some in F as [Hin Ht]. apply String.eqb_eq in Ht.
      exists r. split; [|exact Ht]. rewrite Hn. apply in_or_app. left. exact Hin.
    + destruct (insert_resource _ db) as [db1|] eqn:E; [|discriminate].
      destruct (IH _ _ _ H) as ((new & Hn) & H1 & H2 & H3 & H4 & H5).
      unfold insert_resource in E. destruct (_ || _); [discriminate|].
      injection E as <-. simpl in *.
      repeat split; try assumption.
      * eexists. rewrite Hn, <- app_assoc. reflexivity.
      * constructor; [|exact H5].
        exists (resource_of_fields (uuid4 i) d). split; [|reflexivity].
        rewrite Hn. apply in_or_app. left. apply in_or_app. right. left. reflexivity.
Qed.

Lemma seed_resources_nothing_to_do (uuid4 : nat -> UUID) (l : list ResourceFields) :
  forall (i : nat) (db : Database),
    Forall (fun t => exists r, In r (resources db) /\ Resource.title r = t)
      (map seed_resource_title l) ->
    seed_resources uuid4 i l db = Some db.
Proof.
  induction l as [|d l IH]; simpl; intros i db H; [reflexivity|].
  inversion H as [|? ? Hd Hl]; subst.
  destruct (find_resource_title_some _ _ Hd) as (r & ->). apply IH. exact Hl.
Qed.

Lemma seed_admin_present (u : User.t) (users users1 : list User.t) (name : string) :
  match find (fun u => String.eqb (User.username u) name) users with
  | Some _ => Some users
  | None => insert_user u users
  end = Some users1 ->
  User.username u = name ->
  (exists new, users1 = (users ++ new)%list)
  /\ exists a, find (fun u => String.eqb (User.username u) name) users1 = Some a.
Proof.
  intros H Hname. destruct (find _ users) as [a|] eqn:F.
  - injection H as <-. split; [exists []; symmetry; apply app_nil_r|eauto].
  - unfold insert_user in H. destruct (_ || _); [discriminate|]. injection H as <-.
    split; [eauto|].
    destruct (find_first_exists (fun x => String.eqb (User.username x) name)
                (users ++ [u]) u) as (y & Hy & _).
    + apply in_or_app. right. left. reflexivity.
    + rewrite Hname. apply String.eqb_refl.
    + eauto.
Qed.

(** X25: seeding is idempotent and only appends.  When [seed_database]
    succeeds, the rows that were stored before are still there, unchanged and
    in place, with new rows after them, and registrations and teams are
    untouched; and running it again on the result, on another day, with
    other identifiers and even another [ADMIN_PASSWORD], succeeds and changes
    nothing: in particular an existing admin keeps the stored password
    hash. *)
Theorem seed_database_idempotent
    (hash_password : string -> string) (ADMIN_USERNAME ADMIN_PASSWORD : option string)
    (admin_uuid : UUID) (event_uuid resource_uuid : nat -> UUID) (today : date)
    (users users' : list User.t) (db db' : Database) :
  seed_database hash_password ADMIN_USERNAME ADMIN_PASSWORD admin_uuid
    event_uuid resource_uuid today users db = (Return tt, (users', db')) ->
  (exists new, users' = (users ++ new)%list)
  /\ (exists new, events db' = (events db ++ new)%list)
  /\ (exists new, resources db' = (resources db ++ new)%list)
  /\ registrations db' = registrations db
  /\ hackathon_teams db' = hackathon_teams db
  /\ team_members db' = team_members db
  /\ forall ADMIN_PASSWORD' admin_uuid' event_uuid' resource_uuid' today',
       seed_database hash_password ADMIN_USERNAME ADMIN_PASSWORD' admin_uuid'
         event_uuid' resource_uuid' today' users' db'
       = (Return tt, (users', db')).
Proof.
  unfold seed_database. intros H.
  destruct (match find _ users with Some _ => Some users | None => _ end)
    as [users1|] eqn:Eu; [|discriminate].
  destruct (seed_events event_uuid 0 (sample_events today) db) as [db1|] eqn:Ee;
    [|discriminate].
  destruct (seed_resources resource_uuid 0 sample_resources db1) as [db2|] eqn:Er;
    [|discriminate].
  injection H as <- <-.
  destruct (seed_admin_present _ _ _ _ Eu eq_refl) as (Hu & a & Ha).
  destruct (seed_events_extends _ _ _ _ _ Ee) as (He & E1 & E2 & E3 & E4 & E5).
  destruct (seed_resources_extends _ _ _ _ _ Er) as (Hr & R1 & R2 & R3 & R4 & R5).
  split; [exact Hu|]. split; [rewrite R2; exact He|]. split; [rewrite <- E2; exact Hr|].
  split; [congruence|]. split; [congruence|]. split; [congruence|].
  intros pw' au' eu' ru' today'. rewrite Ha.
  rewrite (seed_events_nothing_to_do eu' (sample_events today') 0 db2).
  2:{ rewrite R2. exact E5. }
  rewrite (seed_resources_nothing_to_do ru' sample_resources 0 db2) by exact R5.
  reflexivity.
Qed.

Lemma seed_database_idempotent_witness :
  let seeded :=
    snd (seed_database sample_hash None None "u1" uuid_seq
           (fun i => uuid_seq (i + 10)) 739000 [] sample_db) in
  (exists new, fst seeded = ([] ++ new)%list)
  /\ (exists new, events (snd seeded) = (events sample_db ++ new)%list)
  /\ (exists new, resources (snd seeded) = (resources sample_db ++ new)%list)
  /\ registrations (snd seeded) = registrations sample_db
  /\ hackathon_teams (snd seeded) = hackathon_teams sample_db
  /\ team_members (snd seeded) = team_members sample_db
  /\ forall ADMIN_PASSWORD' admin_uuid' event_uuid' resource_uuid' today',
       seed_database sample_hash None ADMIN_PASSWORD' admin_uuid'
         event_uuid' resource_uuid' today' (fst seeded) (snd seeded)
       = (Return tt, (fst seeded, snd seeded)).
Proof.
  apply (seed_database_idempotent sample_hash None None "u1" uuid_seq
           (fun i => uuid_seq (i + 10)) 739000 [] 
           (fst (snd (seed_database sample_hash None None "u1" uuid_seq
                        (fun i => uuid_seq (i + 10)) 739000 [] sample_db)))
           sample_db
           (snd (snd (seed_database sample_hash None None "u1" uuid_seq
                        (fun i => uuid_seq (i + 10)) 739000 [] sample_db)))).
  vm_compute. reflexivity.
Defined.

(** ** Reading a team back, and column widths *)

Lemma find_team_snoc (l : list HackathonTeam.t) (t : HackathonTeam.t) (k : UUID) :
  find (fun x => String.eqb (HackathonTeam.id x) k) (l ++ [t])
  = match find (fun x => String.eqb (HackathonTeam.id x) k) l with
    | Some x => Some x
    | None => if String.eqb (HackathonTeam.id t) k then Some t else None
    end.
Proof.
  induction l as [|a l IH]; simpl; [reflexivity|].
  destruct (String.eqb (HackathonTeam.id a) k); [reflexivity|exact IH].
Qed.

(** X26: a team that [create_hackathon_team] has created is read back by
    [get_hackathon_team] under the identifier of the team returned, and the
    teams stored before are read as before. *)
Theorem create_hackathon_team_then_get
    clean (uuid4 : nat -> UUID) (team_data : HackathonTeamCreate.t)
    (db db' : Database) (team : HackathonTeam.t) :
  create_hackathon_team clean uuid4 team_data db = (Returned 201 team, db') ->
  get_hackathon_team (HackathonTeam.id team) db' = Returned 200 team
  /\ HackathonTeam.event_name team = HackathonTeamCreate.event_name team_data
  /\ (forall k, k <> HackathonTeam.id team ->
        get_hackathon_team k db' = get_hackathon_team k db).
Proof.
  unfold create_hackathon_team. intros H.
  destruct (insert_team _ db) as [db1|] eqn:E1; [|discriminate].
  destruct (add_members clean uuid4 1 _ _ db1) as [db2|] eqn:E2; [|discriminate].
  injection H as <- <-.
  destruct (add_members_exact _ _ _ _ _ _ _ E2) as (_ & _ & _ & _ & Ht).
  unfold insert_team in E1.
  destruct (existsb _ (hackathon_teams db)) eqn:Epk; [discriminate|].
  destruct (existsb _ (hackathon_teams db)) eqn:Euq in E1; [discriminate|].
  simpl in E1. injection E1 as <-. simpl in Ht.
  split; [|split; [reflexivity|]].
  - unfold get_hackathon_team. rewrite Ht, find_team_snoc. simpl HackathonTeam.id.
    destruct (find _ (hackathon_teams db)) as [t|] eqn:Ff.
    + exfalso. apply find_some in Ff as [Hin Hid].
      assert (T : existsb (fun t' => String.eqb (HackathonTeam.id t') (uuid4 0%nat))
                    (hackathon_teams db) = true)
        by (apply existsb_exists; eauto).
      simpl in Epk. congruence.
    + rewrite String.eqb_refl. reflexivity.
  - intros k Hk. unfold get_hackathon_team. rewrite Ht, find_team_snoc. simpl in Hk.
    destruct (find _ (hackathon_teams db)); [reflexivity|]. simpl HackathonTeam.id.
    destruct (String.eqb_spec (uuid4 0%nat) k); [congruence|reflexivity].
Qed.

Lemma create_hackathon_team_then_get_witness :
  let db' := snd (create_hackathon_team plain_clean uuid_seq sample_team empty_db) in
  get_hackathon_team "id-0" db'
  = Returned 200 {| HackathonTeam.id := "id-0"; HackathonTeam.event_name := "Hack the Box";
                    HackathonTeam.team_name := "Null Pointers" |}
  /\ "Hack the Box" = HackathonTeamCreate.event_name sample_team
  /\ (forall k, k <> "id-0" ->
        get_hackathon_team k db' = get_hackathon_team k empty_db).
Proof.
  apply (create_hackathon_team_then_get plain_clean uuid_seq sample_team empty_db
           (snd (create_hackathon_team plain_clean uuid_seq sample_team empty_db))
           {| HackathonTeam.id := "id-0"; HackathonTeam.event_name := "Hack the Box";
              HackathonTeam.team_name := "Null Pointers" |}).
  vm_compute. reflexivity.
Defined.

Lemma member_rows_names clean (uuid4 : nat -> UUID) (team_id : UUID)
    (l : list TeamMemberBase.t) (i : nat) :
  Forall (fun row => Py.len (TeamMember.name row) <= 100)
    (member_rows clean uuid4 i team_id l).
Proof.
  revert i; induction l as [|m l IH]; simpl; intros i; constructor; [|apply IH].
  apply (sanitize_string_len clean (TeamMemberBase.name m) 100). lia.
Qed.

(** X27: the free-text fields the handlers store fit the columns of
    [models.py], whatever the cleaner returns and however long the text in
    the request is: the title of a created or retitled event and of a created
    resource has at most 200 characters, the [operative_name] of a
    registration, the name of a created team and the names of its members at
    most 100. *)
Theorem stored_text_fits_columns clean :
  (forall uuid4 today event_data db e db',
      create_event clean uuid4 today event_data db = (Returned 201 e, db') ->
      Py.len (Event.title e) <= 200)
  /\ (forall today event_id update t db e db',
        EventUpdate.title update = Some t ->
        update_event clean today event_id update db = (Returned 200 e, db') ->
        Py.len (Event.title e) <= 200)
  /\ (forall uuid4 registration_data db r db',
        create_registration clean uuid4 registration_data db = (Returned 201 r, db') ->
        Py.len (Registration.operative_name r) <= 100)
  /\ (forall uuid4 team_data db team db',
        create_hackathon_team clean uuid4 team_data db = (Returned 201 team, db') ->
        Py.len (HackathonTeam.team_name team) <= 100
        /\ exists rows,
             team_members db' = (team_members db ++ rows)%list
             /\ Forall (fun row => Py.len (TeamMember.name row) <= 100) rows)
  /\ (forall magic settings file_uuid row_uuid title level f w r w',
        create_resource clean magic settings file_uuid row_uuid title level f w
        = (Returned 201 r, w') ->
        Py.len (Resource.title r) <= 200).
Proof.
  split; [|split; [|split; [|split]]].
  - intros uuid4 today event_data db e db'. unfold create_event.
    destruct (_ <? _); [discriminate|].
    destruct (insert_event _ db); [|discriminate].
    intros [= <- _]. apply (sanitize_string_len clean (EventCreate.title event_data) 200). lia.
  - intros today event_id update t db e db' Ht. unfold update_event.
    destruct (query_event event_id db) as [old|]; [|discriminate].
    assert (L : forall x y,
               Py.len (Event.title (update_after_date clean update
                                      (y (update_before_date clean update x)))) <= 200
               \/ Event.title (y (update_before_date clean update x))
                  <> Event.title (update_before_date clean update x)).
    { intros x y.
      destruct (string_dec (Event.title (y (update_before_date clean update x)))
                  (Event.title (update_before_date clean update x))) as [E|];
        [left|right; assumption].
      unfold update_after_date.
      assert (T : Py.len (Event.title (update_before_date clean update x)) <= 200).
      { unfold update_before_date. rewrite Ht.
        destruct (EventUpdate.type update); apply (sanitize_string_len clean t 200); lia. }
      destruct (EventUpdate.description update), (EventUpdate.is_active update);
        cbn [set_description set_is_active Event.title]; rewrite E; exact T. }
    destruct (EventUpdate.date update) as [d|].
    + destruct (d <? today); [discriminate|]. intros [= <- _].
      destruct (L old (set_date d)) as [H|H]; [exact H|]. exfalso. apply H. reflexivity.
    + intros [= <- _].
      destruct (L old (fun x => x)) as [H|H]; [exact H|]. exfalso. apply H. reflexivity.
  - intros uuid4 registration_data db r db'. unfold create_registration.
    destruct (find _ (events db)); [|discriminate].
    destruct (insert_registration _ db); [|discriminate].
    intros [= <- _]. apply (sanitize_string_len clean
             (RegistrationCreate.operative_name registration_data) 100). lia.
  - intros uuid4 team_data db team db' H.
    destruct (create_hackathon_team_outcome clean uuid4 team_data db)
      as [(db1 & E & _ & Hr & _)|(msg & E)]; rewrite E in H; [|discriminate].
    injection H as <- <-.
    split; [apply (sanitize_string_len clean
                      (HackathonTeamCreate.team_name team_data) 100); lia|].
    eexists. split; [exact Hr|]. apply member_rows_names.
  - intros magic settings file_uuid row_uuid title level f w r w'.
    unfold create_resource. destruct (validate_pdf_file f) as [v m].
    destruct (negb v); [discriminate|].
    destruct (save_pdf_file magic settings file_uuid f w) as [[[url size]|e] w1];
      [|discriminate].
    destruct (insert_resource _ (store w1)); [|discriminate].
    intros [= <- _]. apply (sanitize_string_len clean title 200). lia.
Qed.

(** ** Reactivating a soft-deleted event *)

(** X4: a soft deletion is undone by an update that sets [is_active] to
    true and nothing else: the update returns the event, active again, with
    its identifier, title, type, date and description as they were before
    the deletion; a fetch by its identifier returns the same; the event is
    in the listing of active events again; every other event is read as
    before the deletion and the registrations are unchanged. *)
Theorem soft_delete_undone_by_reactivation
    clean (today : date) (event_id : UUID) (db : Database) (event : Event.t) :
  query_event event_id db = Some event ->
  exists event' db',
    update_event clean today event_id reactivate (snd (delete_event event_id db))
    = (Returned 200 event', db')
    /\ Event.id event' = event_id
    /\ Event.is_active event' = true
    /\ Event.title event' = Event.title event
    /\ Event.type event' = Event.type event
    /\ Event.date event' = Event.date event
    /\ Event.description event' = Event.description event
    /\ get_event event_id db' = Returned 200 event'
    /\ In event' (get_events None (Some true) db')
    /\ (forall k, k <> event_id -> get_event k db' = get_event k db)
    /\ registrations db' = registrations db.
Proof.
  intros Hq. destruct (query_event_some _ _ _ Hq) as [Hin Hid].
  rewrite (delete_event_store _ _ _ Hq). simpl snd.
  assert (Hq' : query_event event_id (update_event_row event_id (set_is_active false) db)
                = Some (set_is_active false event)).
  { unfold query_event. simpl. rewrite find_update_row by reflexivity.
    unfold query_event in Hq. rewrite Hq. simpl.
    rewrite Hid, String.eqb_refl. reflexivity. }
  unfold update_event. rewrite Hq'. simpl EventUpdate.date. cbv iota.
  assert (Hf : forall e, update_after_date clean reactivate
                           (update_before_date clean reactivate e)
                         = set_is_active true e) by reflexivity.
  eexists _, _. split; [reflexivity|]. rewrite Hf.
  split; [exact Hid|]. do 5 (split; [reflexivity|]).
  assert (Hget : get_event event_id
                   (update_event_row (Event.id (set_is_active false event))
                      (fun e => update_after_date clean reactivate
                                  (update_before_date clean reactivate e))
                      (update_event_row event_id (set_is_active false) db))
                 = Returned 200 (set_is_active true (set_is_active false event))).
  { unfold get_event. unfold query_event at 1. simpl events.
    rewrite find_update_row by reflexivity.
    unfold query_event in Hq'. simpl events in Hq'. rewrite Hq'. simpl.
    rewrite Hid, String.eqb_refl. reflexivity. }
  split; [exact Hget|]. split.
  - unfold get_events. apply order_by_date_desc_in. apply filter_In. split; [|reflexivity].
    simpl events. apply in_map_iff. exists (set_is_active false event). split.
    + simpl. rewrite Hid, String.eqb_refl. reflexivity.
    + apply in_map_iff. exists event. rewrite Hid, String.eqb_refl. auto.
  - split; [|reflexivity].
    intros k Hk. unfold get_event, query_event. simpl events.
    rewrite find_update_row_other; [| reflexivity | simpl; congruence].
    rewrite find_update_row_other; [reflexivity | reflexivity | exact Hk].
Qed.

Lemma soft_delete_undone_by_reactivation_witness :
  exists event' db',
    update_event plain_clean 739000 "e1" reactivate
      (snd (delete_event "e1" sample_registered_db))
    = (Returned 200 event', db')
    /\ Event.id event' = "e1"
    /\ Event.is_active event' = true
    /\ Event.title event' = "CTF night"
    /\ Event.type event' = WORKSHOP
    /\ Event.date event' = 739000
    /\ Event.description event' = None
    /\ get_event "e1" db' = Returned 200 event'
    /\ In event' (get_events None (Some true) db')
    /\ (forall k, k <> "e1" -> get_event k db' = get_event k sample_registered_db)
    /\ registrations db' = registrations sample_registered_db.
Proof.
  apply (soft_delete_undone_by_reactivation plain_clean 739000 "e1"
           sample_registered_db sample_event).
  reflexivity.
Defined.
